(** * swagger-api-gen: a shallow embedding of the TypeScript generator

    The repository turns a Swagger 1.2 description into TypeScript text.
    The source holds the type declarations ([swagger.interfaces.ts],
    lines 1-82) and two listings of the generator: the one with the
    JSDoc block (lines 83-532, module [Generate] below) and a second one
    without it (lines 533-898, module [GenerateAlt]).  Functions that are
    the same text in both listings are embedded once, before the modules.

    Conventions of the embedding:
    - a JavaScript string is a [string]; the characters are read as
      ASCII, so case conversion and the regular-expression classes act
      on the ASCII range and leave every other character alone;
    - an optional field [f?: T] is an [option T]; [undefined] is [None];
    - a JavaScript object used as a dictionary is an association list in
      the object's own iteration order;
    - asynchronous I/O is a state-and-error monad over a [World]. *)

From stdpp Require Import gmap strings list.
From Stdlib Require Import Ascii String ZArith Lia DecimalString.

Local Open Scope string_scope.
Local Open Scope list_scope.

(** ** JavaScript primitives used by the generator *)

Module Js.

Definition nl : string := String "010"%char EmptyString.
Definition quote : string := String "034"%char EmptyString.
Definition apos : string := String "039"%char EmptyString.

(** Truthiness of a string: every string but the empty one. *)
Definition truthy (s : string) : bool :=
  match s with EmptyString => false | String _ _ => true end.

(** Truthiness of an optional string ([undefined] is falsy). *)
Definition truthy_opt (o : option string) : bool :=
  match o with Some s => truthy s | None => false end.

Definition is_upper (c : ascii) : bool :=
  let n := nat_of_ascii c in (65 <=? n)%nat && (n <=? 90)%nat.

Definition is_lower (c : ascii) : bool :=
  let n := nat_of_ascii c in (97 <=? n)%nat && (n <=? 122)%nat.

Definition is_digit (c : ascii) : bool :=
  let n := nat_of_ascii c in (48 <=? n)%nat && (n <=? 57)%nat.

(** The ASCII range, where the case maps and the character classes
    below are those of JavaScript.  Outside of it JavaScript maps the
    letters of other scripts as well and knows further blanks, which the
    embedding does not follow: statements about case or about words are
    made for ASCII text (see [startsAscii], [asciiText]). *)
Definition is_ascii (c : ascii) : bool := (nat_of_ascii c <? 128)%nat.

(** [toLowerCase] and [toUpperCase] of one ASCII character. *)
Definition lower_char (c : ascii) : ascii :=
  if is_upper c then ascii_of_nat (nat_of_ascii c + 32) else c.

Definition upper_char (c : ascii) : ascii :=
  if is_lower c then ascii_of_nat (nat_of_ascii c - 32) else c.

Fixpoint toLowerCase (s : string) : string :=
  match s with
  | EmptyString => EmptyString
  | String c r => String (lower_char c) (toLowerCase r)
  end.

Fixpoint toUpperCase (s : string) : string :=
  match s with
  | EmptyString => EmptyString
  | String c r => String (upper_char c) (toUpperCase r)
  end.

(** [str.charAt(0)]: the first character as a string, or the empty string. *)
Definition charAt0 (s : string) : string :=
  match s with
  | EmptyString => EmptyString
  | String c _ => String c EmptyString
  end.

(** [str.substr(1)]: everything after the first character. *)
Definition substr1 (s : string) : string :=
  match s with
  | EmptyString => EmptyString
  | String _ r => r
  end.

(** [\w] of a regular expression (ASCII by definition). *)
Definition is_word (c : ascii) : bool :=
  is_upper c || is_lower c || is_digit c || Ascii.eqb c "_"%char.

(** [\s] of a regular expression, on ASCII characters. *)
Definition is_space (c : ascii) : bool :=
  let n := nat_of_ascii c in
  ((9 <=? n)%nat && (n <=? 13)%nat) || (n =? 32)%nat.

(** [items.join(sep)]. *)
Definition join (sep : string) (items : list string) : string :=
  String.concat sep items.

(** [arr.includes(x)] on strings. *)
Definition includes (items : list string) (x : string) : bool :=
  existsb (String.eqb x) items.

(** [arr.some(f)]. *)
Definition some {A} (f : A -> bool) (items : list A) : bool :=
  existsb f items.

(** [str.split(sep)] for a one-character separator: the pieces between
    the separators, the empty string giving one empty piece. *)
Fixpoint split_go (sep : ascii) (cur : string) (s : string) : list string :=
  match s with
  | EmptyString => [cur]
  | String c r =>
      if Ascii.eqb c sep then cur :: split_go sep EmptyString r
      else split_go sep (cur +:+ String c EmptyString) r
  end.

Definition split (sep : ascii) (s : string) : list string :=
  split_go sep EmptyString s.

Fixpoint spaces (n : nat) : string :=
  match n with
  | O => EmptyString
  | S k => String " "%char (spaces k)
  end.

(** [str.padEnd(n)]: spaces are added up to length [n], nothing is cut. *)
Definition padEnd (n : nat) (s : string) : string :=
  s +:+ spaces (n - String.length s).

(** [Object.values], [Object.entries] and a property read of a
    dictionary object. *)
Definition Dict (V : Type) : Type := list (string * V).

Definition values {V} (o : Dict V) : list V := map snd o.
Definition entries {V} (o : Dict V) : list (string * V) := o.

Fixpoint get {V} (o : Dict V) (k : string) : option V :=
  match o with
  | [] => None
  | (k', v) :: r => if String.eqb k k' then Some v else get r k
  end.

(** Defining or overwriting one own property: an existing key keeps its
    place and takes the new value, a new key goes to the end.  (JavaScript
    lists keys that are canonical array indices before the others; the
    keys of the generator are names and paths, and no statement below
    depends on the place of a key that is an index.) *)
Fixpoint set {V} (o : Dict V) (k : string) (v : V) : Dict V :=
  match o with
  | [] => [(k, v)]
  | (k', v') :: r =>
      if String.eqb k k' then (k', v) :: r else (k', v') :: set r k v
  end.

(** The object spread [{...a, ...b}]: the properties of [a], then those
    of [b] defined one after the other. *)
Definition spread {V} (a b : Dict V) : Dict V :=
  fold_left (fun acc kv => set acc (fst kv) (snd kv)) b a.

End Js.

(** ** The data model ([swagger.interfaces.ts], lines 1-82) *)

Definition Mime := string.
Definition Method := string.
Definition ModelID := string.

(** [ParamType] is the union ['query' | 'path' | 'body'] and
    [ModelPropertyType] the union ['string' | 'array' | 'number' |
    'integer']: both are strings when the generator runs, and its
    comparisons are string comparisons. *)
Definition ParamType := string.
Definition ModelPropertyType := string.

#[warnings="-register-all"]
Inductive IModelProperty : Type :=
  Build_IModelProperty {
    prop_type : option ModelPropertyType;
    prop_description : option string;
    prop_items : option IModelProperty;
    prop_format : option string;
    prop_ref : option ModelID   (* the field [$ref] *)
  }.

Record IModel : Type := {
  model_id : ModelID;
  model_required : list string;
  model_properties : Js.Dict IModelProperty
}.

Record IParameter : Type := {
  param_description : string;
  param_enum : option (list string);
  param_format : option string;
  param_name : string;
  param_paramType : option ParamType;
  param_required : bool;
  param_type : string
}.

Record IResponseMessage : Type := {
  rm_code : Z;
  rm_message : string;
  rm_responseModel : ModelID
}.

Record IOperation : Type := {
  op_consumes : list Mime;
  op_format : option string;
  op_method : Method;
  op_nickname : string;
  op_notes : string;
  op_parameters : list IParameter;
  op_produces : list Mime;
  op_responseMessages : list IResponseMessage;
  op_summary : string;
  op_type : ModelID
}.

Record IApiOperations : Type := {
  ao_operations : list IOperation;
  ao_path : string
}.

Record IApi : Type := {
  api_apiVersion : string;
  api_apis : list IApiOperations;
  api_basePath : string;
  api_swaggerVersion : string;
  api_consumes : list Mime;
  api_description : string;
  api_models : Js.Dict IModel;
  api_produces : list Mime;
  api_resourcePath : string
}.

Record ISchemaApiInfo : Type := {
  info_description : string;
  info_path : string
}.

Record ISchemaApi : Type := {
  schema_apiVersion : string;
  schema_apis : list ISchemaApiInfo;
  schema_basePath : string;
  schema_swaggerVersion : string
}.

Record IGenerateApisOptions : Type := {
  opt_url : string;
  opt_dest : string;
  opt_splitInterfaces : bool;
  opt_groupClass : string
}.

(** ** JSON documents and the unchecked casts

    [getJson] returns what [JSON.parse] built; [generateApis] then reads
    it through [as ISchemaApi] and [as IApi], which check nothing.  A
    document is a [Json] value; a number is kept when it is an integer.
    The casts are the partial functions [asISchemaApi] and [asIApi]: they
    succeed on the documents that have the declared shape (a field
    declared with [?] may be missing). *)

#[warnings="-register-all"]
Inductive Json : Type :=
| JNull
| JBool (b : bool)
| JNumber (n : Z)
| JString (s : string)
| JArray (l : list Json)
| JObject (o : Js.Dict Json).

Module Cast.

(** Truthiness of a decoded document: [null], [false], [0] and the
    empty string are falsy. *)
Definition truthy (v : Json) : bool :=
  match v with
  | JNull => false
  | JBool b => b
  | JNumber n => negb (n =? 0)%Z
  | JString s => Js.truthy s
  | JArray _ | JObject _ => true
  end.

Definition asString (v : Json) : option string :=
  match v with JString s => Some s | _ => None end.

Definition asBool (v : Json) : option bool :=
  match v with JBool b => Some b | _ => None end.

Definition asNumber (v : Json) : option Z :=
  match v with JNumber n => Some n | _ => None end.

Definition asObject (v : Json) : option (Js.Dict Json) :=
  match v with JObject o => Some o | _ => None end.

Fixpoint traverse {A B} (f : A -> option B) (l : list A) : option (list B) :=
  match l with
  | [] => Some []
  | x :: r =>
      match f x, traverse f r with
      | Some y, Some ys => Some (y :: ys)
      | _, _ => None
      end
  end.

Definition asArray {A} (f : Json -> option A) (v : Json) : option (list A) :=
  match v with JArray l => traverse f l | _ => None end.

Definition asDict {A} (f : Json -> option A) (v : Json)
  : option (Js.Dict A) :=
  match v with
  | JObject o =>
      traverse (fun kv => match f (snd kv) with
                          | Some a => Some (fst kv, a)
                          | None => None
                          end) o
  | _ => None
  end.

(** A field that the interface requires. *)
Definition field {A} (f : Json -> option A) (o : Js.Dict Json) (k : string)
  : option A :=
  match Js.get o k with Some v => f v | None => None end.

(** A field that the interface declares with [?]. *)
Definition optField {A} (f : Json -> option A) (o : Js.Dict Json)
    (k : string) : option (option A) :=
  match Js.get o k with
  | Some v => match f v with Some a => Some (Some a) | None => None end
  | None => Some None
  end.

Fixpoint asIModelProperty (v : Json) : option IModelProperty :=
  match v with
  | JObject o =>
      let items :=
        (fix find (o : list (string * Json))
           : option (option IModelProperty) :=
           match o with
           | [] => Some None
           | (k, v') :: r =>
               if String.eqb "items" k then
                 match asIModelProperty v' with
                 | Some p => Some (Some p)
                 | None => None
                 end
               else find r
           end) o in
      match optField asString o "type", optField asString o "description",
            items, optField asString o "format", optField asString o "$ref"
      with
      | Some type, Some description, Some items, Some format, Some ref =>
          Some (Build_IModelProperty type description items format ref)
      | _, _, _, _, _ => None
      end
  | _ => None
  end.

Definition asIModel (v : Json) : option IModel :=
  match v with
  | JObject o =>
      match field asString o "id", field (asArray asString) o "required",
            field (asDict asIModelProperty) o "properties"
      with
      | Some id, Some required, Some properties =>
          Some {| model_id := id; model_required := required;
                  model_properties := properties |}
      | _, _, _ => None
      end
  | _ => None
  end.

Definition asIParameter (v : Json) : option IParameter :=
  match v with
  | JObject o =>
      match field asString o "description",
            optField (asArray asString) o "enum",
            optField asString o "format", field asString o "name",
            optField asString o "paramType", field asBool o "required",
            field asString o "type"
      with
      | Some description, Some enum, Some format, Some name,
        Some paramType, Some required, Some type =>
          Some {| param_description := description; param_enum := enum;
                  param_format := format; param_name := name;
                  param_paramType := paramType; param_required := required;
                  param_type := type |}
      | _, _, _, _, _, _, _ => None
      end
  | _ => None
  end.

Definition asIResponseMessage (v : Json) : option IResponseMessage :=
  match v with
  | JObject o =>
      match field asNumber o "code", field asString o "message",
            field asString o "responseModel"
      with
      | Some code, Some message, Some responseModel =>
          Some {| rm_code := code; rm_message := message;
                  rm_responseModel := responseModel |}
      | _, _, _ => None
      end
  | _ => None
  end.

Definition asIOperation (v : Json) : option IOperation :=
  match v with
  | JObject o =>
      match field (asArray asString) o "consumes",
            optField asString o "format", field asString o "method",
            field asString o "nickname", field asString o "notes",
            field (asArray asIParameter) o "parameters",
            field (asArray asString) o "produces",
            field (asArray asIResponseMessage) o "responseMessages",
            field asString o "summary", field asString o "type"
      with
      | Some consumes, Some format, Some method, Some nickname, Some notes,
        Some parameters, Some produces, Some responseMessages,
        Some summary, Some type =>
          Some {| op_consumes := consumes; op_format := format;
                  op_method := method; op_nickname := nickname;
                  op_notes := notes; op_parameters := parameters;
                  op_produces := produces;
                  op_responseMessages := responseMessages;
                  op_summary := summary; op_type := type |}
      | _, _, _, _, _, _, _, _, _, _ => None
      end
  | _ => None
  end.

Definition asIApiOperations (v : Json) : option IApiOperations :=
  match v with
  | JObject o =>
      match field (asArray asIOperation) o "operations",
            field asString o "path"
      with
      | Some operations, Some path =>
          Some {| ao_operations := operations; ao_path := path |}
      | _, _ => None
      end
  | _ => None
  end.

Definition asIApi (v : Json) : option IApi :=
  match v with
  | JObject o =>
      match field asString o "apiVersion",
            field (asArray asIApiOperations) o "apis",
            field asString o "basePath", field asString o "swaggerVersion",
            field (asArray asString) o "consumes",
            field asString o "description",
            field (asDict asIModel) o "models",
            field (asArray asString) o "produces",
            field asString o "resourcePath"
      with
      | Some apiVersion, Some apis, Some basePath, Some swaggerVersion,
        Some consumes, Some description, Some models, Some produces,
        Some resourcePath =>
          Some {| api_apiVersion := apiVersion; api_apis := apis;
                  api_basePath := basePath;
                  api_swaggerVersion := swaggerVersion;
                  api_consumes := consumes; api_description := description;
                  api_models := models; api_produces := produces;
                  api_resourcePath := resourcePath |}
      | _, _, _, _, _, _, _, _, _ => None
      end
  | _ => None
  end.

Definition asISchemaApiInfo (v : Json) : option ISchemaApiInfo :=
  match v with
  | JObject o =>
      match field asString o "description", field asString o "path" with
      | Some description, Some path =>
          Some {| info_description := description; info_path := path |}
      | _, _ => None
      end
  | _ => None
  end.

Definition asISchemaApi (v : Json) : option ISchemaApi :=
  match v with
  | JObject o =>
      match field asString o "apiVersion",
            field (asArray asISchemaApiInfo) o "apis",
            field asString o "basePath", field asString o "swaggerVersion"
      with
      | Some apiVersion, Some apis, Some basePath, Some swaggerVersion =>
          Some {| schema_apiVersion := apiVersion; schema_apis := apis;
                  schema_basePath := basePath;
                  schema_swaggerVersion := swaggerVersion |}
      | _, _, _, _ => None
      end
  | _ => None
  end.

End Cast.

(** ** The world of a run: files, network, and what was done

    [fs.promises] and [fetch] act on a [World].  The file system is a
    map from path to content (directories are not tracked: [mkdir] is
    only recorded, and a write always resolves, also where the source's
    would be rejected for a missing directory or for a path that names a
    directory; a statement that a write goes well carries the conditions
    on the path as hypotheses); the network
    answers a URL with a response body or not at all.  Every action is
    put at the head of [trace], so the trace reads newest first. *)

Inductive Error : Type :=
| ENOENT (path : string)          (* no such file *)
| FetchError (url : string)       (* the request was not answered *)
| SyntaxError (text : string)     (* the text is not JSON *)
| TypeError (message : string)
| CastMismatch (interface : string).
                (* the document has not the shape of the interface it is
                   cast to; what the source does with it is not modelled *)

Inductive Event : Type :=
| Mkdir (path : string)
| Access (path : string)
| ReadFile (path : string)
| WriteFile (path data : string)
| CopyFile (src dest : string)
| Fetch (url : string)
| Log (message : string)
| LogError (err : Error).

Record World : Type := {
  files : gmap string string;
  remote : string -> option string;
  trace : list Event
}.

Inductive Outcome (A : Type) : Type :=
| Resolved (a : A)
| Rejected (err : Error).
Arguments Resolved {A} a.
Arguments Rejected {A} err.

Definition IO (A : Type) : Type := World -> Outcome A * World.

Module IO.

Definition ret {A} (a : A) : IO A := fun w => (Resolved a, w).

Definition throw {A} (err : Error) : IO A := fun w => (Rejected err, w).

Definition bind {A B} (m : IO A) (k : A -> IO B) : IO B :=
  fun w =>
    match m w with
    | (Resolved a, w') => k a w'
    | (Rejected err, w') => (Rejected err, w')
    end.

(** [try { m } catch (err) { handler }]. *)
Definition tryCatch {A} (m : IO A) (handler : Error -> IO A) : IO A :=
  fun w =>
    match m w with
    | (Resolved a, w') => (Resolved a, w')
    | (Rejected err, w') => handler err w'
    end.

Definition emit (e : Event) (w : World) : World :=
  {| files := files w; remote := remote w; trace := e :: trace w |}.

Definition mkdir (path : string) : IO unit :=
  fun w => (Resolved tt, emit (Mkdir path) w).

Definition access (path : string) : IO unit :=
  fun w =>
    match files w !! path with
    | Some _ => (Resolved tt, emit (Access path) w)
    | None => (Rejected (ENOENT path), emit (Access path) w)
    end.

Definition readFile (path : string) : IO string :=
  fun w =>
    match files w !! path with
    | Some content => (Resolved content, emit (ReadFile path) w)
    | None => (Rejected (ENOENT path), emit (ReadFile path) w)
    end.

Definition writeFile (path data : string) : IO unit :=
  fun w =>
    (Resolved tt,
     {| files := <[path := data]> (files w); remote := remote w;
        trace := WriteFile path data :: trace w |}).

Definition copyFile (src dest : string) : IO unit :=
  fun w =>
    match files w !! src with
    | Some content =>
        (Resolved tt,
         {| files := <[dest := content]> (files w); remote := remote w;
            trace := CopyFile src dest :: trace w |})
    | None => (Rejected (ENOENT src), emit (CopyFile src dest) w)
    end.

(** [fetch(url)]: the body of the response. *)
Definition fetch (url : string) : IO string :=
  fun w =>
    match remote w url with
    | Some body => (Resolved body, emit (Fetch url) w)
    | None => (Rejected (FetchError url), emit (Fetch url) w)
    end.

Definition consoleLog (message : string) : IO unit :=
  fun w => (Resolved tt, emit (Log message) w).

Definition consoleLogError (err : Error) : IO unit :=
  fun w => (Resolved tt, emit (LogError err) w).

(** [for (const x of items) { body }], the loop carrying [acc]. *)
Fixpoint forOf {A S} (items : list A) (acc : S) (body : S -> A -> IO S)
  : IO S :=
  match items with
  | [] => ret acc
  | x :: r => bind (body acc x) (fun acc' => forOf r acc' body)
  end.

Definition forEach {A} (items : list A) (body : A -> IO unit) : IO unit :=
  forOf items tt (fun _ x => body x).

Definition cast {A} (interface : string) (f : Json -> option A) (v : Json)
  : IO A :=
  match f v with
  | Some a => ret a
  | None => throw (CastMismatch interface)
  end.

End IO.

Declare Scope io_scope.
Delimit Scope io_scope with io.
Notation "'await' x <- m ; k" := (IO.bind m (fun x => k))
  (at level 10, x name, m at level 100, k at level 200,
   format "'[v' 'await'  x  <-  m ; '/' k ']'") : io_scope.

(** ** Functions that are the same text in both listings of the generator *)

(** [toTitleCase]: every match of [/\w\S*/g] (a word character followed by
    the longest run of non-blank characters) has its first character put
    in upper case and the others in lower case.  [inWord] says that the
    scan is inside a match. *)
Fixpoint toTitleCase_go (inWord : bool) (str : string) : string :=
  match str with
  | EmptyString => EmptyString
  | String c r =>
      if inWord then
        if Js.is_space c then String c (toTitleCase_go false r)
        else String (Js.lower_char c) (toTitleCase_go true r)
      else
        if Js.is_word c then String (Js.upper_char c) (toTitleCase_go true r)
        else String c (toTitleCase_go false r)
  end.

Definition toTitleCase (str : string) : string := toTitleCase_go false str.

Definition unTitleCase (str : string) : string :=
  Js.toLowerCase (Js.charAt0 str) +:+ Js.substr1 str.

Definition getApiName (api : IApi) : string :=
  Js.join EmptyString
    (map toTitleCase
       (filter (fun s => Js.truthy s
                         && negb (String.eqb s (api_apiVersion api))
                         && negb (String.eqb (Js.charAt0 s) "{"))
               (Js.split "/"%char (api_resourcePath api)))).

Definition getTsInterfaceName (modelId : ModelID) : string :=
  if Js.truthy modelId then "I" +:+ modelId else "unknown".

Definition mapType (type : option string) : string :=
  match type with
  | Some t =>
      if String.eqb t "integer" then "number"
      else if String.eqb t "number" then "number"
      else if String.eqb t "string" then "string"
      else if Js.truthy t then t else "unknown"   (* type || 'unknown' *)
  | None => "unknown"
  end.

(** [getTsPropertyType] (lines 149-159), called [getTsType] in the second
    listing (lines 597-607). *)
Fixpoint getTsPropertyType (property : IModelProperty) : string :=
  match property with
  | Build_IModelProperty type _ items _ ref =>
      let otherwise :=
        if Js.truthy_opt ref then getTsInterfaceName (default EmptyString ref)
        else mapType type in
      match items with
      | Some it =>
          if bool_decide (type = Some "array")
          then getTsPropertyType it +:+ "[]"
          else otherwise
      | None => otherwise
      end
  end.

(** The union of quoted literals of an [enum]. *)
Definition quoted (s : string) : string := Js.apos +:+ s +:+ Js.apos.

Definition getTsOperationOptionsInterfaceName (operation : IOperation) : string :=
  "I" +:+ op_nickname operation +:+ "Options".

(** [Array.from(new Set(items))]: the first occurrence of every item, in
    the order of the first occurrences. *)
Fixpoint uniq_go (seen : list string) (items : list string) : list string :=
  match items with
  | [] => []
  | x :: r =>
      if Js.includes seen x then uniq_go seen r
      else x :: uniq_go (x :: seen) r
  end.

Definition uniq (items : list string) : list string := uniq_go [] items.

(** The import lines at the head of [getTsInterface], the same in both
    listings: the [$ref] of every property, then the [$ref] of every
    property's [items]; [filter(Boolean)] keeps the non-empty ones. *)
Definition refOf (prop : option IModelProperty) : option ModelID :=
  match prop with
  | Some p => prop_ref p     (* prop && prop.$ref *)
  | None => None
  end.

Definition filterBoolean (l : list (option string)) : list string :=
  flat_map (fun o => match o with
                     | Some s => if Js.truthy s then [s] else []
                     | None => []
                     end) l.

Definition modelInterfaces (model : IModel) : list string :=
  map (fun modelId => if Js.truthy modelId then getTsInterfaceName modelId
                      else modelId)
      (filterBoolean
         (map refOf
              (map Some (Js.values (model_properties model))
               ++ map prop_items (Js.values (model_properties model))))).

Definition importLine (name : string) : string :=
  "import { " +:+ name +:+ " } from " +:+ Js.quote +:+ "./" +:+ name
  +:+ Js.quote +:+ ";".

Definition modelImports (model : IModel) (options : IGenerateApisOptions)
  : string :=
  if opt_splitInterfaces options then
    let out := Js.join Js.nl (map importLine (modelInterfaces model)) in
    if Js.truthy out then out +:+ Js.nl +:+ Js.nl else out
  else EmptyString.

(** The cache key of [getJson]: [path.replace(/[:/.\-?={}]+/g, '')]. *)
Definition isKeyNoise (c : ascii) : bool :=
  existsb (Ascii.eqb c)
          [":"%char; "/"%char; "."%char; "-"%char; "?"%char; "="%char;
           "{"%char; "}"%char].

Fixpoint stripKey (path : string) : string :=
  match path with
  | EmptyString => EmptyString
  | String c r => if isKeyNoise c then stripKey r else String c (stripKey r)
  end.

Definition cachePath : string := "./cache".

Definition cacheFile (path : string) : string :=
  cachePath +:+ "/" +:+ stripKey path.

(** The callback of [apis.reduce] in [generateApis]. *)
Definition mergeApi (acc api : IApi) : IApi :=
  {| api_apiVersion := api_apiVersion acc;
     api_apis := api_apis acc ++ api_apis api;
     api_basePath := api_basePath acc;
     api_swaggerVersion := api_swaggerVersion acc;
     api_consumes := api_consumes acc;
     api_description := api_description acc;
     api_models := Js.spread (api_models acc) (api_models api);
     api_produces := api_produces acc;
     api_resourcePath := api_resourcePath acc |}.

(** [items.reduce(f)] without an initial value: the first item starts the
    accumulator, and an empty array throws a [TypeError]. *)
Definition reduce {A} (f : A -> A -> A) (items : list A) : IO A :=
  match items with
  | [] => IO.throw (TypeError "Reduce of empty array with no initial value")
  | x :: r => IO.ret (fold_left f r x)
  end.

Definition mergeApis (apis : list IApi) : IO IApi := reduce mergeApi apis.

(** ** The generator, first listing (lines 83-532) *)

Module Generate.

Definition getTsParameterType (property : IParameter) : string :=
  match param_enum property with
  | Some enum => Js.join " | " (map quoted enum)
  | None =>
      if bool_decide (param_paramType property = Some "body")
      then getTsInterfaceName (param_type property)
      else mapType (Some (param_type property))
  end.

(** One turn of the loop over [Object.entries(model.properties)]. *)
Definition interfaceField (model : IModel) (out : string)
    (entry : string * IModelProperty) : string :=
  let '(name, property) := entry in
  let out := out +:+ Js.nl in
  let out := if Js.truthy_opt (prop_description property)
             then out +:+ "  // " +:+ default EmptyString (prop_description property)
             else out in
  let type := getTsPropertyType property in
  let required := if Js.includes (model_required model) name
                  then EmptyString else "?" in
  out +:+ Js.nl +:+ "  " +:+ name +:+ required +:+ ": " +:+ type +:+ ";".

Definition getTsInterface (model : IModel) (options : IGenerateApisOptions)
  : string :=
  let out := modelImports model options in
  let out := out +:+ "export interface " +:+ getTsInterfaceName (model_id model)
                 +:+ " {" in
  let out := fold_left (interfaceField model)
                       (Js.entries (model_properties model)) out in
  out +:+ Js.nl +:+ "}".

Definition getTsParam (parameter : IParameter) : string :=
  let required := if param_required parameter then EmptyString else "?" in
  let type := getTsParameterType parameter in
  let out := EmptyString in
  let out := if Js.truthy (param_description parameter)
             then out +:+ Js.nl +:+ "    // " +:+ param_description parameter
             else out in
  out +:+ Js.nl +:+ "    " +:+ param_name parameter +:+ required +:+ ": "
      +:+ type +:+ ";".

Definition isParamType (t : string) (o : IParameter) : bool :=
  bool_decide (param_paramType o = Some t).

(** One turn of the loop that fills [body], [query] and [params]. *)
Definition groupStep (acc : string * string * string) (param : IParameter)
  : string * string * string :=
  let '(body, query, params) := acc in
  let body := if isParamType "body" param then body +:+ getTsParam param
              else body in
  let query := if isParamType "query" param then query +:+ getTsParam param
               else query in
  let params := if isParamType "path" param then params +:+ getTsParam param
                else params in
  (body, query, params).

Definition getTsOperationOptionsInterface (operation : IOperation)
    (options : IGenerateApisOptions) : string :=
  let '(body, query, params) :=
    fold_left groupStep (op_parameters operation)
              (EmptyString, EmptyString, EmptyString) in
  let out := EmptyString in
  let out :=
    if opt_splitInterfaces options then
      let out := out +:+ "import { IOperationOptions } from " +:+ Js.quote
                     +:+ "../Api" +:+ Js.quote +:+ ";" in
      let interfaces :=
        map (fun param => getTsInterfaceName (param_type param))
            (filter (isParamType "body") (op_parameters operation)) in
      (* an array added to a string is joined with commas *)
      let out := out +:+ Js.join ","
                   (map (fun name => Js.nl +:+ importLine name)
                        (uniq interfaces)) in
      if Js.truthy out then out +:+ Js.nl +:+ Js.nl else out
    else out in
  let out := out +:+ "export interface "
                 +:+ getTsOperationOptionsInterfaceName operation
                 +:+ " extends IOperationOptions {" in
  let out :=
    if Js.truthy body then
      let bodyRequired :=
        Js.some param_required
                (filter (isParamType "body") (op_parameters operation)) in
      out +:+ Js.nl +:+ "  body" +:+ (if bodyRequired then EmptyString else "?")
          +:+ ": {" +:+ body +:+ Js.nl +:+ "  };" +:+ Js.nl
    else out in
  let out :=
    if Js.truthy query then
      let queryRequired :=
        Js.some param_required
                (filter (isParamType "query") (op_parameters operation)) in
      out +:+ Js.nl +:+ "  query" +:+ (if queryRequired then EmptyString else "?")
          +:+ ": {" +:+ query +:+ Js.nl +:+ "  };"
    else out in
  let out :=
    if Js.truthy params then
      let paramsRequired :=
        Js.some param_required
                (filter (isParamType "path") (op_parameters operation)) in
      out +:+ Js.nl +:+ "  params" +:+ (if paramsRequired then EmptyString else "?")
          +:+ ": {" +:+ params +:+ Js.nl +:+ "  };"
    else out in
  out +:+ Js.nl +:+ "}".

Definition getJsDocParamType (parameter : IParameter) : string :=
  if isParamType "body" parameter then "object"
  else mapType (Some (param_type parameter)).

Definition getJsDocParam (parameter : IParameter) : string :=
  let t := Js.padEnd 7 (getJsDocParamType parameter) in
  let n := (if param_required parameter then " " else "[")
           +:+ param_name parameter
           +:+ (if param_required parameter then EmptyString else "]") in
  let d := param_description parameter in
  let d := if isParamType "body" parameter
           then d +:+ getTsInterfaceName (param_type parameter) else d in
  let d := match param_enum parameter with
           | Some enum => d +:+ " (" +:+ Js.join "|" (map quoted enum) +:+ ")"
           | None => d
           end in
  Js.nl +:+ "   * @param   " +:+ t +:+ " " +:+ n +:+ " - " +:+ d.

(** [{ ...param, name: prefix + param.name }]. *)
Definition withName (param : IParameter) (name : string) : IParameter :=
  {| param_description := param_description param;
     param_enum := param_enum param;
     param_format := param_format param;
     param_name := name;
     param_paramType := param_paramType param;
     param_required := param_required param;
     param_type := param_type param |}.

(** The object literal [{ name, type, required, description }]. *)
Definition docParam (name type : string) (required : bool)
    (description : string) : IParameter :=
  {| param_description := description;
     param_enum := None;
     param_format := None;
     param_name := name;
     param_paramType := None;
     param_required := required;
     param_type := type |}.

Definition docGroupStep (acc : string * string * string) (param : IParameter)
  : string * string * string :=
  let '(body, query, params) := acc in
  let body :=
    if isParamType "body" param
    then body +:+ getJsDocParam (withName param ("options.body." +:+ param_name param))
    else body in
  let query :=
    if isParamType "query" param
    then query +:+ getJsDocParam (withName param ("options.query." +:+ param_name param))
    else query in
  let params :=
    if isParamType "path" param
    then params +:+ getJsDocParam (withName param ("options.params." +:+ param_name param))
    else params in
  (body, query, params).

(** The [required] of the three group lines compares [o.type], not
    [o.paramType], with the group's tag: that is the source's text. *)
Definition isType (t : string) (o : IParameter) : bool :=
  String.eqb (param_type o) t.

Definition getJsDocOperation (operation : IOperation) : string :=
  let '(body, query, params) :=
    fold_left docGroupStep (op_parameters operation)
              (EmptyString, EmptyString, EmptyString) in
  let out := EmptyString in
  let out := out +:+ "  /**" in
  let out := out +:+ Js.nl +:+ "   * " +:+ op_summary operation in
  let out := out +:+ getJsDocParam
               (docParam "options" "object"
                  (Js.some param_required (op_parameters operation))
                  (getTsOperationOptionsInterfaceName operation)) in
  let out :=
    if Js.truthy body then
      out +:+ getJsDocParam
            (docParam "options.body" "object"
               (Js.some param_required
                  (filter (isType "body") (op_parameters operation)))
               "body params")
          +:+ body
    else out in
  let out :=
    if Js.truthy query then
      out +:+ getJsDocParam
            (docParam "options.query" "object"
               (Js.some param_required
                  (filter (isType "query") (op_parameters operation)))
               "query params")
          +:+ query
    else out in
  let out :=
    if Js.truthy params then
      out +:+ getJsDocParam
            (docParam "options.params" "object"
               (Js.some param_required
                  (filter (isType "path") (op_parameters operation)))
               "path params")
          +:+ params
    else out in
  let out := out +:+ Js.nl +:+ "   * @returns Promise <"
                 +:+ getTsInterfaceName (op_type operation) +:+ ">" in
  out +:+ Js.nl +:+ "   */".

Definition getTsOperation (operation : IOperation) (url : string) : string :=
  let out := getJsDocOperation operation in
  let required := Js.some param_required (op_parameters operation) in
  let out := out +:+ Js.nl +:+ "  async " +:+ unTitleCase (op_nickname operation)
                 +:+ "(options" +:+ (if required then EmptyString else "?")
                 +:+ ": " +:+ getTsOperationOptionsInterfaceName operation
                 +:+ "): Promise<" +:+ getTsInterfaceName (op_type operation)
                 +:+ "> {" in
  let out := out +:+ Js.nl +:+ "    return this.requestJson({ method: '"
                 +:+ op_method operation +:+ "', path: '" +:+ url
                 +:+ "', ...options });" in
  out +:+ Js.nl +:+ "  }".

Definition classImportLine (name : string) : string :=
  "import { " +:+ name +:+ " } from " +:+ Js.quote +:+ "./interfaces/"
  +:+ name +:+ Js.quote +:+ ";".

Definition getTsApi (className : string) (api : IApi)
    (options : IGenerateApisOptions) : string :=
  let out := "import { Api"
             +:+ (if opt_splitInterfaces options then EmptyString
                  else ", IOperationOptions")
             +:+ " } from " +:+ Js.quote +:+ "./Api" +:+ Js.quote +:+ ";" in
  let out :=
    if opt_splitInterfaces options then
      let interfaces :=
        uniq (flat_map
                (fun operation =>
                   [getTsOperationOptionsInterfaceName operation;
                    getTsInterfaceName (op_type operation)])
                (flat_map ao_operations (api_apis api))) in
      out +:+ Js.join Js.nl
            (map classImportLine
                 (filter (fun name => negb (String.eqb name "unknown"))
                         interfaces))
    else
      let out :=
        fold_left (fun out model =>
                     out +:+ Js.nl +:+ Js.nl +:+ getTsInterface model options)
                  (Js.values (api_models api)) out in
      fold_left
        (fun out group =>
           fold_left (fun out operation =>
                        out +:+ Js.nl +:+ Js.nl
                            +:+ getTsOperationOptionsInterface operation options)
                     (ao_operations group) out)
        (api_apis api) out in
  let out := out +:+ Js.nl in
  let out := if Js.truthy (api_description api)
             then out +:+ Js.nl +:+ "// " +:+ api_description api else out in
  let out := out +:+ Js.nl +:+ "export class " +:+ className +:+ " extends Api {" in
  let out := out +:+ Js.nl +:+ "  /**" in
  let out := out +:+ Js.nl +:+ "   * Create instance" in
  let out := out +:+ Js.nl +:+ "   * @constructor" in
  let out := out +:+ Js.nl +:+ "   * @param {string} token - OAuth token" in
  let out := out +:+ Js.nl +:+ "   */" in
  let out := out +:+ Js.nl +:+ "  constructor(token: string) {" in
  let out := out +:+ Js.nl +:+ "    super({ url: '" +:+ api_basePath api
                 +:+ "', token });" in
  let out := out +:+ Js.nl +:+ "  }" in
  let out :=
    fold_left
      (fun out group =>
         fold_left (fun out operation =>
                      let out := out +:+ Js.nl in
                      out +:+ Js.nl +:+ getTsOperation operation (ao_path group))
                   (ao_operations group) out)
      (api_apis api) out in
  out +:+ Js.nl +:+ "}" +:+ Js.nl.

(** [getJson] and [generateApis].  [JSON_parse] is [JSON.parse] (and the
    [res.json()] of a response), [JSON_stringify data] is
    [JSON.stringify(data, null, 2)], [dirname] is [__dirname]. *)
Section Run.
Variable JSON_parse : string -> option Json.
Variable JSON_stringify : Json -> string.
Variable dirname : string.

Local Open Scope io_scope.

Definition parseJson (text : string) : IO Json :=
  match JSON_parse text with
  | Some v => IO.ret v
  | None => IO.throw (SyntaxError text)
  end.

(** The block under [if (!data)]. *)
Definition fetchAndStore (path filename : string) : IO Json :=
  await res <- IO.fetch path;
  await data <- parseJson res;
  await _ <- IO.writeFile filename (JSON_stringify data);
  IO.ret data.

Definition getJson (path : string) : IO Json :=
  let filename := cacheFile path in
  await _ <- IO.mkdir cachePath;
  await exists_ <- IO.tryCatch (await _ <- IO.access filename; IO.ret true)
                               (fun _ => IO.ret false);
  await data <- (if exists_ : bool then
                   await data <- IO.readFile filename;
                   await data <- parseJson data;
                   IO.ret (Some data)
                 else IO.ret None);
  match data with
  | Some v => if Cast.truthy v then IO.ret v           (* data is truthy *)
              else fetchAndStore path filename
  | None => fetchAndStore path filename
  end.

Definition writeInterfaces (api : IApi) (options : IGenerateApisOptions)
  : IO unit :=
  await _ <- IO.forEach (Js.values (api_models api)) (fun model =>
    let data := getTsInterface model options in
    IO.writeFile (opt_dest options +:+ "/interfaces/"
                    +:+ getTsInterfaceName (model_id model) +:+ ".ts") data);
  IO.forEach (api_apis api) (fun group =>
    IO.forEach (ao_operations group) (fun operation =>
      let data := getTsOperationOptionsInterface operation options in
      IO.writeFile (opt_dest options +:+ "/interfaces/"
                      +:+ getTsOperationOptionsInterfaceName operation
                      +:+ ".ts") data)).

(** The block under [if (options.groupClass)] at the end of
    [generateApis]. *)
Definition writeGroupClass (options : IGenerateApisOptions)
    (apis : list IApi) : IO unit :=
  if Js.truthy (opt_groupClass options) then
    await api <- mergeApis apis;
    let data := getTsApi (opt_groupClass options) api options in
    IO.writeFile (opt_dest options +:+ "/" +:+ opt_groupClass options
                    +:+ ".ts") data
  else IO.ret tt.

Definition generateApis (options : IGenerateApisOptions) : IO unit :=
  await _ <- IO.mkdir (opt_dest options);
  await _ <- (if opt_splitInterfaces options
              then IO.mkdir (opt_dest options +:+ "/interfaces")
              else IO.ret tt);
  await _ <- IO.copyFile (dirname +:+ "/../template/Api.ts")
                         (opt_dest options +:+ "/Api.ts");
  await schemaApi <- getJson (opt_url options);
  await schemaApi <- IO.cast "ISchemaApi" Cast.asISchemaApi schemaApi;
  await apis <- IO.forOf (schema_apis schemaApi) [] (fun apis schemaApiInfo =>
    await _ <- IO.consoleLog ("Get schema for " +:+ Js.quote
                                +:+ info_description schemaApiInfo
                                +:+ Js.quote);
    await api <- getJson (schema_basePath schemaApi
                            +:+ info_path schemaApiInfo);
    await api <- IO.cast "IApi" Cast.asIApi api;
    let apis := apis ++ [api] in
    await _ <- (if negb (Js.truthy (opt_groupClass options)) then
                  let data := getTsApi (getApiName api) api options in
                  IO.writeFile (opt_dest options +:+ "/" +:+ getApiName api
                                  +:+ ".ts") data
                else IO.ret tt);
    await _ <- (if opt_splitInterfaces options
                then writeInterfaces api options else IO.ret tt);
    IO.ret apis);
  writeGroupClass options apis.

End Run.

End Generate.

(** ** The generator, second listing (lines 533-898) *)

Module GenerateAlt.

Definition isParamType (t : string) (o : IParameter) : bool :=
  bool_decide (param_paramType o = Some t).

(** One turn of the loop over [Object.entries(model.properties)]. *)
Definition interfaceField (model : IModel) (out : string)
    (entry : string * IModelProperty) : string :=
  let '(name, property) := entry in
  let out := out +:+ Js.nl in
  let out := if Js.truthy_opt (prop_description property)
             then out +:+ "  // " +:+ default EmptyString (prop_description property)
                      +:+ Js.nl
             else out in
  let type := getTsPropertyType property in
  let required := if Js.includes (model_required model) name
                  then EmptyString else "?" in
  out +:+ "  " +:+ name +:+ required +:+ ": " +:+ type +:+ ";" +:+ Js.nl.

Definition getTsInterface (model : IModel) (options : IGenerateApisOptions)
  : string :=
  let out := modelImports model options in
  let out := out +:+ "export interface " +:+ getTsInterfaceName (model_id model)
                 +:+ " {" in
  let out := fold_left (interfaceField model)
                       (Js.entries (model_properties model)) out in
  out +:+ "}" +:+ Js.nl.

(** The type of a query or path parameter. *)
Definition enumOrMapType (param : IParameter) : string :=
  match param_enum param with
  | Some enum => Js.join " | " (map quoted enum)
  | None => mapType (Some (param_type param))
  end.

(** The variables of the loop over the parameters. *)
Record Groups : Type := {
  g_body : string;
  g_query : string;
  g_path : string;
  g_bodyRequired : bool;
  g_queryRequired : bool
}.

Definition commentLine (param : IParameter) : string :=
  if Js.truthy (param_description param)
  then "    // " +:+ param_description param +:+ Js.nl
  else EmptyString.

Definition groupStep (g : Groups) (param : IParameter) : Groups :=
  let g :=
    if isParamType "body" param then
      let body := g_body g +:+ Js.nl in
      let body := body +:+ commentLine param in
      let required := if param_required param then EmptyString else "?" in
      let type := getTsInterfaceName (param_type param) in
      let body := body +:+ "    " +:+ param_name param +:+ required +:+ ": "
                       +:+ type +:+ ";" +:+ Js.nl in
      {| g_body := body; g_query := g_query g; g_path := g_path g;
         g_bodyRequired := if param_required param then true
                           else g_bodyRequired g;
         g_queryRequired := g_queryRequired g |}
    else g in
  let g :=
    if isParamType "query" param then
      let query := g_query g +:+ Js.nl in
      let query := query +:+ commentLine param in
      let required := if param_required param then EmptyString else "?" in
      let type := enumOrMapType param in
      let query := query +:+ "    " +:+ param_name param +:+ required +:+ ": "
                         +:+ type +:+ ";" +:+ Js.nl in
      {| g_body := g_body g; g_query := query; g_path := g_path g;
         g_bodyRequired := g_bodyRequired g;
         g_queryRequired := if param_required param then true
                            else g_queryRequired g |}
    else g in
  if isParamType "path" param then
    let path := g_path g +:+ Js.nl in
    let path := path +:+ commentLine param in
    let type := enumOrMapType param in
    let path := path +:+ "    " +:+ param_name param +:+ ": " +:+ type
                     +:+ ";" +:+ Js.nl in
    {| g_body := g_body g; g_query := g_query g; g_path := path;
       g_bodyRequired := g_bodyRequired g;
       g_queryRequired := g_queryRequired g |}
  else g.

Definition noGroups : Groups :=
  {| g_body := EmptyString; g_query := EmptyString; g_path := EmptyString;
     g_bodyRequired := false; g_queryRequired := false |}.

Definition getTsOperationOptionsInterface (operation : IOperation)
    (options : IGenerateApisOptions) : string :=
  let g := fold_left groupStep (op_parameters operation) noGroups in
  let out := EmptyString in
  let out :=
    if opt_splitInterfaces options then
      let out := out +:+ "import { IOperationOptions } from " +:+ Js.quote
                     +:+ "../Api" +:+ Js.quote +:+ ";" +:+ Js.nl in
      let interfaces :=
        map (fun param => getTsInterfaceName (param_type param))
            (filter (isParamType "body") (op_parameters operation)) in
      (* an array added to a string is joined with commas *)
      let out := out +:+ Js.join ","
                   (map (fun name => importLine name +:+ Js.nl)
                        (uniq interfaces)) in
      if Js.truthy out then out +:+ Js.nl else out
    else out in
  let out := out +:+ "export interface "
                 +:+ getTsOperationOptionsInterfaceName operation
                 +:+ " extends IOperationOptions {" in
  let out :=
    if Js.truthy (g_body g) then
      let out := out +:+ Js.nl +:+ "  body"
                     +:+ (if g_bodyRequired g then EmptyString else "?")
                     +:+ ": {" in
      let out := out +:+ g_body g in
      out +:+ "  };" +:+ Js.nl
    else out in
  let out :=
    if Js.truthy (g_query g) then
      let out := out +:+ Js.nl +:+ "  query"
                     +:+ (if g_queryRequired g then EmptyString else "?")
                     +:+ ": {" in
      let out := out +:+ g_query g in
      out +:+ "  };" +:+ Js.nl
    else out in
  let out :=
    if Js.truthy (g_path g) then
      let out := out +:+ Js.nl +:+ "  params: {" in
      let out := out +:+ g_path g in
      out +:+ "  };" +:+ Js.nl
    else out in
  out +:+ "}" +:+ Js.nl.

Definition getTsOperation (operation : IOperation) (url : string) : string :=
  let out := EmptyString in
  let out := if Js.truthy (op_summary operation)
             then out +:+ "  // " +:+ op_summary operation +:+ Js.nl
             else out in
  let out := out +:+ "  async " +:+ unTitleCase (op_nickname operation)
                 +:+ "(options: " +:+ getTsOperationOptionsInterfaceName operation
                 +:+ "): Promise<" +:+ getTsInterfaceName (op_type operation)
                 +:+ "> {" +:+ Js.nl in
  let out := out +:+ "    return this.requestJson({ method: '"
                 +:+ op_method operation +:+ "', path: '" +:+ url
                 +:+ "', ...options });" +:+ Js.nl in
  out +:+ "  }" +:+ Js.nl.

Definition classImportLine (name : string) : string :=
  "import { " +:+ name +:+ " } from " +:+ Js.quote +:+ "./interfaces/"
  +:+ name +:+ Js.quote +:+ ";".

Definition getTsApi (className : string) (api : IApi)
    (options : IGenerateApisOptions) : string :=
  let out := "import { Api"
             +:+ (if opt_splitInterfaces options then EmptyString
                  else ", IOperationOptions")
             +:+ " } from " +:+ Js.quote +:+ "./Api" +:+ Js.quote +:+ ";"
             +:+ Js.nl in
  let out :=
    if opt_splitInterfaces options then
      let interfaces :=
        uniq (flat_map
                (fun operation =>
                   [getTsOperationOptionsInterfaceName operation;
                    getTsInterfaceName (op_type operation)])
                (flat_map ao_operations (api_apis api))) in
      out +:+ Js.join Js.nl
            (map classImportLine
                 (filter (fun name => negb (String.eqb name "unknown"))
                         interfaces))
    else
      let out :=
        fold_left (fun out model =>
                     out +:+ Js.nl +:+ getTsInterface model options)
                  (Js.values (api_models api)) out in
      fold_left
        (fun out group =>
           fold_left (fun out operation =>
                        out +:+ Js.nl
                            +:+ getTsOperationOptionsInterface operation options)
                     (ao_operations group) out)
        (api_apis api) out in
  let out := out +:+ Js.nl in
  let out := if Js.truthy (api_description api)
             then out +:+ Js.nl +:+ "// " +:+ api_description api else out in
  let out := out +:+ Js.nl +:+ "export class " +:+ className +:+ " extends Api {" in
  let out := out +:+ Js.nl +:+ "  constructor(token: string) {" in
  let out := out +:+ Js.nl +:+ "    super({ url: '" +:+ api_basePath api
                 +:+ "', token });" in
  let out := out +:+ Js.nl +:+ "  }" +:+ Js.nl in
  let out :=
    fold_left
      (fun out group =>
         fold_left (fun out operation =>
                      let out := out +:+ Js.nl in
                      out +:+ getTsOperation operation (ao_path group))
                   (ao_operations group) out)
      (api_apis api) out in
  out +:+ "}" +:+ Js.nl.

(** What the variable [data] of [getJson] holds when it is not
    [undefined]: the [Buffer] read from the cache, or a decoded
    document. *)
Inductive Loaded : Type :=
| Buffer (content : string)
| Parsed (v : Json).

Definition truthy (data : option Loaded) : bool :=
  match data with
  | None => false
  | Some (Buffer _) => true
  | Some (Parsed v) => Cast.truthy v
  end.

Section Run.
Variable JSON_parse : string -> option Json.
Variable JSON_stringify : Json -> string.
Variable dirname : string.

Local Open Scope io_scope.

Definition parseJson (text : string) : IO Json :=
  match JSON_parse text with
  | Some v => IO.ret v
  | None => IO.throw (SyntaxError text)
  end.

(** The [try] block with its [catch]: [data] keeps what it held when
    the block threw. *)
Definition loadCached (filename : string) : IO (option Loaded) :=
  IO.tryCatch
    (await _ <- IO.access filename;
     await data <- IO.readFile filename;
     IO.tryCatch
       (await v <- parseJson data; IO.ret (Some (Parsed v)))
       (fun err => await _ <- IO.consoleLogError err;
                   IO.ret (Some (Buffer data))))
    (fun err => await _ <- IO.consoleLogError err; IO.ret None).

(** The block under [if (!data)]. *)
Definition request (path filename : string) : IO Loaded :=
  await _ <- IO.consoleLog ("Request " +:+ path);
  await res <- IO.fetch path;
  await data <- parseJson res;
  await _ <- IO.writeFile filename (JSON_stringify data);
  IO.ret (Parsed data).

Definition getJson (path : string) : IO Loaded :=
  let filename := cacheFile path in
  await _ <- IO.mkdir cachePath;
  await data <- loadCached filename;
  match data with
  | Some d => if truthy data then IO.ret d     (* data is truthy *)
              else request path filename
  | None => request path filename
  end.

(** The casts of [generateApis].  A [Buffer] has none of the fields of
    the interfaces. *)
Definition cast {A} (interface : string) (f : Json -> option A)
    (data : Loaded) : IO A :=
  match data with
  | Parsed v => IO.cast interface f v
  | Buffer _ => IO.throw (CastMismatch interface)
  end.

Definition writeInterfaces (api : IApi) (options : IGenerateApisOptions)
  : IO unit :=
  await _ <- IO.forEach (Js.values (api_models api)) (fun model =>
    let data := getTsInterface model options in
    IO.writeFile (opt_dest options +:+ "/interfaces/"
                    +:+ getTsInterfaceName (model_id model) +:+ ".ts") data);
  IO.forEach (api_apis api) (fun group =>
    IO.forEach (ao_operations group) (fun operation =>
      let data := getTsOperationOptionsInterface operation options in
      IO.writeFile (opt_dest options +:+ "/interfaces/"
                      +:+ getTsOperationOptionsInterfaceName operation
                      +:+ ".ts") data)).

(** The block under [if (options.groupClass)] at the end of
    [generateApis]. *)
Definition writeGroupClass (options : IGenerateApisOptions)
    (apis : list IApi) : IO unit :=
  if Js.truthy (opt_groupClass options) then
    await api <- mergeApis apis;
    let data := getTsApi (opt_groupClass options) api options in
    IO.writeFile (opt_dest options +:+ "/" +:+ opt_groupClass options
                    +:+ ".ts") data
  else IO.ret tt.

Definition generateApis (options : IGenerateApisOptions) : IO unit :=
  await _ <- IO.mkdir (opt_dest options);
  await _ <- (if opt_splitInterfaces options
              then IO.mkdir (opt_dest options +:+ "/interfaces")
              else IO.ret tt);
  await _ <- IO.copyFile (dirname +:+ "/../template/Api.ts")
                         (opt_dest options +:+ "/Api.ts");
  await schemaApi <- getJson (opt_url options);
  await schemaApi <- cast "ISchemaApi" Cast.asISchemaApi schemaApi;
  await apis <- IO.forOf (schema_apis schemaApi) [] (fun apis schemaApiInfo =>
    await _ <- IO.consoleLog ("Get schema for " +:+ Js.quote
                                +:+ info_description schemaApiInfo
                                +:+ Js.quote);
    await api <- getJson (schema_basePath schemaApi
                            +:+ info_path schemaApiInfo);
    await api <- cast "IApi" Cast.asIApi api;
    let apis := apis ++ [api] in
    await _ <- (if negb (Js.truthy (opt_groupClass options)) then
                  let data := getTsApi (getApiName api) api options in
                  IO.writeFile (opt_dest options +:+ "/" +:+ getApiName api
                                  +:+ ".ts") data
                else IO.ret tt);
    await _ <- (if opt_splitInterfaces options
                then writeInterfaces api options else IO.ret tt);
    IO.ret apis);
  writeGroupClass options apis.

End Run.

End GenerateAlt.



(** ** A text codec for the examples

    [getJson] and [generateApis] take [JSON.parse] and [JSON.stringify] as
    parameters.  [JsonText] is a codec to run them on concrete texts: the
    JSON grammar with integer numbers, and the layout of
    [JSON.stringify(data, null, 2)]. *)

Module JsonText.

Definition hexDigit (n : nat) : ascii :=
  if (n <? 10)%nat then ascii_of_nat (48 + n) else ascii_of_nat (87 + n).

Definition escapeChar (c : ascii) : string :=
  let n := nat_of_ascii c in
  if (n =? 34)%nat then "\" +:+ Js.quote
  else if (n =? 92)%nat then "\\"
  else if (n =? 8)%nat then "\b"
  else if (n =? 12)%nat then "\f"
  else if (n =? 10)%nat then "\n"
  else if (n =? 13)%nat then "\r"
  else if (n =? 9)%nat then "\t"
  else if (n <? 32)%nat then
    "\u00" +:+ String (hexDigit (n / 16)) (String (hexDigit (n mod 16)) EmptyString)
  else String c EmptyString.

Fixpoint escape (s : string) : string :=
  match s with
  | EmptyString => EmptyString
  | String c r => escapeChar c +:+ escape r
  end.

Definition quoteString (s : string) : string :=
  Js.quote +:+ escape s +:+ Js.quote.

Definition showNumber (n : Z) : string :=
  DecimalString.NilZero.string_of_int (Z.to_int n).

Fixpoint stringifyAt (indent : string) (v : Json) : string :=
  let inner := indent +:+ "  " in
  match v with
  | JNull => "null"
  | JBool true => "true"
  | JBool false => "false"
  | JNumber n => showNumber n
  | JString s => quoteString s
  | JArray [] => "[]"
  | JArray l =>
      "[" +:+ Js.nl
      +:+ Js.join ("," +:+ Js.nl)
            (map (fun x => inner +:+ stringifyAt inner x) l)
      +:+ Js.nl +:+ indent +:+ "]"
  | JObject [] => "{}"
  | JObject o =>
      "{" +:+ Js.nl
      +:+ Js.join ("," +:+ Js.nl)
            (map (fun kv => inner +:+ quoteString (fst kv) +:+ ": "
                                  +:+ stringifyAt inner (snd kv)) o)
      +:+ Js.nl +:+ indent +:+ "}"
  end.

(** [JSON.stringify(data, null, 2)]. *)
Definition stringify (data : Json) : string := stringifyAt EmptyString data.

Definition isWs (c : ascii) : bool :=
  let n := nat_of_ascii c in
  (n =? 32)%nat || (n =? 9)%nat || (n =? 10)%nat || (n =? 13)%nat.

Fixpoint skipWs (s : string) : string :=
  match s with
  | String c r => if isWs c then skipWs r else s
  | EmptyString => s
  end.

Definition hexValue (c : ascii) : option nat :=
  let n := nat_of_ascii c in
  if Js.is_digit c then Some (n - 48)
  else if (97 <=? n)%nat && (n <=? 102)%nat then Some (n - 87)
  else if (65 <=? n)%nat && (n <=? 70)%nat then Some (n - 55)
  else None.

(** The characters of a string literal after its opening quote, and the
    text after its closing quote. *)
Fixpoint parseChars (s : string) : option (string * string) :=
  let cons c r := match parseChars r with
                  | Some (str, rest) => Some (String c str, rest)
                  | None => None
                  end in
  match s with
  | EmptyString => None
  | String c r =>
      if (nat_of_ascii c =? 34)%nat then Some (EmptyString, r)
      else if (nat_of_ascii c <? 32)%nat then None
      else if (nat_of_ascii c =? 92)%nat then
        match r with
        | String e r' =>
            let n := nat_of_ascii e in
            if (n =? 34)%nat then cons e r'
            else if (n =? 92)%nat then cons e r'
            else if (n =? 47)%nat then cons e r'
            else if (n =? 98)%nat then cons (ascii_of_nat 8) r'
            else if (n =? 102)%nat then cons (ascii_of_nat 12) r'
            else if (n =? 110)%nat then cons (ascii_of_nat 10) r'
            else if (n =? 114)%nat then cons (ascii_of_nat 13) r'
            else if (n =? 116)%nat then cons (ascii_of_nat 9) r'
            else if (n =? 117)%nat then
              match r' with
              | String "0" (String "0" (String h (String l r''))) =>
                  match hexValue h, hexValue l with
                  | Some a, Some b => cons (ascii_of_nat (16 * a + b)) r''
                  | _, _ => None
                  end
              | _ => None
              end
            else None
        | EmptyString => None
        end
      else cons c r
  end.

Fixpoint spanDigits (s : string) : string * string :=
  match s with
  | String c r =>
      if Js.is_digit c then
        let '(d, rest) := spanDigits r in (String c d, rest)
      else (EmptyString, s)
  | EmptyString => (EmptyString, s)
  end.

Definition startsFraction (s : string) : bool :=
  match s with
  | String c _ => Ascii.eqb c "." || Ascii.eqb c "e" || Ascii.eqb c "E"
  | EmptyString => false
  end.

(** An integer literal: an optional sign, then [0] or digits that do not
    start with [0]; a fraction or an exponent is outside the codec. *)
Definition parseNumber (s : string) : option (Z * string) :=
  let '(neg, s') := match s with
                    | String "-" r => (true, r)
                    | _ => (false, s)
                    end in
  let '(digits, rest) := spanDigits s' in
  match digits with
  | EmptyString => None
  | String "0" (String _ _) => None
  | _ =>
      if startsFraction rest then None
      else
        match DecimalString.NilZero.int_of_string digits with
        | Some i => Some (if neg : bool then (- Z.of_int i)%Z else Z.of_int i, rest)
        | None => None
        end
  end.

Definition dropPrefix (p s : string) : option string :=
  if String.prefix p s
  then Some (String.substring (String.length p) (String.length s - String.length p) s)
  else None.

Fixpoint parseValue (fuel : nat) (s : string) : option (Json * string) :=
  match fuel with
  | O => None
  | S fuel' =>
      match skipWs s with
      | String "[" r =>
          match skipWs r with
          | String "]" r' => Some (JArray [], r')
          | _ =>
              match parseElements fuel' r with
              | Some (l, rest) => Some (JArray l, rest)
              | None => None
              end
          end
      | String "{" r =>
          match skipWs r with
          | String "}" r' => Some (JObject [], r')
          | _ =>
              match parseMembers fuel' [] r with
              | Some (o, rest) => Some (JObject o, rest)
              | None => None
              end
          end
      | String "034" r =>
          match parseChars r with
          | Some (str, rest) => Some (JString str, rest)
          | None => None
          end
      | String "n" _ as t =>
          match dropPrefix "null" t with
          | Some rest => Some (JNull, rest)
          | None => None
          end
      | String "t" _ as t =>
          match dropPrefix "true" t with
          | Some rest => Some (JBool true, rest)
          | None => None
          end
      | String "f" _ as t =>
          match dropPrefix "false" t with
          | Some rest => Some (JBool false, rest)
          | None => None
          end
      | t =>
          match parseNumber t with
          | Some (n, rest) => Some (JNumber n, rest)
          | None => None
          end
      end
  end
with parseElements (fuel : nat) (s : string) : option (list Json * string) :=
  match fuel with
  | O => None
  | S fuel' =>
      match parseValue fuel' s with
      | Some (v, rest) =>
          match skipWs rest with
          | String "," r =>
              match parseElements fuel' r with
              | Some (l, rest') => Some (v :: l, rest')
              | None => None
              end
          | String "]" r => Some ([v], r)
          | _ => None
          end
      | None => None
      end
  end
with parseMembers (fuel : nat) (acc : Js.Dict Json) (s : string)
  : option (Js.Dict Json * string) :=
  match fuel with
  | O => None
  | S fuel' =>
      match skipWs s with
      | String "034" r =>
          match parseChars r with
          | Some (key, rest) =>
              match skipWs rest with
              | String ":" r' =>
                  match parseValue fuel' r' with
                  | Some (v, rest') =>
                      let acc := Js.set acc key v in
                      match skipWs rest' with
                      | String "," r'' => parseMembers fuel' acc r''
                      | String "}" r'' => Some (acc, r'')
                      | _ => None
                      end
                  | None => None
                  end
              | _ => None
              end
          | None => None
          end
      | _ => None
      end
  end.

(** [JSON.parse(text)]; [None] stands for the [SyntaxError]. *)
Definition parse (text : string) : option Json :=
  match parseValue (2 * String.length text + 2) text with
  | Some (v, rest) =>
      match skipWs rest with
      | EmptyString => Some v
      | _ => None
      end
  | None => None
  end.

End JsonText.

(** ** Vocabulary of the statements *)

(** The parameters of an operation that sit at one location. *)
Definition paramGroup (location : string) (operation : IOperation)
  : list IParameter :=
  filter (fun o => bool_decide (param_paramType o = Some location))
         (op_parameters operation).

(** Some parameter of the list is required. *)
Definition SomeRequired (params : list IParameter) : Prop :=
  Exists (fun o => param_required o = true) params.

(** The text that stands between a name and its colon: nothing for a
    required one, the optional marker otherwise. *)
Definition markerOf (required : Prop) `{Decision required} : string :=
  if decide required then EmptyString else "?".

(** The texts of a list, one after the other. *)
Definition textOf {A} (f : A -> string) (l : list A) : string :=
  Js.join EmptyString (map f l).

(** What one parameter adds to its group in the second listing. *)
Definition bodyLine (param : IParameter) : string :=
  Js.nl +:+ GenerateAlt.commentLine param +:+ "    " +:+ param_name param
  +:+ (if param_required param then EmptyString else "?") +:+ ": "
  +:+ getTsInterfaceName (param_type param) +:+ ";" +:+ Js.nl.

Definition queryLine (param : IParameter) : string :=
  Js.nl +:+ GenerateAlt.commentLine param +:+ "    " +:+ param_name param
  +:+ (if param_required param then EmptyString else "?") +:+ ": "
  +:+ GenerateAlt.enumOrMapType param +:+ ";" +:+ Js.nl.

Definition pathLine (param : IParameter) : string :=
  Js.nl +:+ GenerateAlt.commentLine param +:+ "    " +:+ param_name param
  +:+ ": " +:+ GenerateAlt.enumOrMapType param +:+ ";" +:+ Js.nl.

(** The one place of a field in an options declaration: nothing for an
    empty group, else the label, the marker and the lines in braces. *)
Definition groupField (label marker lines tail : string)
    (group : list IParameter) : string :=
  match group with
  | [] => EmptyString
  | _ :: _ => Js.nl +:+ "  " +:+ label +:+ marker +:+ ": {" +:+ lines +:+ tail
  end.

(** The text of one property in a model declaration: the comment when
    the property has a description, then the name, the marker and the
    type.  The first listing ends the comment at the line of the name,
    the second one ends every line. *)
Definition fieldLine (model : IModel) (entry : string * IModelProperty)
  : string :=
  Js.nl
  +:+ (if Js.truthy_opt (prop_description entry.2)
       then "  // " +:+ default EmptyString (prop_description entry.2)
       else EmptyString)
  +:+ Js.nl +:+ "  " +:+ entry.1
  +:+ markerOf (entry.1 ∈ model_required model)
  +:+ ": " +:+ getTsPropertyType entry.2 +:+ ";".

Definition fieldLineAlt (model : IModel) (entry : string * IModelProperty)
  : string :=
  Js.nl
  +:+ (if Js.truthy_opt (prop_description entry.2)
       then "  // " +:+ default EmptyString (prop_description entry.2) +:+ Js.nl
       else EmptyString)
  +:+ "  " +:+ entry.1
  +:+ markerOf (entry.1 ∈ model_required model)
  +:+ ": " +:+ getTsPropertyType entry.2 +:+ ";" +:+ Js.nl.

(** Text of ASCII characters, and text whose first character (if any)
    is one: the domain on which the case maps of the embedding are those
    of the source. *)
Fixpoint asciiText (s : string) : bool :=
  match s with
  | EmptyString => true
  | String c r => Js.is_ascii c && asciiText r
  end.

Definition startsAscii (s : string) : bool :=
  match s with
  | EmptyString => true
  | String c _ => Js.is_ascii c
  end.

(** The name of the method: the nickname with its first character in
    lower case. *)
Definition lowerFirst (s : string) : string :=
  match s with
  | EmptyString => EmptyString
  | String c r => String (Js.lower_char c) r
  end.

(** The layout of a method: the documentation, the signature with the
    name of the method and the marker of its [options] argument, and the
    body.  The second listing ends every line and has a one-line comment
    for the documentation. *)
Definition methodText (doc name marker : string) (operation : IOperation)
    (url : string) : string :=
  ((doc +:+ Js.nl +:+ "  async " +:+ name +:+ "(options" +:+ marker +:+ ": "
        +:+ getTsOperationOptionsInterfaceName operation
        +:+ "): Promise<" +:+ getTsInterfaceName (op_type operation) +:+ "> {")
   +:+ Js.nl +:+ "    return this.requestJson({ method: '"
   +:+ op_method operation +:+ "', path: '" +:+ url +:+ "', ...options });")
  +:+ Js.nl +:+ "  }".

Definition methodTextAlt (doc name marker : string) (operation : IOperation)
    (url : string) : string :=
  ((doc +:+ "  async " +:+ name +:+ "(options" +:+ marker +:+ ": "
        +:+ getTsOperationOptionsInterfaceName operation
        +:+ "): Promise<" +:+ getTsInterfaceName (op_type operation) +:+ "> {"
        +:+ Js.nl)
   +:+ "    return this.requestJson({ method: '"
   +:+ op_method operation +:+ "', path: '" +:+ url +:+ "', ...options });"
   +:+ Js.nl)
  +:+ "  }" +:+ Js.nl.

Definition summaryLine (operation : IOperation) : string :=
  if Js.truthy (op_summary operation)
  then "  // " +:+ op_summary operation +:+ Js.nl else EmptyString.

(** The files that a list of events writes are the cache file of the
    URL. *)
Definition OnlyCacheWrites (url : string) (events : list Event) : Prop :=
  forall path data : string,
    WriteFile path data ∈ events -> path = cacheFile url.

(** The text has a dot. *)
Fixpoint hasDot (s : string) : bool :=
  match s with
  | EmptyString => false
  | String c r => Ascii.eqb c "."%char || hasDot r
  end.

(** The world in which [generateApis] asks for the schema index: the
    directories made and the template, whose content is [template],
    copied. *)
Definition prepared (dirname : string) (options : IGenerateApisOptions)
    (template : string) (w : World) : World :=
  {| files := <[opt_dest options +:+ "/Api.ts" := template]> (files w);
     remote := remote w;
     trace :=
       CopyFile (dirname +:+ "/../template/Api.ts")
                (opt_dest options +:+ "/Api.ts")
       :: (if opt_splitInterfaces options
           then [Mkdir (opt_dest options +:+ "/interfaces")] else [])
       ++ Mkdir (opt_dest options) :: trace w |}.

(** *** Vocabulary of the further properties *)

(** The text holds the character. *)
Fixpoint hasChar (c : ascii) (s : string) : bool :=
  match s with
  | EmptyString => false
  | String x r => Ascii.eqb x c || hasChar c r
  end.

(** The resource with another [resourcePath]. *)
Definition withResourcePath (api : IApi) (path : string) : IApi :=
  {| api_apiVersion := api_apiVersion api;
     api_apis := api_apis api;
     api_basePath := api_basePath api;
     api_swaggerVersion := api_swaggerVersion api;
     api_consumes := api_consumes api;
     api_description := api_description api;
     api_models := api_models api;
     api_produces := api_produces api;
     api_resourcePath := path |}.

(** A segment of a resource path that [getApiName] leaves out: the empty
    one, the version of the resource, a placeholder. *)
Definition droppedSegment (api : IApi) (segment : string) : bool :=
  negb (Js.truthy segment)
  || String.eqb segment (api_apiVersion api)
  || String.eqb (Js.charAt0 segment) "{".

(** A property nested in [depth] arrays: [{type: 'array', items: ...}]. *)
Fixpoint nestArray (depth : nat) (leaf : IModelProperty) : IModelProperty :=
  match depth with
  | O => leaf
  | S d => Build_IModelProperty (Some "array") None
             (Some (nestArray d leaf)) None None
  end.

(** The text [[]] written [depth] times. *)
Fixpoint brackets (depth : nat) : string :=
  match depth with
  | O => EmptyString
  | S d => brackets d +:+ "[]"
  end.

(** The world after events that changed no file. *)
Definition after (events : list Event) (w : World) : World :=
  {| files := files w; remote := remote w; trace := events ++ trace w |}.

(** A run left every file but, perhaps, [path] as it was, removed no
    file, kept the network and only extended the trace. *)
Definition TouchesOnly (path : string) (w w' : World) : Prop :=
  remote w' = remote w
  /\ (forall p : string, p <> path -> files w' !! p = files w !! p)
  /\ (forall p : string, is_Some (files w !! p) -> is_Some (files w' !! p))
  /\ (exists events : list Event, trace w' = events ++ trace w).

(** The definition of the model [X] in the last resource of the list that
    defines it. *)
Definition lastDefinition (X : ModelID) (apis : list IApi) : option IModel :=
  fold_left (fun found api =>
               match Js.get (api_models api) X with
               | Some definition => Some definition
               | None => found
               end) apis None.

(** The model mapping of a resource is an object: its keys are distinct. *)
Definition ModelsDistinct (api : IApi) : Prop :=
  NoDup (map fst (api_models api)).

(** The operation with another list of parameters. *)
Definition withParameters (operation : IOperation)
    (parameters : list IParameter) : IOperation :=
  {| op_consumes := op_consumes operation;
     op_format := op_format operation;
     op_method := op_method operation;
     op_nickname := op_nickname operation;
     op_notes := op_notes operation;
     op_parameters := parameters;
     op_produces := op_produces operation;
     op_responseMessages := op_responseMessages operation;
     op_summary := op_summary operation;
     op_type := op_type operation |}.

(** The parameter sits at one of the three locations that have a group. *)
Definition grouped (o : IParameter) : bool :=
  bool_decide (param_paramType o = Some "body")
  || bool_decide (param_paramType o = Some "query")
  || bool_decide (param_paramType o = Some "path").

(** The documentation line of one parameter of a group, under the name
    [options.<label>.<name>]. *)
Definition docLine (label : string) (param : IParameter) : string :=
  Generate.getJsDocParam
    (Generate.withName param
       ("options." +:+ label +:+ "." +:+ param_name param)).

(** Some parameter whose [type] is the text [tag] is required. *)
Definition SomeRequiredOfType (tag : string) (params : list IParameter)
  : Prop :=
  Exists (fun o => param_type o = tag /\ param_required o = true) params.

(** The documentation of a group in the first listing: nothing for an
    empty group, else the line of the group, then the lines of its
    parameters. *)
Definition docGroup (label location description : string)
    (operation : IOperation) : string :=
  match paramGroup location operation with
  | [] => EmptyString
  | _ :: _ =>
      Generate.getJsDocParam
        (Generate.docParam
           ("options." +:+ label) "object"
           (bool_decide
              (SomeRequiredOfType location (op_parameters operation)))
           description)
      +:+ textOf (docLine label) (paramGroup location operation)
  end.

(** The operations of a resource with the group they are listed under,
    in the order of the groups. *)
Definition routes (api : IApi) : list (IApiOperations * IOperation) :=
  flat_map (fun group => map (pair group) (ao_operations group))
           (api_apis api).

(** The text between the declarations and the methods of a class: the
    comment of the description, the head of the class and its
    constructor, which hands the base path of the resource to [Api]. *)
Definition classHead (className : string) (api : IApi) : string :=
  Js.nl
  +:+ (if Js.truthy (api_description api)
       then Js.nl +:+ "// " +:+ api_description api else EmptyString)
  +:+ Js.nl +:+ "export class " +:+ className +:+ " extends Api {"
  +:+ Js.nl +:+ "  /**"
  +:+ Js.nl +:+ "   * Create instance"
  +:+ Js.nl +:+ "   * @constructor"
  +:+ Js.nl +:+ "   * @param {string} token - OAuth token"
  +:+ Js.nl +:+ "   */"
  +:+ Js.nl +:+ "  constructor(token: string) {"
  +:+ Js.nl +:+ "    super({ url: '" +:+ api_basePath api +:+ "', token });"
  +:+ Js.nl +:+ "  }".

Definition classHeadAlt (className : string) (api : IApi) : string :=
  Js.nl
  +:+ (if Js.truthy (api_description api)
       then Js.nl +:+ "// " +:+ api_description api else EmptyString)
  +:+ Js.nl +:+ "export class " +:+ className +:+ " extends Api {"
  +:+ Js.nl +:+ "  constructor(token: string) {"
  +:+ Js.nl +:+ "    super({ url: '" +:+ api_basePath api +:+ "', token });"
  +:+ Js.nl +:+ "  }" +:+ Js.nl.

(** The names that a class imports with split interfaces. *)
Definition classImports (api : IApi) : list string :=
  filter (fun name => negb (String.eqb name "unknown"))
         (uniq (flat_map
                  (fun operation =>
                     [getTsOperationOptionsInterfaceName operation;
                      getTsInterfaceName (op_type operation)])
                  (flat_map ao_operations (api_apis api)))).

(** What [generateApis] does before it copies the template, newest
    first. *)
Definition setupEvents (dirname : string) (options : IGenerateApisOptions)
  : list Event :=
  CopyFile (dirname +:+ "/../template/Api.ts") (opt_dest options +:+ "/Api.ts")
  :: (if opt_splitInterfaces options
      then [Mkdir (opt_dest options +:+ "/interfaces")] else [])
  ++ [Mkdir (opt_dest options)].

(** The line that [generateApis] logs before it loads a resource. *)
Definition schemaLog (info : ISchemaApiInfo) : Event :=
  Log ("Get schema for " +:+ Js.quote +:+ info_description info
       +:+ Js.quote).

(** Files written one after the other, as path and content. *)
Definition writes (l : list (string * string)) (fs : gmap string string)
  : gmap string string :=
  fold_left (fun fs file => <[file.1 := file.2]> fs) l fs.

(** The files of the split interfaces of a resource, in the order in
    which they are written: the models, then the options of the
    operations.  [model] and [operation] render the declarations. *)
Definition interfaceFiles (model : IModel -> string)
    (operation : IOperation -> string) (api : IApi)
    (options : IGenerateApisOptions) : list (string * string) :=
  map (fun m => (opt_dest options +:+ "/interfaces/"
                   +:+ getTsInterfaceName (model_id m) +:+ ".ts",
                 model m))
      (Js.values (api_models api))
  ++ map (fun route =>
            (opt_dest options +:+ "/interfaces/"
               +:+ getTsOperationOptionsInterfaceName route.2 +:+ ".ts",
             operation route.2))
         (routes api).

(** The world after the files are written. *)
Definition written (l : list (string * string)) (w : World) : World :=
  {| files := writes l (files w);
     remote := remote w;
     trace := rev (map (fun file => WriteFile file.1 file.2) l) ++ trace w |}.

(** The interfaces that the options declaration of an operation imports
    with split interfaces: those of its body parameters. *)
Definition bodyInterfaces (operation : IOperation) : list string :=
  uniq (map (fun param => getTsInterfaceName (param_type param))
            (paramGroup "body" operation)).

(** The options declaration after its imports, in each listing. *)
Definition optionsBody (operation : IOperation) : string :=
  (((("export interface " +:+ getTsOperationOptionsInterfaceName operation
        +:+ " extends IOperationOptions {")
     +:+ groupField "body"
           (markerOf (SomeRequired (paramGroup "body" operation)))
           (textOf Generate.getTsParam (paramGroup "body" operation))
           (Js.nl +:+ "  };" +:+ Js.nl)
           (paramGroup "body" operation))
    +:+ groupField "query"
          (markerOf (SomeRequired (paramGroup "query" operation)))
          (textOf Generate.getTsParam (paramGroup "query" operation))
          (Js.nl +:+ "  };")
          (paramGroup "query" operation))
   +:+ groupField "params"
         (markerOf (SomeRequired (paramGroup "path" operation)))
         (textOf Generate.getTsParam (paramGroup "path" operation))
         (Js.nl +:+ "  };")
         (paramGroup "path" operation))
  +:+ Js.nl +:+ "}".

Definition optionsBodyAlt (operation : IOperation) : string :=
  (((("export interface " +:+ getTsOperationOptionsInterfaceName operation
        +:+ " extends IOperationOptions {")
     +:+ groupField "body"
           (markerOf (SomeRequired (paramGroup "body" operation)))
           (textOf bodyLine (paramGroup "body" operation))
           ("  };" +:+ Js.nl)
           (paramGroup "body" operation))
    +:+ groupField "query"
          (markerOf (SomeRequired (paramGroup "query" operation)))
          (textOf queryLine (paramGroup "query" operation))
          ("  };" +:+ Js.nl)
          (paramGroup "query" operation))
   +:+ groupField "params" EmptyString
         (textOf pathLine (paramGroup "path" operation))
         ("  };" +:+ Js.nl)
         (paramGroup "path" operation))
  +:+ "}" +:+ Js.nl.

(** ** Data of the examples *)

Module Examples.

Definition parameter (name location type : string) (required : bool)
  : IParameter :=
  {| param_description := EmptyString; param_enum := None;
     param_format := None; param_name := name;
     param_paramType := Some location; param_required := required;
     param_type := type |}.

Definition operation (nickname : string) (parameters : list IParameter)
    (type : string) : IOperation :=
  {| op_consumes := []; op_format := None; op_method := "GET";
     op_nickname := nickname; op_notes := EmptyString;
     op_parameters := parameters; op_produces := [];
     op_responseMessages := []; op_summary := EmptyString;
     op_type := type |}.

(** An operation without parameters. *)
Definition ping : IOperation := operation "Ping" [] EmptyString.

(** The operation of the end-to-end scenario. *)
Definition getPet : IOperation :=
  operation "getPet" [parameter "id" "path" "integer" true] "Pet".

(** An operation whose only parameter is a path parameter that is not
    required. *)
Definition listPets : IOperation :=
  operation "ListPets" [parameter "owner" "path" "string" false] "Pet".

Definition property (type ref : option string) (items : option IModelProperty)
  : IModelProperty :=
  Build_IModelProperty type None items None ref.

Definition pet : IModel :=
  {| model_id := "Pet"; model_required := ["id"];
     model_properties :=
       [("id", property (Some "integer") None None);
        ("name", property (Some "string") None None)] |}.

(** A model with two properties that refer to the same model, one of them
    through an array. *)
Definition owner : IModel :=
  {| model_id := "Owner"; model_required := [];
     model_properties :=
       [("favourite", property None (Some "Pet") None);
        ("pets", property (Some "array") None
                   (Some (property None (Some "Pet") None)))] |}.

Definition options (splitInterfaces : bool) (groupClass : string)
  : IGenerateApisOptions :=
  {| opt_url := "http://x/api/index.json"; opt_dest := "./generated";
     opt_splitInterfaces := splitInterfaces; opt_groupClass := groupClass |}.

Definition resource (models : Js.Dict IModel) (apis : list IApiOperations)
  : IApi :=
  {| api_apiVersion := "1"; api_apis := apis; api_basePath := "http://x/api";
     api_swaggerVersion := "1.2"; api_consumes := [];
     api_description := EmptyString; api_models := models;
     api_produces := []; api_resourcePath := "/pets" |}.

Definition petA : IModel :=
  {| model_id := "Pet"; model_required := []; model_properties := [] |}.

Definition resourceA : IApi :=
  resource [("Pet", petA)] [{| ao_operations := [ping]; ao_path := "/ping" |}].

Definition resourceB : IApi :=
  resource [("Pet", pet)] [{| ao_operations := [getPet]; ao_path := "/pets/{id}" |}].

(** A network that knows one URL, and a world with the template and an
    empty cache. *)
Definition network (url body : string) : string -> option string :=
  fun u => if String.eqb u url then Some body else None.

Definition world (url body : string) : World :=
  {| files := {[ "/app/lib/../template/Api.ts" := "export class Api {}" ]};
     remote := network url body;
     trace := [] |}.

Definition indexUrl : string := "http://x/api/index.json".

(** The document [{"a":1}]. *)
Definition smallBody : string :=
  "{" +:+ Js.quote +:+ "a" +:+ Js.quote +:+ ":1}".

Definition member (key value : string) : string :=
  Js.quote +:+ key +:+ Js.quote +:+ ":" +:+ value.

Definition text (s : string) : string := Js.quote +:+ s +:+ Js.quote.

(** A schema index without resource entries. *)
Definition emptyIndexBody : string :=
  "{" +:+ member "apiVersion" (text "1") +:+ "," +:+ member "apis" "[]"
  +:+ "," +:+ member "basePath" (text "http://x/api") +:+ ","
  +:+ member "swaggerVersion" (text "1.2") +:+ "}".

Definition emptyIndex : ISchemaApi :=
  {| schema_apiVersion := "1"; schema_apis := [];
     schema_basePath := "http://x/api"; schema_swaggerVersion := "1.2" |}.

(** The documents of a schema with the two resources above, and a world
    whose network serves them. *)
Definition parameterDoc (p : IParameter) : Json :=
  JObject [("description", JString (param_description p));
           ("name", JString (param_name p));
           ("paramType", JString (default EmptyString (param_paramType p)));
           ("required", JBool (param_required p));
           ("type", JString (param_type p))].

Definition operationDoc (o : IOperation) : Json :=
  JObject [("consumes", JArray []);
           ("method", JString (op_method o));
           ("nickname", JString (op_nickname o));
           ("notes", JString (op_notes o));
           ("parameters", JArray (map parameterDoc (op_parameters o)));
           ("produces", JArray []);
           ("responseMessages", JArray []);
           ("summary", JString (op_summary o));
           ("type", JString (op_type o))].

Definition propertyDoc (type : string) : Json :=
  JObject [("type", JString type)].

Definition modelDoc (id : string) (required : list string)
    (properties : Js.Dict Json) : Json :=
  JObject [("id", JString id);
           ("required", JArray (map JString required));
           ("properties", JObject properties)].

Definition resourceDoc (models : Js.Dict Json) (path : string)
    (o : IOperation) : Json :=
  JObject [("apiVersion", JString "1");
           ("apis", JArray [JObject [("operations", JArray [operationDoc o]);
                                     ("path", JString path)]]);
           ("basePath", JString "http://x/api");
           ("swaggerVersion", JString "1.2");
           ("consumes", JArray []);
           ("description", JString EmptyString);
           ("models", JObject models);
           ("produces", JArray []);
           ("resourcePath", JString "/pets")].

Definition resourceADoc : Json :=
  resourceDoc [("Pet", modelDoc "Pet" [] [])] "/ping" ping.

Definition resourceBDoc : Json :=
  resourceDoc
    [("Pet", modelDoc "Pet" ["id"]
               [("id", propertyDoc "integer"); ("name", propertyDoc "string")])]
    "/pets/{id}" getPet.

Definition twoResourcesDoc : Json :=
  JObject [("apiVersion", JString "1");
           ("apis", JArray [JObject [("description", JString "A");
                                     ("path", JString "/a.json")];
                            JObject [("description", JString "B");
                                     ("path", JString "/b.json")]]);
           ("basePath", JString "http://x/api");
           ("swaggerVersion", JString "1.2")].

Definition twoResourcesWorld : World :=
  {| files := {[ "/app/lib/../template/Api.ts" := "export class Api {}" ]};
     remote := fun u =>
       if String.eqb u indexUrl then Some (JsonText.stringify twoResourcesDoc)
       else if String.eqb u "http://x/api/a.json"
            then Some (JsonText.stringify resourceADoc)
       else if String.eqb u "http://x/api/b.json"
            then Some (JsonText.stringify resourceBDoc)
       else None;
     trace := [] |}.

(** The URLs that a trace asked the network for, oldest first. *)
Definition fetched (events : list Event) : list string :=
  rev (flat_map (fun e => match e with Fetch url => [url] | _ => [] end)
                events).

(** A schema with the resource B alone. *)
Definition oneResourceDoc : Json :=
  JObject [("apiVersion", JString "1");
           ("apis", JArray [JObject [("description", JString "B");
                                     ("path", JString "/b.json")]]);
           ("basePath", JString "http://x/api");
           ("swaggerVersion", JString "1.2")].

Definition oneResourceIndex : ISchemaApi :=
  {| schema_apiVersion := "1";
     schema_apis := [{| info_description := "B"; info_path := "/b.json" |}];
     schema_basePath := "http://x/api"; schema_swaggerVersion := "1.2" |}.

Definition oneResourceWorld : World :=
  {| files := {[ "/app/lib/../template/Api.ts" := "export class Api {}" ]};
     remote := fun u =>
       if String.eqb u indexUrl then Some (JsonText.stringify oneResourceDoc)
       else if String.eqb u "http://x/api/b.json"
            then Some (JsonText.stringify resourceBDoc)
       else None;
     trace := [] |}.

(** A world without any file and without network. *)
Definition bareWorld : World :=
  {| files := ∅; remote := fun _ => None; trace := [] |}.

(** The schema of the two resources on a network that serves the index
    and the resource A, not the resource B. *)
Definition halfServedWorld : World :=
  {| files := {[ "/app/lib/../template/Api.ts" := "export class Api {}" ]};
     remote := fun u =>
       if String.eqb u indexUrl then Some (JsonText.stringify twoResourcesDoc)
       else if String.eqb u "http://x/api/a.json"
            then Some (JsonText.stringify resourceADoc)
       else None;
     trace := [] |}.

End Examples.

(** ** Lemmas on texts and lists *)

Lemma append_assoc (a b c : string) : (a +:+ b) +:+ c = a +:+ (b +:+ c).
Proof.
  induction a as [|x a IH]; [reflexivity|].
  change (String x ((a +:+ b) +:+ c) = String x (a +:+ (b +:+ c))).
  by rewrite IH.
Qed.

Lemma append_nil_r (a : string) : a +:+ EmptyString = a.
Proof.
  induction a as [|x a IH]; [reflexivity|].
  change (String x (a +:+ EmptyString) = String x a). by rewrite IH.
Qed.

Lemma append_nil_l (a : string) : EmptyString +:+ a = a.
Proof. reflexivity. Qed.

Lemma length_append (a b : string) :
  String.length (a +:+ b) = (String.length a + String.length b)%nat.
Proof.
  induction a as [|x a IH]; [reflexivity|].
  change (S (String.length (a +:+ b))
          = S (String.length a + String.length b)).
  by rewrite IH.
Qed.

Lemma truthy_append_l (a b : string) :
  Js.truthy a = true -> Js.truthy (a +:+ b) = true.
Proof. by destruct a. Qed.

Lemma truthy_nil_iff (a : string) : Js.truthy a = false <-> a = EmptyString.
Proof. destruct a; split; intros; done. Qed.

Lemma some_required_iff (params : list IParameter) :
  Js.some param_required params = true <-> SomeRequired params.
Proof.
  unfold Js.some, SomeRequired. rewrite existsb_exists, Exists_exists.
  split; intros (o & Hin & Ho); exists o; split; auto; by apply list_elem_of_In.
Qed.

Lemma marker_of_some (params : list IParameter) :
  (if Js.some param_required params then EmptyString else "?")
  = markerOf (SomeRequired params).
Proof.
  unfold markerOf. destruct (Js.some param_required params) eqn:E;
    destruct (decide (SomeRequired params)) as [H|H]; try reflexivity.
  - apply some_required_iff in E. contradiction.
  - apply some_required_iff in H. congruence.
Qed.

Lemma includes_iff (items : list string) (x : string) :
  Js.includes items x = true <-> x ∈ items.
Proof.
  unfold Js.includes. rewrite existsb_exists. split.
  - intros (y & Hin & Hy). apply String.eqb_eq in Hy. subst.
    by apply list_elem_of_In.
  - intros Hin. exists x. split; [by apply list_elem_of_In|apply String.eqb_refl].
Qed.

Lemma textOf_nil {A} (f : A -> string) : textOf f [] = EmptyString.
Proof. reflexivity. Qed.

Lemma textOf_cons {A} (f : A -> string) (x : A) (l : list A) :
  textOf f (x :: l) = f x +:+ textOf f l.
Proof.
  unfold textOf, Js.join. destruct l as [|y l]; simpl.
  - by rewrite append_nil_r.
  - reflexivity.
Qed.

Lemma textOf_app {A} (f : A -> string) (l1 l2 : list A) :
  textOf f (l1 ++ l2) = textOf f l1 +:+ textOf f l2.
Proof.
  induction l1 as [|x l1 IH]; [reflexivity|].
  change ((x :: l1) ++ l2) with (x :: (l1 ++ l2)).
  by rewrite !textOf_cons, IH, append_assoc.
Qed.

(** A loop that only appends is the text of its turns. *)
Lemma fold_left_append {A} (f : A -> string) (l : list A) (out : string) :
  fold_left (fun out x => out +:+ f x) l out = out +:+ textOf f l.
Proof.
  revert out. induction l as [|x l IH]; intros out; simpl.
  - by rewrite textOf_nil, append_nil_r.
  - by rewrite IH, textOf_cons, append_assoc.
Qed.

Lemma truthy_textOf {A} (f : A -> string) (l : list A) :
  (forall x, Js.truthy (f x) = true) ->
  Js.truthy (textOf f l) = match l with [] => false | _ => true end.
Proof.
  intros Hf. destruct l as [|x l]; [reflexivity|].
  rewrite textOf_cons. by apply truthy_append_l.
Qed.

(** *** The options declaration of the first listing *)

Lemma getTsParam_truthy (parameter : IParameter) :
  Js.truthy (Generate.getTsParam parameter) = true.
Proof.
  unfold Generate.getTsParam.
  destruct (Js.truthy (param_description parameter)); reflexivity.
Qed.

Lemma groupStep_fold (l : list IParameter) (body query params : string) :
  fold_left Generate.groupStep l (body, query, params)
  = (body +:+ textOf Generate.getTsParam
                (filter (Generate.isParamType "body") l),
     query +:+ textOf Generate.getTsParam
                 (filter (Generate.isParamType "query") l),
     params +:+ textOf Generate.getTsParam
                  (filter (Generate.isParamType "path") l)).
Proof.
  revert body query params.
  induction l as [|x l IH]; intros body query params.
  - cbn [fold_left]. rewrite !filter_nil, !textOf_nil, !append_nil_r. reflexivity.
  - cbn [fold_left]. unfold Generate.groupStep at 2. rewrite IH.
    rewrite !filter_cons.
    destruct (Generate.isParamType "body" x) eqn:Eb;
      destruct (Generate.isParamType "query" x) eqn:Eq;
      destruct (Generate.isParamType "path" x) eqn:Ep;
      repeat (match goal with
              | |- context [decide (Is_true true)] =>
                  destruct (decide (Is_true true)) as [_|[]]; [|exact I]
              | |- context [decide (Is_true false)] =>
                  destruct (decide (Is_true false)) as [[]|_]
              end);
      rewrite ?textOf_cons, ?append_assoc; reflexivity.
Qed.

Lemma groupField_if (lead label marker lines tail out : string)
    (group : list IParameter) :
  lead = "  " +:+ label ->
  (if match group with [] => false | _ :: _ => true end
   then out +:+ Js.nl +:+ lead +:+ marker +:+ ": {" +:+ lines +:+ tail
   else out)
  = out +:+ groupField label marker lines tail group.
Proof.
  intros ->. destruct group; cbn [groupField];
    by rewrite ?append_nil_r, ?append_assoc.
Qed.

Lemma options_interface_text (operation : IOperation)
    (options : IGenerateApisOptions) :
  exists imports : string,
    (opt_splitInterfaces options = false -> imports = EmptyString) /\
    Generate.getTsOperationOptionsInterface operation options
    = ((((imports +:+ "export interface "
           +:+ getTsOperationOptionsInterfaceName operation
           +:+ " extends IOperationOptions {")
        +:+ groupField "body"
              (markerOf (SomeRequired (paramGroup "body" operation)))
              (textOf Generate.getTsParam (paramGroup "body" operation))
              (Js.nl +:+ "  };" +:+ Js.nl)
              (paramGroup "body" operation))
        +:+ groupField "query"
              (markerOf (SomeRequired (paramGroup "query" operation)))
              (textOf Generate.getTsParam (paramGroup "query" operation))
              (Js.nl +:+ "  };")
              (paramGroup "query" operation))
        +:+ groupField "params"
              (markerOf (SomeRequired (paramGroup "path" operation)))
              (textOf Generate.getTsParam (paramGroup "path" operation))
              (Js.nl +:+ "  };")
              (paramGroup "path" operation))
      +:+ Js.nl +:+ "}".
Proof.
  unfold Generate.getTsOperationOptionsInterface.
  rewrite groupStep_fold. cbv zeta. rewrite !append_nil_l.
  fold (paramGroup "body" operation) (paramGroup "query" operation)
       (paramGroup "path" operation).
  change (filter (Generate.isParamType "body") (op_parameters operation))
    with (paramGroup "body" operation).
  change (filter (Generate.isParamType "query") (op_parameters operation))
    with (paramGroup "query" operation).
  change (filter (Generate.isParamType "path") (op_parameters operation))
    with (paramGroup "path" operation).
  rewrite !(truthy_textOf _ _ getTsParam_truthy), !marker_of_some.
  rewrite (groupField_if "  body" "body"), (groupField_if "  query" "query"),
    (groupField_if "  params" "params") by reflexivity.
  eexists. split; [|reflexivity].
  intros ->. reflexivity.
Qed.

(** *** The options declaration of the second listing *)

Lemma bodyLine_truthy (param : IParameter) : Js.truthy (bodyLine param) = true.
Proof. reflexivity. Qed.

Lemma queryLine_truthy (param : IParameter) : Js.truthy (queryLine param) = true.
Proof. reflexivity. Qed.

Lemma pathLine_truthy (param : IParameter) : Js.truthy (pathLine param) = true.
Proof. reflexivity. Qed.

Lemma groupStep_alt_fold (l : list IParameter) (g : GenerateAlt.Groups) :
  fold_left GenerateAlt.groupStep l g
  = {| GenerateAlt.g_body :=
         GenerateAlt.g_body g
         +:+ textOf bodyLine (filter (GenerateAlt.isParamType "body") l);
       GenerateAlt.g_query :=
         GenerateAlt.g_query g
         +:+ textOf queryLine (filter (GenerateAlt.isParamType "query") l);
       GenerateAlt.g_path :=
         GenerateAlt.g_path g
         +:+ textOf pathLine (filter (GenerateAlt.isParamType "path") l);
       GenerateAlt.g_bodyRequired :=
         GenerateAlt.g_bodyRequired g
         || Js.some param_required
              (filter (GenerateAlt.isParamType "body") l);
       GenerateAlt.g_queryRequired :=
         GenerateAlt.g_queryRequired g
         || Js.some param_required
              (filter (GenerateAlt.isParamType "query") l) |}.
Proof.
  revert g. induction l as [|x l IH]; intros g.
  - cbn [fold_left]. rewrite !filter_nil, !textOf_nil, !append_nil_r.
    cbn. rewrite !orb_false_r. by destruct g.
  - cbn [fold_left]. rewrite IH. clear IH.
    rewrite !filter_cons. unfold GenerateAlt.groupStep.
    destruct (GenerateAlt.isParamType "body" x) eqn:Eb;
      destruct (GenerateAlt.isParamType "query" x) eqn:Eq;
      destruct (GenerateAlt.isParamType "path" x) eqn:Ep;
      repeat (match goal with
              | |- context [decide (Is_true true)] =>
                  destruct (decide (Is_true true)) as [_|[]]; [|exact I]
              | |- context [decide (Is_true false)] =>
                  destruct (decide (Is_true false)) as [[]|_]
              end);
      cbn [GenerateAlt.g_body GenerateAlt.g_query GenerateAlt.g_path
           GenerateAlt.g_bodyRequired GenerateAlt.g_queryRequired];
      unfold Js.some; cbn [existsb];
      rewrite ?textOf_cons; unfold bodyLine, queryLine, pathLine;
      destruct (param_required x); cbn [orb];
      rewrite ?orb_true_r, ?append_assoc; reflexivity.
Qed.

Lemma groupField_if_alt (lead label marker lines tail out : string)
    (group : list IParameter) :
  lead = "  " +:+ label ->
  (if match group with [] => false | _ :: _ => true end
   then ((out +:+ Js.nl +:+ lead +:+ marker +:+ ": {") +:+ lines) +:+ tail
   else out)
  = out +:+ groupField label marker lines tail group.
Proof.
  intros ->. destruct group; cbn [groupField];
    by rewrite ?append_nil_r, ?append_assoc.
Qed.

Lemma paramsField_if_alt (lines tail out : string) (group : list IParameter) :
  (if match group with [] => false | _ :: _ => true end
   then ((out +:+ Js.nl +:+ "  params: {") +:+ lines) +:+ tail
   else out)
  = out +:+ groupField "params" EmptyString lines tail group.
Proof.
  destruct group; cbn [groupField]; by rewrite ?append_nil_r, ?append_assoc.
Qed.

Lemma options_interface_text_alt (operation : IOperation)
    (options : IGenerateApisOptions) :
  exists imports : string,
    (opt_splitInterfaces options = false -> imports = EmptyString) /\
    GenerateAlt.getTsOperationOptionsInterface operation options
    = ((((imports +:+ "export interface "
           +:+ getTsOperationOptionsInterfaceName operation
           +:+ " extends IOperationOptions {")
        +:+ groupField "body"
              (markerOf (SomeRequired (paramGroup "body" operation)))
              (textOf bodyLine (paramGroup "body" operation))
              ("  };" +:+ Js.nl)
              (paramGroup "body" operation))
        +:+ groupField "query"
              (markerOf (SomeRequired (paramGroup "query" operation)))
              (textOf queryLine (paramGroup "query" operation))
              ("  };" +:+ Js.nl)
              (paramGroup "query" operation))
        +:+ groupField "params" EmptyString
              (textOf pathLine (paramGroup "path" operation))
              ("  };" +:+ Js.nl)
              (paramGroup "path" operation))
      +:+ "}" +:+ Js.nl.
Proof.
  unfold GenerateAlt.getTsOperationOptionsInterface.
  rewrite groupStep_alt_fold. cbv zeta.
  cbn [GenerateAlt.g_body GenerateAlt.g_query GenerateAlt.g_path
       GenerateAlt.g_bodyRequired GenerateAlt.g_queryRequired
       GenerateAlt.noGroups orb].
  rewrite !append_nil_l.
  change (filter (GenerateAlt.isParamType "body") (op_parameters operation))
    with (paramGroup "body" operation).
  change (filter (GenerateAlt.isParamType "query") (op_parameters operation))
    with (paramGroup "query" operation).
  change (filter (GenerateAlt.isParamType "path") (op_parameters operation))
    with (paramGroup "path" operation).
  rewrite (truthy_textOf _ _ bodyLine_truthy),
    (truthy_textOf _ _ queryLine_truthy),
    (truthy_textOf _ _ pathLine_truthy), !marker_of_some.
  rewrite (groupField_if_alt "  body" "body"),
    (groupField_if_alt "  query" "query"), paramsField_if_alt by reflexivity.
  eexists. split; [|reflexivity].
  intros ->. reflexivity.
Qed.

Lemma marker_of_includes (items : list string) (name : string) :
  (if Js.includes items name then EmptyString else "?")
  = markerOf (name ∈ items).
Proof.
  unfold markerOf. destruct (Js.includes items name) eqn:E;
    destruct (decide (name ∈ items)) as [H|H]; try reflexivity.
  - apply includes_iff in E. contradiction.
  - apply includes_iff in H. congruence.
Qed.

Lemma markerOf_optional_iff (P : Prop) `{Decision P} :
  markerOf P = "?" <-> ~ P.
Proof. unfold markerOf. destruct (decide P); split; intros; done. Qed.

Lemma markerOf_required_iff (P : Prop) `{Decision P} :
  markerOf P = EmptyString <-> P.
Proof. unfold markerOf. destruct (decide P); split; intros; done. Qed.

(** *** The model declaration *)

Lemma interfaceField_text (model : IModel) (out : string)
    (entry : string * IModelProperty) :
  Generate.interfaceField model out entry = out +:+ fieldLine model entry.
Proof.
  destruct entry as [name property].
  unfold Generate.interfaceField, fieldLine. cbn [fst snd].
  rewrite marker_of_includes.
  destruct (Js.truthy_opt (prop_description property));
    by rewrite !append_assoc.
Qed.

Lemma interfaceField_text_alt (model : IModel) (out : string)
    (entry : string * IModelProperty) :
  GenerateAlt.interfaceField model out entry = out +:+ fieldLineAlt model entry.
Proof.
  destruct entry as [name property].
  unfold GenerateAlt.interfaceField, fieldLineAlt. cbn [fst snd].
  rewrite marker_of_includes.
  destruct (Js.truthy_opt (prop_description property));
    by rewrite !append_assoc.
Qed.

Lemma fold_left_ext_text {A} (step : string -> A -> string) (f : A -> string)
    (l : list A) (out : string) :
  (forall out x, step out x = out +:+ f x) ->
  fold_left step l out = out +:+ textOf f l.
Proof.
  intros Hstep. rewrite <- fold_left_append. revert out.
  induction l as [|x l IH]; intros out; [reflexivity|].
  cbn [fold_left]. by rewrite Hstep, IH.
Qed.

(** C5. For every model, the declaration that [getTsInterface] renders is
    the imports, the head, one field text for every entry of the property
    mapping, in its order, and the closing brace; the field of a property
    carries the optional marker [?] exactly when its name is not in the
    model's [required] list (and no marker exactly when it is).  Both
    listings agree on this. *)
Theorem getTsInterface_optional_fields (model : IModel)
    (options : IGenerateApisOptions) :
  Generate.getTsInterface model options
  = ((modelImports model options +:+ "export interface "
        +:+ getTsInterfaceName (model_id model) +:+ " {")
     +:+ textOf (fieldLine model) (model_properties model))
    +:+ Js.nl +:+ "}"
  /\ GenerateAlt.getTsInterface model options
     = ((modelImports model options +:+ "export interface "
           +:+ getTsInterfaceName (model_id model) +:+ " {")
        +:+ textOf (fieldLineAlt model) (model_properties model))
       +:+ "}" +:+ Js.nl
  /\ (forall name : string,
        (markerOf (name ∈ model_required model) = "?"
         <-> name ∉ model_required model)
        /\ (markerOf (name ∈ model_required model) = EmptyString
            <-> name ∈ model_required model)).
Proof.
  split; [|split].
  - unfold Generate.getTsInterface, Js.entries. cbv zeta.
    by rewrite (fold_left_ext_text _ (fieldLine model))
      by apply interfaceField_text.
  - unfold GenerateAlt.getTsInterface, Js.entries. cbv zeta.
    by rewrite (fold_left_ext_text _ (fieldLineAlt model))
      by apply interfaceField_text_alt.
  - intros name. split.
    + apply markerOf_optional_iff.
    + apply markerOf_required_iff.
Qed.

(** *** The options declaration *)

(** C2, as the claim states it, fails on the second listing: the only
    parameter of [Examples.listPets] is a path parameter that is not
    required, and the [params] field of its options declaration carries no
    optional marker. *)
Lemma params_field_without_marker :
  ~ SomeRequired (paramGroup "path" Examples.listPets)
  /\ paramGroup "path" Examples.listPets <> []
  /\ GenerateAlt.getTsOperationOptionsInterface
       Examples.listPets (Examples.options false EmptyString)
     = "export interface IListPetsOptions extends IOperationOptions {"
       +:+ Js.nl +:+ "  params: {"
       +:+ Js.nl +:+ "    owner: string;"
       +:+ Js.nl +:+ "  };"
       +:+ Js.nl +:+ "}" +:+ Js.nl
  /\ ~ (forall (operation : IOperation) (options : IGenerateApisOptions),
        exists imports : string,
          GenerateAlt.getTsOperationOptionsInterface operation options
          = ((((imports +:+ "export interface "
                 +:+ getTsOperationOptionsInterfaceName operation
                 +:+ " extends IOperationOptions {")
              +:+ groupField "body"
                    (markerOf (SomeRequired (paramGroup "body" operation)))
                    (textOf bodyLine (paramGroup "body" operation))
                    ("  };" +:+ Js.nl)
                    (paramGroup "body" operation))
              +:+ groupField "query"
                    (markerOf (SomeRequired (paramGroup "query" operation)))
                    (textOf queryLine (paramGroup "query" operation))
                    ("  };" +:+ Js.nl)
                    (paramGroup "query" operation))
              +:+ groupField "params"
                    (markerOf (SomeRequired (paramGroup "path" operation)))
                    (textOf pathLine (paramGroup "path" operation))
                    ("  };" +:+ Js.nl)
                    (paramGroup "path" operation))
            +:+ "}" +:+ Js.nl).
Proof.
  split; [|split; [|split]].
  - intros H. apply some_required_iff in H. discriminate H.
  - discriminate.
  - reflexivity.
  - intros H.
    destruct (H Examples.listPets (Examples.options false EmptyString))
      as [imports Himports].
    apply (f_equal String.length) in Himports.
    rewrite !length_append in Himports.
    remember (String.length imports) as n eqn:Hn. clear Hn.
    cbv -[Nat.add] in Himports. lia.
Qed.

(** C2, amended. The options declaration is the imports, the head and, in
    this order, one field for each of the groups body, query and path that
    is not empty, named [body], [query] and [params].  In the first listing
    each of the three fields carries the optional marker exactly when no
    parameter of its group is required.  In the second listing that holds
    for [body] and [query], and the [params] field never carries the
    marker. *)
Theorem options_declaration_fields (operation : IOperation)
    (options : IGenerateApisOptions) :
  (exists imports : string,
     (opt_splitInterfaces options = false -> imports = EmptyString) /\
     Generate.getTsOperationOptionsInterface operation options
     = ((((imports +:+ "export interface "
            +:+ getTsOperationOptionsInterfaceName operation
            +:+ " extends IOperationOptions {")
         +:+ groupField "body"
               (markerOf (SomeRequired (paramGroup "body" operation)))
               (textOf Generate.getTsParam (paramGroup "body" operation))
               (Js.nl +:+ "  };" +:+ Js.nl)
               (paramGroup "body" operation))
         +:+ groupField "query"
               (markerOf (SomeRequired (paramGroup "query" operation)))
               (textOf Generate.getTsParam (paramGroup "query" operation))
               (Js.nl +:+ "  };")
               (paramGroup "query" operation))
         +:+ groupField "params"
               (markerOf (SomeRequired (paramGroup "path" operation)))
               (textOf Generate.getTsParam (paramGroup "path" operation))
               (Js.nl +:+ "  };")
               (paramGroup "path" operation))
       +:+ Js.nl +:+ "}")
  /\ (exists imports : string,
        (opt_splitInterfaces options = false -> imports = EmptyString) /\
        GenerateAlt.getTsOperationOptionsInterface operation options
        = ((((imports +:+ "export interface "
               +:+ getTsOperationOptionsInterfaceName operation
               +:+ " extends IOperationOptions {")
            +:+ groupField "body"
                  (markerOf (SomeRequired (paramGroup "body" operation)))
                  (textOf bodyLine (paramGroup "body" operation))
                  ("  };" +:+ Js.nl)
                  (paramGroup "body" operation))
            +:+ groupField "query"
                  (markerOf (SomeRequired (paramGroup "query" operation)))
                  (textOf queryLine (paramGroup "query" operation))
                  ("  };" +:+ Js.nl)
                  (paramGroup "query" operation))
            +:+ groupField "params" EmptyString
                  (textOf pathLine (paramGroup "path" operation))
                  ("  };" +:+ Js.nl)
                  (paramGroup "path" operation))
          +:+ "}" +:+ Js.nl)
  /\ (forall group : list IParameter,
        (markerOf (SomeRequired group) = EmptyString <-> SomeRequired group)
        /\ (markerOf (SomeRequired group) = "?" <-> ~ SomeRequired group)).
Proof.
  split; [apply options_interface_text|].
  split; [apply options_interface_text_alt|].
  intros group. split.
  - apply markerOf_required_iff.
  - apply markerOf_optional_iff.
Qed.

Lemma options_declaration_fields_witness :
  exists imports : string,
    Generate.getTsOperationOptionsInterface
      Examples.getPet (Examples.options false EmptyString)
    = ((((imports +:+ "export interface IgetPetOptions extends IOperationOptions {")
         +:+ EmptyString) +:+ EmptyString)
       +:+ Js.nl +:+ "  params: {" +:+ Js.nl +:+ "    id: number;"
       +:+ Js.nl +:+ "  };")
      +:+ Js.nl +:+ "}".
Proof.
  destruct (options_declaration_fields
              Examples.getPet (Examples.options false EmptyString))
    as [(imports & Himports & Htext) _].
  exists imports. rewrite Htext. reflexivity.
Defined.

(** C4, as the claim states it, fails: the nickname goes into the name as
    it is, so an operation with the nickname [getPet] has the options
    declaration [IgetPetOptions], not [IGetPetOptions]. *)
Lemma getPet_options_name_not_capitalised :
  ~ (forall operation : IOperation,
       op_nickname operation = "getPet" ->
       getTsOperationOptionsInterfaceName operation = "IGetPetOptions").
Proof.
  intros H. specialize (H Examples.getPet eq_refl). discriminate H.
Qed.

(** C4, amended. The name of the options declaration is the prefix [I],
    the operation's nickname as it is, and the suffix [Options], and that
    is the name the rendered declaration declares in both listings; for
    the nickname [getPet] the name is [IgetPetOptions], and
    [IGetPetOptions] is the name for the nickname [GetPet]. *)
Theorem options_declaration_name (operation : IOperation)
    (options : IGenerateApisOptions) :
  getTsOperationOptionsInterfaceName operation
  = "I" +:+ op_nickname operation +:+ "Options"
  /\ (exists imports fields : string,
        Generate.getTsOperationOptionsInterface operation options
        = imports +:+ "export interface "
          +:+ ("I" +:+ op_nickname operation +:+ "Options")
          +:+ " extends IOperationOptions {" +:+ fields)
  /\ (exists imports fields : string,
        GenerateAlt.getTsOperationOptionsInterface operation options
        = imports +:+ "export interface "
          +:+ ("I" +:+ op_nickname operation +:+ "Options")
          +:+ " extends IOperationOptions {" +:+ fields)
  /\ (op_nickname operation = "getPet" ->
      getTsOperationOptionsInterfaceName operation = "IgetPetOptions")
  /\ (op_nickname operation = "GetPet" ->
      getTsOperationOptionsInterfaceName operation = "IGetPetOptions").
Proof.
  split; [reflexivity|]. split; [|split; [|split]].
  - destruct (options_interface_text operation options)
      as (imports & _ & ->).
    eexists imports, _. unfold getTsOperationOptionsInterfaceName.
    rewrite !append_assoc. reflexivity.
  - destruct (options_interface_text_alt operation options)
      as (imports & _ & ->).
    eexists imports, _. unfold getTsOperationOptionsInterfaceName.
    rewrite !append_assoc. reflexivity.
  - unfold getTsOperationOptionsInterfaceName. by intros ->.
  - unfold getTsOperationOptionsInterfaceName. by intros ->.
Qed.

Lemma options_declaration_name_witness :
  getTsOperationOptionsInterfaceName Examples.getPet = "IgetPetOptions"
  /\ getTsOperationOptionsInterfaceName
       (Examples.operation "GetPet" [] EmptyString) = "IGetPetOptions".
Proof.
  split.
  - destruct (options_declaration_name
                Examples.getPet (Examples.options false EmptyString))
      as (_ & _ & _ & H & _).
    apply H. reflexivity.
  - destruct (options_declaration_name
                (Examples.operation "GetPet" [] EmptyString)
                (Examples.options false EmptyString))
      as (_ & _ & _ & _ & H).
    apply H. reflexivity.
Defined.

(** *** The method *)

Lemma getTsOperation_text (operation : IOperation) (url : string) :
  Generate.getTsOperation operation url
  = methodText (Generate.getJsDocOperation operation)
               (unTitleCase (op_nickname operation))
               (markerOf (SomeRequired (op_parameters operation)))
               operation url.
Proof.
  unfold Generate.getTsOperation, methodText. cbv zeta.
  by rewrite marker_of_some.
Qed.

Lemma getTsOperation_text_alt (operation : IOperation) (url : string) :
  GenerateAlt.getTsOperation operation url
  = methodTextAlt (summaryLine operation)
                  (unTitleCase (op_nickname operation))
                  EmptyString operation url.
Proof.
  unfold GenerateAlt.getTsOperation, methodTextAlt, summaryLine. cbv zeta.
  destruct (Js.truthy (op_summary operation)); reflexivity.
Qed.

Lemma unTitleCase_lowerFirst (str : string) : unTitleCase str = lowerFirst str.
Proof. by destruct str. Qed.

Lemma lower_char_upper (c : ascii) :
  Js.is_upper c = true -> Js.lower_char c <> c.
Proof.
  unfold Js.lower_char. intros Hc. rewrite Hc. intros Heq.
  unfold Js.is_upper in Hc. cbv zeta in Hc.
  apply andb_true_iff in Hc as [_ Hc]. apply Nat.leb_le in Hc.
  apply (f_equal nat_of_ascii) in Heq.
  rewrite nat_ascii_embedding in Heq by lia. lia.
Qed.

(** C1, as the claim states it, fails on the second listing:
    [Examples.ping] has no parameter, and the [options] argument of its
    method carries no optional marker. *)
Lemma options_argument_without_marker :
  op_parameters Examples.ping = []
  /\ GenerateAlt.getTsOperation Examples.ping "/ping"
     = "  async ping(options: IPingOptions): Promise<unknown> {" +:+ Js.nl
       +:+ "    return this.requestJson({ method: 'GET', path: '/ping', ...options });"
       +:+ Js.nl +:+ "  }" +:+ Js.nl
  /\ ~ (forall (operation : IOperation) (url : string),
          GenerateAlt.getTsOperation operation url
          = methodTextAlt (summaryLine operation)
                          (unTitleCase (op_nickname operation))
                          (markerOf (SomeRequired (op_parameters operation)))
                          operation url).
Proof.
  split; [reflexivity|]. split; [reflexivity|].
  intros H. specialize (H Examples.ping "/ping"). discriminate H.
Qed.

(** C1, amended. In the first listing the method takes one [options]
    argument, and that argument carries the optional marker exactly when no
    parameter of the operation is required: it is optional for an operation
    without parameters, and required for an operation that has parameters,
    all of them required.  In the second listing the [options] argument
    never carries the marker. *)
Theorem method_options_argument (operation : IOperation) (url : string) :
  Generate.getTsOperation operation url
  = methodText (Generate.getJsDocOperation operation)
               (unTitleCase (op_nickname operation))
               (markerOf (SomeRequired (op_parameters operation)))
               operation url
  /\ (markerOf (SomeRequired (op_parameters operation)) = "?"
      <-> Forall (fun o => param_required o = false) (op_parameters operation))
  /\ (markerOf (SomeRequired (op_parameters operation)) = EmptyString
      <-> SomeRequired (op_parameters operation))
  /\ (op_parameters operation = [] ->
      markerOf (SomeRequired (op_parameters operation)) = "?")
  /\ (op_parameters operation <> [] ->
      Forall (fun o => param_required o = true) (op_parameters operation) ->
      markerOf (SomeRequired (op_parameters operation)) = EmptyString)
  /\ GenerateAlt.getTsOperation operation url
     = methodTextAlt (summaryLine operation)
                     (unTitleCase (op_nickname operation))
                     EmptyString operation url.
Proof.
  split; [apply getTsOperation_text|].
  split; [|split; [apply markerOf_required_iff|]].
  { rewrite markerOf_optional_iff. unfold SomeRequired.
    rewrite <- Forall_Exists_neg. apply Forall_iff. intros o.
    destruct (param_required o); split; intros; done. }
  split; [|split; [|apply getTsOperation_text_alt]].
  - intros ->. reflexivity.
  - intros Hne Hall. apply markerOf_required_iff.
    destruct (op_parameters operation) as [|o l]; [done|].
    apply Exists_cons_hd. by inversion Hall.
Qed.

Lemma method_options_argument_witness :
  markerOf (SomeRequired (op_parameters Examples.ping)) = "?"
  /\ markerOf (SomeRequired (op_parameters Examples.getPet)) = EmptyString.
Proof.
  split.
  - destruct (method_options_argument Examples.ping "/ping")
      as (_ & _ & _ & H & _).
    apply H. reflexivity.
  - destruct (method_options_argument Examples.getPet "/pets/{id}")
      as (_ & _ & _ & _ & H & _).
    apply H.
    + discriminate.
    + repeat constructor.
Defined.

(** C9. For an operation whose nickname starts with an ASCII character
    (or is empty), in both listings the name of the generated method is
    the nickname with its first character in lower case and the other
    characters unchanged, while the name of the options declaration holds
    the nickname as it is; so a nickname that starts with an upper case
    letter gives a method name that differs from the nickname. *)
Theorem method_name_lower_first (operation : IOperation) (url : string) :
  startsAscii (op_nickname operation) = true ->
  Generate.getTsOperation operation url
  = methodText (Generate.getJsDocOperation operation)
               (lowerFirst (op_nickname operation))
               (markerOf (SomeRequired (op_parameters operation)))
               operation url
  /\ GenerateAlt.getTsOperation operation url
     = methodTextAlt (summaryLine operation)
                     (lowerFirst (op_nickname operation))
                     EmptyString operation url
  /\ getTsOperationOptionsInterfaceName operation
     = "I" +:+ op_nickname operation +:+ "Options"
  /\ (forall (c : ascii) (rest : string),
        op_nickname operation = String c rest ->
        Js.is_upper c = true ->
        lowerFirst (op_nickname operation) = String (Js.lower_char c) rest
        /\ lowerFirst (op_nickname operation) <> op_nickname operation).
Proof.
  intros _. split; [|split; [|split]].
  - rewrite getTsOperation_text. by rewrite unTitleCase_lowerFirst.
  - rewrite getTsOperation_text_alt. by rewrite unTitleCase_lowerFirst.
  - reflexivity.
  - intros c rest -> Hc. split; [reflexivity|].
    cbn [lowerFirst]. intros Heq. injection Heq as Heq.
    by apply (lower_char_upper c).
Qed.

Lemma method_name_lower_first_witness :
  startsAscii (op_nickname Examples.ping) = true
  /\ lowerFirst (op_nickname Examples.ping) = "ping"
  /\ lowerFirst (op_nickname Examples.ping) <> op_nickname Examples.ping.
Proof.
  split; [reflexivity|].
  destruct (method_name_lower_first Examples.ping "/ping" eq_refl)
    as (_ & _ & _ & H).
  apply (H "P"%char "ing"); reflexivity.
Defined.

(** *** Property types *)

(** C10. A property whose type tag is [array] and which has neither an
    [items] sub-schema nor a reference has the type text [array]: the tag
    goes through the fallback of [mapType]. *)
Theorem getTsPropertyType_array_without_items (property : IModelProperty) :
  prop_type property = Some "array" ->
  prop_items property = None ->
  prop_ref property = None ->
  getTsPropertyType property = "array"
  /\ getTsPropertyType property = mapType (prop_type property).
Proof.
  destruct property as [type description items format ref]. cbn.
  intros -> -> ->. split; reflexivity.
Qed.

Lemma getTsPropertyType_array_without_items_witness :
  getTsPropertyType (Examples.property (Some "array") None None) = "array"
  /\ getTsPropertyType (Examples.property (Some "array") None None)
     = mapType (Some "array").
Proof.
  apply (getTsPropertyType_array_without_items
           (Examples.property (Some "array") None None)); reflexivity.
Defined.

(** *** The imports of a model declaration *)

(** C6, evaluated where it fails: with split interfaces, the declaration of
    [Examples.owner], whose two properties refer to the model [Pet] (one
    of them through an array), starts with the import line of [IPet]
    twice, in both listings; [uniq], which the imports of the options
    declaration go through, would have kept one. *)
Theorem getTsInterface_repeats_import :
  modelInterfaces Examples.owner = ["IPet"; "IPet"]
  /\ uniq (modelInterfaces Examples.owner) = ["IPet"]
  /\ Generate.getTsInterface Examples.owner (Examples.options true EmptyString)
     = importLine "IPet" +:+ Js.nl +:+ importLine "IPet" +:+ Js.nl +:+ Js.nl
       +:+ "export interface IOwner {"
       +:+ Js.nl +:+ Js.nl +:+ "  favourite?: IPet;"
       +:+ Js.nl +:+ Js.nl +:+ "  pets?: IPet[];"
       +:+ Js.nl +:+ "}"
  /\ GenerateAlt.getTsInterface Examples.owner (Examples.options true EmptyString)
     = importLine "IPet" +:+ Js.nl +:+ importLine "IPet" +:+ Js.nl +:+ Js.nl
       +:+ "export interface IOwner {"
       +:+ Js.nl +:+ "  favourite?: IPet;" +:+ Js.nl
       +:+ Js.nl +:+ "  pets?: IPet[];" +:+ Js.nl
       +:+ "}" +:+ Js.nl.
Proof. repeat split; reflexivity. Qed.

(** *** The merge of the resources *)

Lemma get_set {V} (o : Js.Dict V) (k k' : string) (v : V) :
  Js.get (Js.set o k v) k' = if String.eqb k' k then Some v else Js.get o k'.
Proof.
  induction o as [|[k0 v0] o IH]; cbn [Js.set Js.get].
  - reflexivity.
  - destruct (String.eqb_spec k k0) as [->|Hk]; cbn [Js.get].
    + by destruct (String.eqb k' k0).
    + rewrite IH. destruct (String.eqb_spec k' k0) as [->|Hk']; [|done].
      destruct (String.eqb_spec k0 k) as [->|_]; done.
Qed.

Lemma get_absent {V} (o : Js.Dict V) (k : string) :
  k ∉ map fst o -> Js.get o k = None.
Proof.
  induction o as [|[k0 v0] o IH]; cbn [Js.get map fst]; [done|].
  intros Hk. apply not_elem_of_cons in Hk as [Hne Hk].
  destruct (String.eqb_spec k k0); [done|auto].
Qed.

(** A read of [{...a, ...b}] is the read of [b], and the read of [a] where
    [b] has not the key. *)
Lemma get_spread {V} (a b : Js.Dict V) (k : string) :
  NoDup (map fst b) ->
  Js.get (Js.spread a b) k
  = match Js.get b k with Some v => Some v | None => Js.get a k end.
Proof.
  unfold Js.spread. revert a.
  induction b as [|[k1 v1] b IH]; intros a Hb; [reflexivity|].
  cbn [map fst] in Hb. apply NoDup_cons in Hb as [Hk1 Hb].
  cbn [fold_left fst snd Js.get]. rewrite IH by done. rewrite get_set.
  destruct (String.eqb_spec k k1) as [->|Hk]; [|done].
  by rewrite get_absent.
Qed.

Lemma fold_mergeApi_apis (rest : list IApi) (first : IApi) :
  api_apis (fold_left mergeApi rest first)
  = api_apis first ++ List.concat (map api_apis rest).
Proof.
  revert first. induction rest as [|api rest IH]; intros first; cbn.
  - by rewrite app_nil_r.
  - rewrite IH. cbn. by rewrite <- app_assoc.
Qed.

(** C7. With a grouping class name configured, the block that ends
    [generateApis] merges the fetched resources and writes the class of
    the merged one.  For the list [A; B], where both resources define a
    model under the identifier [X], the merged resource has the
    definition of [B] under [X], and its list of operation groups is the
    list of [A] followed by the list of [B]; for any fetched list the
    operation groups are those of the resources one after the other in
    the order of the list. *)
Theorem group_merge_last_write_wins (options : IGenerateApisOptions)
    (A B : IApi) (X : ModelID) (defA defB : IModel) (w : World) :
  Js.truthy (opt_groupClass options) = true ->
  NoDup (map fst (api_models B)) ->
  Js.get (api_models A) X = Some defA ->
  Js.get (api_models B) X = Some defB ->
  exists combined : IApi,
    mergeApis [A; B] w = (Resolved combined, w)
    /\ Js.get (api_models combined) X = Some defB
    /\ api_apis combined = api_apis A ++ api_apis B
    /\ Generate.writeGroupClass options [A; B] w
       = IO.writeFile
           (opt_dest options +:+ "/" +:+ opt_groupClass options +:+ ".ts")
           (Generate.getTsApi (opt_groupClass options) combined options) w
    /\ GenerateAlt.writeGroupClass options [A; B] w
       = IO.writeFile
           (opt_dest options +:+ "/" +:+ opt_groupClass options +:+ ".ts")
           (GenerateAlt.getTsApi (opt_groupClass options) combined options) w
    /\ (forall (first : IApi) (rest : list IApi),
          exists merged : IApi,
            mergeApis (first :: rest) w = (Resolved merged, w)
            /\ api_apis merged = List.concat (map api_apis (first :: rest))).
Proof.
  intros Hgroup HB HA HX. exists (mergeApi A B).
  split; [reflexivity|]. split; [|split; [reflexivity|]].
  - cbn [mergeApi api_models]. by rewrite get_spread, HX.
  - split; [|split].
    + unfold Generate.writeGroupClass. by rewrite Hgroup.
    + unfold GenerateAlt.writeGroupClass. by rewrite Hgroup.
    + intros first rest. eexists. split; [reflexivity|].
      apply fold_mergeApi_apis.
Qed.

Lemma group_merge_last_write_wins_witness :
  exists combined : IApi,
    mergeApis [Examples.resourceA; Examples.resourceB]
              (Examples.world Examples.indexUrl Examples.emptyIndexBody)
    = (Resolved combined,
       Examples.world Examples.indexUrl Examples.emptyIndexBody)
    /\ Js.get (api_models combined) "Pet" = Some Examples.pet
    /\ api_apis combined
       = api_apis Examples.resourceA ++ api_apis Examples.resourceB.
Proof.
  destruct (group_merge_last_write_wins
              (Examples.options false "All")
              Examples.resourceA Examples.resourceB "Pet"
              Examples.petA Examples.pet
              (Examples.world Examples.indexUrl Examples.emptyIndexBody))
    as (combined & Hmerge & Hget & Hapis & _).
  - reflexivity.
  - cbn. apply NoDup_singleton.
  - reflexivity.
  - reflexivity.
  - exists combined. auto.
Defined.

(** A run with the text codec: the index lists the resources A and B, which
    both define the model [Pet]; with the grouping class [All] the run
    fetches the index, A and B in this order and writes the class of the
    merged resource. *)
Example grouped_run :
  let options := Examples.options false "All" in
  let run :=
    Generate.generateApis JsonText.parse JsonText.stringify "/app/lib"
                          options Examples.twoResourcesWorld in
  Cast.asIApi Examples.resourceADoc = Some Examples.resourceA
  /\ Cast.asIApi Examples.resourceBDoc = Some Examples.resourceB
  /\ run.1 = Resolved tt
  /\ Examples.fetched (trace run.2)
     = [Examples.indexUrl; "http://x/api/a.json"; "http://x/api/b.json"]
  /\ files run.2 !! "./generated/All.ts"
     = Some (Generate.getTsApi
               "All" (mergeApi Examples.resourceA Examples.resourceB) options)
  /\ files run.2 !! "./generated/Pets.ts" = None.
Proof. cbv zeta. repeat split; vm_compute; reflexivity. Qed.

(** *** Runs of [getJson] *)

Ltac run_io :=
  unfold IO.bind, IO.tryCatch, IO.mkdir, IO.access, IO.readFile, IO.fetch,
    IO.writeFile, IO.copyFile, IO.consoleLog, IO.consoleLogError, IO.ret,
    IO.throw, IO.emit, IO.cast;
  cbn [files remote trace fst snd GenerateAlt.truthy negb].

(** Case analysis on what a run reads: a file, the network, the decoder,
    the truthiness of the document. *)
Ltac io_cases :=
  repeat (run_io;
          match goal with
          | H : files ?w !! ?f = _ |- context [files ?w !! ?f] => rewrite H
          | |- context [files ?w !! ?f] => destruct (files w !! f) eqn:?
          | |- context [Cast.truthy ?d] => destruct (Cast.truthy d) eqn:?
          | |- context [remote ?w ?u] => destruct (remote w u) eqn:?
          | |- context [match ?p ?t with Some _ => _ | None => _ end] =>
              destruct (p t) eqn:?
          end);
  run_io.

(** A trace that extends [t]: the events put before [t]. *)
Ltac trace_prefix :=
  match goal with
  | |- ?l = _ ++ ?t =>
      let rec go l :=
        lazymatch l with
        | t => constr:(@nil Event)
        | ?e :: ?l' => let r := go l' in constr:(e :: r)
        end in
      let pre := go l in instantiate (1 := pre); reflexivity
  end.

Ltac only_cache_writes :=
  let Hin := fresh "Hin" in
  intros ? ? Hin;
  repeat (apply elem_of_cons in Hin as [Hin|Hin];
          [try discriminate Hin; by injection Hin as -> _|]);
  by apply elem_of_nil in Hin.

Section GetJson.
Variable JSON_parse : string -> option Json.
Variable JSON_stringify : Json -> string.

(** A miss: the file is not there, the network answers, the body decodes. *)
Lemma getJson_miss (url body : string) (d : Json) (w : World) :
  files w !! cacheFile url = None ->
  remote w url = Some body ->
  JSON_parse body = Some d ->
  Generate.getJson JSON_parse JSON_stringify url w
  = (Resolved d,
     {| files := <[cacheFile url := JSON_stringify d]> (files w);
        remote := remote w;
        trace := WriteFile (cacheFile url) (JSON_stringify d)
                 :: Fetch url :: Access (cacheFile url) :: Mkdir cachePath
                 :: trace w |}).
Proof.
  intros Hfile Hnet Hbody.
  unfold Generate.getJson, Generate.fetchAndStore, Generate.parseJson.
  run_io. rewrite Hfile. run_io. rewrite Hnet. run_io. rewrite Hbody.
  reflexivity.
Qed.

(** A hit: the file is there and holds the text of a truthy document. *)
Lemma getJson_hit (url text : string) (d : Json) (w : World) :
  files w !! cacheFile url = Some text ->
  JSON_parse text = Some d ->
  Cast.truthy d = true ->
  Generate.getJson JSON_parse JSON_stringify url w
  = (Resolved d,
     {| files := files w;
        remote := remote w;
        trace := ReadFile (cacheFile url) :: Access (cacheFile url)
                 :: Mkdir cachePath :: trace w |}).
Proof.
  intros Hfile Htext Hd.
  unfold Generate.getJson, Generate.fetchAndStore, Generate.parseJson.
  run_io. rewrite Hfile. run_io. rewrite Hfile. run_io. rewrite Htext.
  run_io. rewrite Hd. reflexivity.
Qed.

Lemma getJson_miss_alt (url body : string) (d : Json) (w : World) :
  files w !! cacheFile url = None ->
  remote w url = Some body ->
  JSON_parse body = Some d ->
  GenerateAlt.getJson JSON_parse JSON_stringify url w
  = (Resolved (GenerateAlt.Parsed d),
     {| files := <[cacheFile url := JSON_stringify d]> (files w);
        remote := remote w;
        trace := WriteFile (cacheFile url) (JSON_stringify d)
                 :: Fetch url :: Log ("Request " +:+ url)
                 :: LogError (ENOENT (cacheFile url))
                 :: Access (cacheFile url) :: Mkdir cachePath
                 :: trace w |}).
Proof.
  intros Hfile Hnet Hbody.
  unfold GenerateAlt.getJson, GenerateAlt.request, GenerateAlt.loadCached,
    GenerateAlt.parseJson.
  run_io. rewrite Hfile. run_io. rewrite Hnet. run_io. rewrite Hbody.
  reflexivity.
Qed.

Lemma getJson_hit_alt (url text : string) (d : Json) (w : World) :
  files w !! cacheFile url = Some text ->
  JSON_parse text = Some d ->
  Cast.truthy d = true ->
  GenerateAlt.getJson JSON_parse JSON_stringify url w
  = (Resolved (GenerateAlt.Parsed d),
     {| files := files w;
        remote := remote w;
        trace := ReadFile (cacheFile url) :: Access (cacheFile url)
                 :: Mkdir cachePath :: trace w |}).
Proof.
  intros Hfile Htext Hd.
  unfold GenerateAlt.getJson, GenerateAlt.request, GenerateAlt.loadCached,
    GenerateAlt.parseJson.
  run_io. rewrite Hfile. run_io. rewrite Hfile. run_io. rewrite Htext.
  run_io. rewrite Hd. reflexivity.
Qed.

(** Whatever happens, [getJson] adds to the trace, and the files it
    writes are the cache file of its URL. *)
Lemma getJson_trace (url : string) (w : World) :
  exists events : list Event,
    trace (Generate.getJson JSON_parse JSON_stringify url w).2
    = events ++ trace w
    /\ OnlyCacheWrites url events.
Proof.
  unfold Generate.getJson, Generate.fetchAndStore, Generate.parseJson.
  io_cases; (eexists; split; [trace_prefix|only_cache_writes]).
Qed.

Lemma getJson_trace_alt (url : string) (w : World) :
  exists events : list Event,
    trace (GenerateAlt.getJson JSON_parse JSON_stringify url w).2
    = events ++ trace w
    /\ OnlyCacheWrites url events.
Proof.
  unfold GenerateAlt.getJson, GenerateAlt.request, GenerateAlt.loadCached,
    GenerateAlt.parseJson.
  io_cases; (eexists; split; [trace_prefix|only_cache_writes]).
Qed.

End GetJson.

Lemma stripKey_filter (path : string) :
  list_ascii_of_string (stripKey path)
  = List.filter (fun c => negb (isKeyNoise c)) (list_ascii_of_string path).
Proof.
  induction path as [|c r IH]; [reflexivity|].
  cbn [stripKey list_ascii_of_string List.filter].
  destruct (isKeyNoise c); cbn [negb list_ascii_of_string]; by rewrite IH.
Qed.

(** C3, as the claim states it, fails twice on concrete runs with the text
    codec.  The body [{"a":1}] is not what the first run leaves in the
    cache: the file holds the document printed again with an indentation
    of two.  And when the document is [null], the second run finds the
    cache entry and asks the network all the same. *)
Lemma cache_is_not_the_raw_body :
  let w := Examples.world Examples.indexUrl Examples.smallBody in
  let first :=
    Generate.getJson JsonText.parse JsonText.stringify Examples.indexUrl w in
  let w0 := Examples.world Examples.indexUrl "null" in
  let first0 :=
    Generate.getJson JsonText.parse JsonText.stringify Examples.indexUrl w0 in
  let second0 :=
    Generate.getJson JsonText.parse JsonText.stringify Examples.indexUrl
                     first0.2 in
  (files w !! cacheFile Examples.indexUrl = None
   /\ remote w Examples.indexUrl = Some Examples.smallBody
   /\ files first.2 !! cacheFile Examples.indexUrl
      = Some ("{" +:+ Js.nl +:+ "  " +:+ Js.quote +:+ "a" +:+ Js.quote
              +:+ ": 1" +:+ Js.nl +:+ "}")
   /\ files first.2 !! cacheFile Examples.indexUrl
      <> Some Examples.smallBody)
  /\ (first0.1 = Resolved JNull
      /\ files first0.2 !! cacheFile Examples.indexUrl = Some "null"
      /\ second0.1 = Resolved JNull
      /\ trace second0.2
         = WriteFile (cacheFile Examples.indexUrl) "null"
           :: Fetch Examples.indexUrl
           :: ReadFile (cacheFile Examples.indexUrl)
           :: Access (cacheFile Examples.indexUrl)
           :: Mkdir cachePath :: trace first0.2).
Proof.
  cbv zeta. split; [split; [|split; [|split]]|split; [|split; [|split]]];
    try (vm_compute; reflexivity).
  vm_compute. discriminate.
Qed.

(** C3, amended. On a miss the network is asked for the URL, and the cache
    file, whose name is [./cache/] and the URL without the characters
    [:/.-?={}], receives [JSON.stringify(data, null, 2)] of the decoded
    response.  When that document is truthy and [JSON.parse] gives it back
    from this text, a load of the same URL in a world that holds this
    cache entry asks the network for nothing and returns the same
    document.  Both listings agree on this. *)
Theorem cache_round_trip (JSON_parse : string -> option Json)
    (JSON_stringify : Json -> string) (url body : string) (d : Json)
    (w w2 : World) :
  files w !! cacheFile url = None ->
  remote w url = Some body ->
  JSON_parse body = Some d ->
  Cast.truthy d = true ->
  JSON_parse (JSON_stringify d) = Some d ->
  files w2 !! cacheFile url = Some (JSON_stringify d) ->
  let stored (w : World) (events : list Event) : World :=
    {| files := <[cacheFile url := JSON_stringify d]> (files w);
       remote := remote w; trace := events ++ trace w |} in
  let unchanged (w : World) (events : list Event) : World :=
    {| files := files w; remote := remote w; trace := events ++ trace w |} in
  Generate.getJson JSON_parse JSON_stringify url w
  = (Resolved d,
     stored w [WriteFile (cacheFile url) (JSON_stringify d); Fetch url;
               Access (cacheFile url); Mkdir cachePath])
  /\ Generate.getJson JSON_parse JSON_stringify url w2
     = (Resolved d,
        unchanged w2 [ReadFile (cacheFile url); Access (cacheFile url);
                      Mkdir cachePath])
  /\ GenerateAlt.getJson JSON_parse JSON_stringify url w
     = (Resolved (GenerateAlt.Parsed d),
        stored w [WriteFile (cacheFile url) (JSON_stringify d); Fetch url;
                  Log ("Request " +:+ url);
                  LogError (ENOENT (cacheFile url));
                  Access (cacheFile url); Mkdir cachePath])
  /\ GenerateAlt.getJson JSON_parse JSON_stringify url w2
     = (Resolved (GenerateAlt.Parsed d),
        unchanged w2 [ReadFile (cacheFile url); Access (cacheFile url);
                      Mkdir cachePath])
  /\ files (stored w []) !! cacheFile url = Some (JSON_stringify d)
  /\ cacheFile url = "./cache/" +:+ stripKey url
  /\ list_ascii_of_string (stripKey url)
     = List.filter
         (fun c => negb (bool_decide
                           (c ∈ [":"; "/"; "."; "-"; "?"; "="; "{"; "}"]%char)))
         (list_ascii_of_string url).
Proof.
  intros Hmiss Hnet Hbody Htruthy Hround Hhit. cbv zeta.
  split; [by apply getJson_miss with body|].
  split; [by apply getJson_hit with (JSON_stringify d)|].
  split; [by apply getJson_miss_alt with body|].
  split; [by apply getJson_hit_alt with (JSON_stringify d)|].
  split; [cbn [files]; apply lookup_insert_eq|].
  split; [reflexivity|].
  rewrite stripKey_filter. apply List.filter_ext. intros c. f_equal.
  unfold isKeyNoise.
  destruct (bool_decide_reflect
              (c ∈ [":"; "/"; "."; "-"; "?"; "="; "{"; "}"]%char)) as [Hc|Hc].
  - apply (proj2 (existsb_exists _ _)). exists c.
    split; [by apply list_elem_of_In|apply Ascii.eqb_refl].
  - apply not_true_is_false. intros (c' & Hin & Heq)%existsb_exists.
    apply Ascii.eqb_eq in Heq. subst c'. by apply Hc, list_elem_of_In.
Qed.

Lemma cache_round_trip_witness :
  let w := Examples.world Examples.indexUrl Examples.smallBody in
  let first :=
    Generate.getJson JsonText.parse JsonText.stringify Examples.indexUrl w in
  first.1 = Resolved (JObject [("a", JNumber 1)])
  /\ (Generate.getJson JsonText.parse JsonText.stringify Examples.indexUrl
                       first.2).1
     = Resolved (JObject [("a", JNumber 1)]).
Proof.
  cbv zeta.
  destruct (cache_round_trip
              JsonText.parse JsonText.stringify
              Examples.indexUrl Examples.smallBody
              (JObject [("a", JNumber 1)])
              (Examples.world Examples.indexUrl Examples.smallBody)
              (Generate.getJson
                 JsonText.parse JsonText.stringify Examples.indexUrl
                 (Examples.world Examples.indexUrl Examples.smallBody)).2)
    as (Hfirst & Hsecond & _).
  - vm_compute; reflexivity.
  - vm_compute; reflexivity.
  - vm_compute; reflexivity.
  - reflexivity.
  - vm_compute; reflexivity.
  - vm_compute; reflexivity.
  - rewrite Hsecond, Hfirst. split; reflexivity.
Defined.

(** *** A schema index without entries *)

Lemma hasDot_append (a b : string) : hasDot (a +:+ b) = hasDot a || hasDot b.
Proof.
  induction a as [|c a IH]; [reflexivity|].
  change (hasDot (String c (a +:+ b)) = hasDot (String c a) || hasDot b).
  cbn [hasDot]. by rewrite IH, orb_assoc.
Qed.

Lemma hasDot_stripKey (path : string) : hasDot (stripKey path) = false.
Proof.
  induction path as [|c r IH]; [reflexivity|].
  cbn [stripKey]. destruct (isKeyNoise c) eqn:Hc; [done|].
  cbn [hasDot]. rewrite IH, orb_false_r.
  destruct (Ascii.eqb_spec c "."%char) as [->|]; [discriminate Hc|done].
Qed.

(** A cache file is never a [.ts] file: the only dot of its name is the
    first character. *)
Lemma cacheFile_not_ts (url stem : string) : cacheFile url <> stem +:+ ".ts".
Proof.
  unfold cacheFile, cachePath. intros Heq.
  destruct stem as [|c stem].
  - discriminate Heq.
  - change (String "." ("/cache" +:+ "/" +:+ stripKey url)
            = String c (stem +:+ ".ts")) in Heq.
    injection Heq as _ Heq. apply (f_equal hasDot) in Heq.
    rewrite !hasDot_append, hasDot_stripKey in Heq.
    cbn in Heq. rewrite orb_true_r in Heq. discriminate Heq.
Qed.

Lemma group_file_is_ts (options : IGenerateApisOptions) :
  opt_dest options +:+ "/" +:+ opt_groupClass options +:+ ".ts"
  = (opt_dest options +:+ "/" +:+ opt_groupClass options) +:+ ".ts".
Proof. by rewrite !append_assoc. Qed.

Lemma no_group_file_in_cache_writes (options : IGenerateApisOptions)
    (url : string) (events : list Event) :
  OnlyCacheWrites url events ->
  forall data : string,
    WriteFile (opt_dest options +:+ "/" +:+ opt_groupClass options +:+ ".ts")
              data ∉ events.
Proof.
  intros Honly data Hin. apply Honly in Hin.
  rewrite group_file_is_ts in Hin. symmetry in Hin.
  by apply cacheFile_not_ts in Hin.
Qed.

(** C8. With a grouping class name configured, if the schema index that
    [generateApis] loads has no resource entry, the run is rejected with
    the [TypeError] of a [reduce] of an empty array without initial value.
    It ends in the world in which the index was loaded: the base template
    is copied, and since then nothing was written but, perhaps, the cache
    file of the index; no file of the group class was written.  Both
    listings agree on this. *)
Theorem empty_index_group_class_fails (JSON_parse : string -> option Json)
    (JSON_stringify : Json -> string) (dirname : string)
    (options : IGenerateApisOptions) (template : string) (doc : Json)
    (schema : ISchemaApi) (w : World) :
  Js.truthy (opt_groupClass options) = true ->
  files w !! (dirname +:+ "/../template/Api.ts") = Some template ->
  Cast.asISchemaApi doc = Some schema ->
  schema_apis schema = [] ->
  let start := prepared dirname options template w in
  let groupFile :=
    opt_dest options +:+ "/" +:+ opt_groupClass options +:+ ".ts" in
  let failure : Outcome unit :=
    Rejected (TypeError "Reduce of empty array with no initial value") in
  ((Generate.getJson JSON_parse JSON_stringify (opt_url options) start).1
   = Resolved doc ->
   let loaded :=
     (Generate.getJson JSON_parse JSON_stringify (opt_url options) start).2 in
   Generate.generateApis JSON_parse JSON_stringify dirname options w
   = (failure, loaded)
   /\ exists events : list Event,
        trace loaded = events ++ trace start
        /\ OnlyCacheWrites (opt_url options) events
        /\ forall data : string, WriteFile groupFile data ∉ events)
  /\ ((GenerateAlt.getJson JSON_parse JSON_stringify (opt_url options) start).1
      = Resolved (GenerateAlt.Parsed doc) ->
      let loaded :=
        (GenerateAlt.getJson JSON_parse JSON_stringify (opt_url options)
                             start).2 in
      GenerateAlt.generateApis JSON_parse JSON_stringify dirname options w
      = (failure, loaded)
      /\ exists events : list Event,
           trace loaded = events ++ trace start
           /\ OnlyCacheWrites (opt_url options) events
           /\ forall data : string, WriteFile groupFile data ∉ events).
Proof.
  intros Hgroup Htemplate Hcast Hempty. cbv zeta. split; intros Hload.
  - split.
    + unfold Generate.generateApis. run_io.
      unfold prepared in Hload |- *.
      destruct (opt_splitInterfaces options); run_io; rewrite Htemplate;
        cbn [app] in Hload |- *;
        (destruct (Generate.getJson _ _ _ _) as [r loaded];
         cbn [fst snd] in Hload |- *; subst r; rewrite Hcast; run_io;
         rewrite Hempty; cbn [IO.forOf]; run_io;
         unfold Generate.writeGroupClass; rewrite Hgroup;
         reflexivity).
    + destruct (getJson_trace JSON_parse JSON_stringify (opt_url options)
                  (prepared dirname options template w))
        as (events & Htrace & Honly).
      exists events. split; [done|]. split; [done|].
      by apply no_group_file_in_cache_writes with (opt_url options).
  - split.
    + unfold GenerateAlt.generateApis. run_io.
      unfold prepared in Hload |- *.
      destruct (opt_splitInterfaces options); run_io; rewrite Htemplate;
        cbn [app] in Hload |- *;
        (destruct (GenerateAlt.getJson _ _ _ _) as [r loaded];
         cbn [fst snd] in Hload |- *; subst r; unfold GenerateAlt.cast;
         run_io; rewrite Hcast; run_io;
         rewrite Hempty; cbn [IO.forOf]; run_io;
         unfold GenerateAlt.writeGroupClass; rewrite Hgroup;
         reflexivity).
    + destruct (getJson_trace_alt JSON_parse JSON_stringify (opt_url options)
                  (prepared dirname options template w))
        as (events & Htrace & Honly).
      exists events. split; [done|]. split; [done|].
      by apply no_group_file_in_cache_writes with (opt_url options).
Qed.

Lemma empty_index_group_class_fails_witness :
  let w := Examples.world Examples.indexUrl Examples.emptyIndexBody in
  (Generate.generateApis JsonText.parse JsonText.stringify "/app/lib"
     (Examples.options false "All") w).1
  = Rejected (TypeError "Reduce of empty array with no initial value")
  /\ (GenerateAlt.generateApis JsonText.parse JsonText.stringify "/app/lib"
        (Examples.options false "All") w).1
     = Rejected (TypeError "Reduce of empty array with no initial value").
Proof.
  cbv zeta.
  destruct (empty_index_group_class_fails
              JsonText.parse JsonText.stringify "/app/lib"
              (Examples.options false "All") "export class Api {}"
              (JObject [("apiVersion", JString "1"); ("apis", JArray []);
                        ("basePath", JString "http://x/api");
                        ("swaggerVersion", JString "1.2")])
              Examples.emptyIndex
              (Examples.world Examples.indexUrl Examples.emptyIndexBody))
    as [Hfirst Hsecond].
  - reflexivity.
  - vm_compute; reflexivity.
  - reflexivity.
  - reflexivity.
  - destruct Hfirst as [-> _]; [vm_compute; reflexivity|].
    destruct Hsecond as [-> _]; [vm_compute; reflexivity|].
    split; reflexivity.
Defined.

(** ** Further properties of the generator *)

(** *** [uniq] *)

Lemma uniq_go_spec (items seen : list string) :
  NoDup (uniq_go seen items)
  /\ (forall x : string, x ∈ uniq_go seen items <-> x ∈ items /\ x ∉ seen)
  /\ uniq_go seen items `sublist_of` items.
Proof.
  revert seen. induction items as [|x r IH]; intros seen; cbn [uniq_go].
  - split; [constructor|]. split; [|constructor].
    intros y. split; [by intros ?%elem_of_nil|by intros [?%elem_of_nil _]].
  - destruct (Js.includes seen x) eqn:Hx.
    + apply includes_iff in Hx. destruct (IH seen) as (Hnd & Hin & Hsub).
      split; [done|]. split; [|by apply sublist_cons].
      intros y. rewrite Hin, elem_of_cons. split; [tauto|].
      intros [[->|Hy] Hns]; [contradiction|done].
    + assert (x ∉ seen) as Hx'.
      { intros H. apply includes_iff in H. congruence. }
      destruct (IH (x :: seen)) as (Hnd & Hin & Hsub).
      split; [|split; [|by apply sublist_skip]].
      * apply NoDup_cons. split; [|done].
        rewrite Hin. intros [_ H]. apply H, elem_of_cons. by left.
      * intros y. rewrite !elem_of_cons, Hin, elem_of_cons.
        destruct (decide (y = x)) as [->|Hne]; [tauto|]. tauto.
Qed.

Lemma uniq_go_id (items seen : list string) :
  NoDup items -> (forall x, x ∈ items -> x ∉ seen) ->
  uniq_go seen items = items.
Proof.
  revert seen. induction items as [|x r IH]; intros seen Hnd Hseen;
    [reflexivity|].
  apply NoDup_cons in Hnd as [Hx Hnd]. cbn [uniq_go].
  destruct (Js.includes seen x) eqn:Hin.
  - apply includes_iff in Hin. exfalso. apply (Hseen x); [left|done].
  - f_equal. apply IH; [done|]. intros y Hy [->|Hys]%elem_of_cons; [done|].
    apply (Hseen y); [by right|done].
Qed.

Lemma uniq_go_filter (items seen : list string) :
  uniq_go seen items = filter (fun y => y ∉ seen) (uniq items).
Proof.
  unfold uniq. revert seen.
  induction items as [|x r IH]; intros seen; [reflexivity|].
  change (uniq_go [] (x :: r)) with (x :: uniq_go [x] r).
  cbn [uniq_go]. rewrite filter_cons.
  destruct (Js.includes seen x) eqn:Hx.
  - apply includes_iff in Hx.
    destruct (decide (x ∉ seen)) as [Hn|_]; [contradiction|].
    rewrite (IH seen), (IH [x]), list_filter_filter.
    apply list_filter_iff. intros y. split; [|tauto].
    intros Hy. split; [done|].
    intros ->%list_elem_of_singleton. contradiction.
  - assert (x ∉ seen) as Hx'.
    { intros H. apply includes_iff in H. congruence. }
    destruct (decide (x ∉ seen)) as [_|Hn]; [|contradiction].
    f_equal. rewrite (IH (x :: seen)), (IH [x]), list_filter_filter.
    apply list_filter_iff. intros y.
    rewrite not_elem_of_cons, list_elem_of_singleton. tauto.
Qed.

(** X1. [uniq] keeps every item of its input once, at the place of its
    first occurrence: the result starts with the first item of the input
    and goes on with the result for the other items, without that first
    item (which determines the result for every input); so it has no
    duplicate, has the items of the input, is a sub-list of the input, is
    the input itself when that has no duplicate, and a second [uniq]
    changes nothing. *)
Theorem uniq_first_occurrences (items : list string) :
  NoDup (uniq items)
  /\ (forall x : string, x ∈ uniq items <-> x ∈ items)
  /\ uniq items `sublist_of` items
  /\ (NoDup items -> uniq items = items)
  /\ uniq (uniq items) = uniq items
  /\ (items = [] -> uniq items = [])
  /\ (forall (x : string) (rest : list string),
        items = x :: rest ->
        uniq items = x :: filter (fun y => y <> x) (uniq rest)).
Proof.
  destruct (uniq_go_spec items []) as (Hnd & Hin & Hsub).
  split; [done|]. split; [|split; [done|split; [|split; [|split]]]].
  - intros x. unfold uniq. rewrite Hin. split; [tauto|].
    intros H. split; [done|apply not_elem_of_nil].
  - intros H. apply uniq_go_id; [done|]. intros x _. apply not_elem_of_nil.
  - apply uniq_go_id; [done|]. intros x _. apply not_elem_of_nil.
  - by intros ->.
  - intros x rest ->.
    change (uniq (x :: rest)) with (x :: uniq_go [x] rest).
    f_equal. rewrite uniq_go_filter. apply list_filter_iff.
    intros y. by rewrite list_elem_of_singleton.
Qed.

Lemma uniq_first_occurrences_witness :
  uniq ["IPet"; "ITag"] = ["IPet"; "ITag"]
  /\ uniq ["ITag"; "IPet"; "ITag"; "IOwner"; "IPet"]
     = ["ITag"; "IPet"; "IOwner"].
Proof.
  split.
  - destruct (uniq_first_occurrences ["IPet"; "ITag"]) as (_ & _ & _ & H & _).
    apply H. apply NoDup_cons. split; [by intros ?%list_elem_of_singleton|].
    apply NoDup_singleton.
  - destruct (uniq_first_occurrences
                ["ITag"; "IPet"; "ITag"; "IOwner"; "IPet"])
      as (_ & _ & _ & _ & _ & _ & H).
    by rewrite (H "ITag" ["IPet"; "ITag"; "IOwner"; "IPet"] eq_refl).
Defined.

(** *** Names and types *)

Lemma getTsInterfaceName_truthy (modelId : ModelID) :
  Js.truthy (getTsInterfaceName modelId) = true.
Proof. unfold getTsInterfaceName. by destruct modelId. Qed.

(** X2. [getTsInterfaceName] gives distinct names to distinct
    identifiers, never the empty text, and the name [unknown] to the empty
    identifier only. *)
Theorem getTsInterfaceName_injective (a b : ModelID) :
  (getTsInterfaceName a = getTsInterfaceName b -> a = b)
  /\ (getTsInterfaceName a = "unknown" <-> a = EmptyString)
  /\ Js.truthy (getTsInterfaceName a) = true.
Proof.
  split; [|split; [|apply getTsInterfaceName_truthy]].
  - unfold getTsInterfaceName.
    destruct a as [|x a], b as [|y b]; cbn [Js.truthy]; intros H;
      try reflexivity; try discriminate H.
    by injection H as -> ->.
  - unfold getTsInterfaceName. destruct a as [|x a]; cbn [Js.truthy].
    + done.
    + split; intros H; discriminate H.
Qed.

Lemma getTsInterfaceName_injective_witness :
  "Pet" = "Pet" /\ Js.truthy (getTsInterfaceName "Pet") = true.
Proof.
  destruct (getTsInterfaceName_injective "Pet" "Pet") as (H & _ & Ht).
  split; [apply H; reflexivity|exact Ht].
Defined.

Lemma mapType_truthy (type : option string) : Js.truthy (mapType type) = true.
Proof.
  destruct type as [t|]; [|reflexivity]. unfold mapType.
  repeat (match goal with
          | |- context [String.eqb ?a ?b] => destruct (String.eqb a b)
          end; [reflexivity|]).
  by destruct (Js.truthy t) eqn:E.
Qed.

(** X3. [mapType] turns [integer] into [number] and changes no other
    non-empty tag, so a tag that the schema dialect does not know goes into
    the generated text as it is; it never gives the empty text, and mapping
    its own result changes nothing. *)
Theorem mapType_passes_unknown_tags (type : option string) :
  mapType (Some (mapType type)) = mapType type
  /\ Js.truthy (mapType type) = true
  /\ (type = Some "integer" -> mapType type = "number")
  /\ (forall t : string,
        type = Some t -> Js.truthy t = true -> t <> "integer" ->
        mapType type = t)
  /\ (Js.truthy_opt type = false -> mapType type = "unknown").
Proof.
  split; [|split; [apply mapType_truthy|split; [by intros ->|split]]].
  - destruct type as [t|]; [|reflexivity]. unfold mapType at 2 3.
    destruct (String.eqb_spec t "integer"); [reflexivity|].
    destruct (String.eqb_spec t "number"); [reflexivity|].
    destruct (String.eqb_spec t "string"); [reflexivity|].
    destruct (Js.truthy t) eqn:Ht; [|reflexivity].
    unfold mapType.
    destruct (String.eqb_spec t "integer"); [done|].
    destruct (String.eqb_spec t "number"); [done|].
    destruct (String.eqb_spec t "string"); [done|].
    by rewrite Ht.
  - intros t -> Ht Hne. unfold mapType.
    destruct (String.eqb_spec t "integer"); [done|].
    destruct (String.eqb_spec t "number"); [done|].
    destruct (String.eqb_spec t "string"); [done|].
    by rewrite Ht.
  - destruct type as [[|c t]|]; [reflexivity|discriminate|reflexivity].
Qed.

Lemma mapType_passes_unknown_tags_witness :
  mapType (Some "integer") = "number"
  /\ mapType (Some "File") = "File"
  /\ mapType (Some EmptyString) = "unknown".
Proof.
  split; [|split].
  - destruct (mapType_passes_unknown_tags (Some "integer")) as (_ & _ & H & _).
    apply H. reflexivity.
  - destruct (mapType_passes_unknown_tags (Some "File"))
      as (_ & _ & _ & H & _).
    apply (H "File"); [reflexivity|reflexivity|discriminate].
  - destruct (mapType_passes_unknown_tags (Some EmptyString))
      as (_ & _ & _ & _ & H).
    apply H. reflexivity.
Defined.

Lemma getTsPropertyType_truthy :
  forall property : IModelProperty,
    Js.truthy (getTsPropertyType property) = true.
Proof.
  fix IH 1. intros [type description items format ref].
  cbn [getTsPropertyType].
  assert (Js.truthy
            (if Js.truthy_opt ref
             then getTsInterfaceName (default EmptyString ref)
             else mapType type) = true) as Hother.
  { destruct (Js.truthy_opt ref);
      [apply getTsInterfaceName_truthy|apply mapType_truthy]. }
  destruct items as [it|]; [|exact Hother].
  destruct (bool_decide (type = Some "array")); [|exact Hother].
  apply truthy_append_l, IH.
Qed.

Lemma getTsPropertyType_nest (depth : nat) (leaf : IModelProperty) :
  getTsPropertyType (nestArray depth leaf)
  = getTsPropertyType leaf +:+ brackets depth.
Proof.
  induction depth as [|d IH]; cbn [nestArray brackets].
  - by rewrite append_nil_r.
  - cbn [getTsPropertyType]. rewrite bool_decide_eq_true_2 by done.
    by rewrite IH, append_assoc.
Qed.

(** X4. The type text of a property is never empty, and arrays nest to any
    depth: a property inside [depth] arrays has the type text of the
    property followed by [[]] written [depth] times. *)
Theorem getTsPropertyType_nested_arrays (depth : nat)
    (property : IModelProperty) :
  Js.truthy (getTsPropertyType property) = true
  /\ getTsPropertyType (nestArray depth property)
     = getTsPropertyType property +:+ brackets depth.
Proof.
  split; [apply getTsPropertyType_truthy|apply getTsPropertyType_nest].
Qed.

Lemma quoted_truthy (s : string) : Js.truthy (quoted s) = true.
Proof. reflexivity. Qed.

Lemma join_truthy (sep : string) (items : list string) :
  (forall x, x ∈ items -> Js.truthy x = true) ->
  Js.truthy (Js.join sep items)
  = match items with [] => false | _ :: _ => true end.
Proof.
  destruct items as [|x [|y r]]; intros H; cbn.
  - reflexivity.
  - apply H. by left.
  - apply truthy_append_l, H. by left.
Qed.

(** X5. In the first listing the type text of a parameter is empty exactly
    when the parameter has an [enum] without values; an [enum], when there
    is one, decides the type also for a body parameter. *)
Theorem getTsParameterType_empty_enum (parameter : IParameter) :
  (Generate.getTsParameterType parameter = EmptyString
   <-> param_enum parameter = Some [])
  /\ (forall enum : list string,
        param_enum parameter = Some enum ->
        Generate.getTsParameterType parameter
        = Js.join " | " (map quoted enum)).
Proof.
  split.
  - rewrite <- truthy_nil_iff. unfold Generate.getTsParameterType.
    destruct (param_enum parameter) as [enum|].
    + rewrite join_truthy.
      * destruct enum; split; intros H; done.
      * intros x (s & -> & _)%list_elem_of_fmap. apply quoted_truthy.
    + destruct (bool_decide _).
      * rewrite getTsInterfaceName_truthy. split; intros H; done.
      * rewrite mapType_truthy. split; intros H; done.
  - intros enum H. unfold Generate.getTsParameterType. by rewrite H.
Qed.

Lemma getTsParameterType_empty_enum_witness :
  Generate.getTsParameterType
    {| param_description := EmptyString; param_enum := Some ["asc"; "desc"];
       param_format := None; param_name := "order";
       param_paramType := Some "body"; param_required := false;
       param_type := "Order" |}
  = "'asc' | 'desc'".
Proof.
  destruct (getTsParameterType_empty_enum
              {| param_description := EmptyString;
                 param_enum := Some ["asc"; "desc"];
                 param_format := None; param_name := "order";
                 param_paramType := Some "body"; param_required := false;
                 param_type := "Order" |}) as [_ H].
  rewrite (H ["asc"; "desc"]); reflexivity.
Defined.

(** *** [toTitleCase] and [getApiName] *)

Ltac by_all_chars c :=
  destruct c as [[] [] [] [] [] [] [] []]; vm_compute; (reflexivity || tauto).

Lemma lower_char_idem (c : ascii) :
  Js.lower_char (Js.lower_char c) = Js.lower_char c.
Proof. by_all_chars c. Qed.

Lemma upper_char_idem (c : ascii) :
  Js.upper_char (Js.upper_char c) = Js.upper_char c.
Proof. by_all_chars c. Qed.

Lemma is_space_lower (c : ascii) :
  Js.is_space (Js.lower_char c) = Js.is_space c.
Proof. by_all_chars c. Qed.

Lemma is_word_upper (c : ascii) :
  Js.is_word (Js.upper_char c) = Js.is_word c.
Proof. by_all_chars c. Qed.

Lemma is_slash_lower (c : ascii) :
  Ascii.eqb (Js.lower_char c) "/" = Ascii.eqb c "/".
Proof. by_all_chars c. Qed.

Lemma is_slash_upper (c : ascii) :
  Ascii.eqb (Js.upper_char c) "/" = Ascii.eqb c "/".
Proof. by_all_chars c. Qed.

Lemma toTitleCase_go_idem (str : string) (inWord : bool) :
  toTitleCase_go inWord (toTitleCase_go inWord str)
  = toTitleCase_go inWord str.
Proof.
  revert inWord. induction str as [|c r IH]; intros inWord; [reflexivity|].
  cbn [toTitleCase_go]. destruct inWord.
  - destruct (Js.is_space c) eqn:Hc; cbn [toTitleCase_go].
    + by rewrite Hc, IH.
    + by rewrite is_space_lower, Hc, lower_char_idem, IH.
  - destruct (Js.is_word c) eqn:Hc; cbn [toTitleCase_go].
    + by rewrite is_word_upper, Hc, upper_char_idem, IH.
    + by rewrite Hc, IH.
Qed.

Lemma toTitleCase_go_length (str : string) (inWord : bool) :
  String.length (toTitleCase_go inWord str) = String.length str.
Proof.
  revert inWord. induction str as [|c r IH]; intros inWord; [reflexivity|].
  cbn [toTitleCase_go].
  destruct inWord; [destruct (Js.is_space c)|destruct (Js.is_word c)];
    cbn [String.length]; by rewrite IH.
Qed.

Lemma toTitleCase_go_slash (str : string) (inWord : bool) :
  hasChar "/" (toTitleCase_go inWord str) = hasChar "/" str.
Proof.
  revert inWord. induction str as [|c r IH]; intros inWord; [reflexivity|].
  cbn [toTitleCase_go].
  destruct inWord; [destruct (Js.is_space c)|destruct (Js.is_word c)];
    cbn [hasChar]; by rewrite IH, ?is_slash_lower, ?is_slash_upper.
Qed.

Lemma space_not_word (c : ascii) :
  Js.is_space c = true -> Js.is_word c = false.
Proof.
  destruct c as [[] [] [] [] [] [] [] []]; vm_compute; congruence.
Qed.

Lemma hasChar_here (c : ascii) (r : string) : hasChar c (String c r) = true.
Proof. cbn [hasChar]. by rewrite Ascii.eqb_refl. Qed.

Lemma hasChar_later (x c : ascii) (r : string) :
  hasChar x r = true -> hasChar x (String c r) = true.
Proof. intros H. cbn [hasChar]. by rewrite H, orb_true_r. Qed.

Lemma toTitleCase_go_blank (a b : string) (blank : ascii) (inWord : bool) :
  Js.is_space blank = true ->
  toTitleCase_go inWord (a +:+ String blank b)
  = toTitleCase_go inWord a +:+ String blank (toTitleCase_go false b).
Proof.
  intros Hb. revert inWord. induction a as [|c r IH]; intros inWord.
  - change (EmptyString +:+ String blank b) with (String blank b).
    cbn [toTitleCase_go].
    destruct inWord; [by rewrite Hb|by rewrite (space_not_word _ Hb)].
  - change (String c r +:+ String blank b)
      with (String c (r +:+ String blank b)).
    cbn [toTitleCase_go].
    destruct inWord; [destruct (Js.is_space c)|destruct (Js.is_word c)];
      by rewrite IH.
Qed.

Lemma toTitleCase_go_no_word (str : string) :
  (forall x : ascii, hasChar x str = true -> Js.is_word x = false) ->
  toTitleCase_go false str = str.
Proof.
  induction str as [|c r IH]; intros Hstr; [reflexivity|].
  cbn [toTitleCase_go]. rewrite (Hstr c (hasChar_here c r)).
  f_equal. apply IH. intros x Hx. by apply Hstr, hasChar_later.
Qed.

Lemma toTitleCase_go_in_word (rest : string) :
  (forall x : ascii, hasChar x rest = true -> Js.is_space x = false) ->
  toTitleCase_go true rest = Js.toLowerCase rest.
Proof.
  induction rest as [|c r IH]; intros Hrest; [reflexivity|].
  cbn [toTitleCase_go Js.toLowerCase]. rewrite (Hrest c (hasChar_here c r)).
  f_equal. apply IH. intros x Hx. by apply Hrest, hasChar_later.
Qed.

Lemma toTitleCase_go_word (pre rest : string) (c : ascii) :
  (forall x : ascii, hasChar x pre = true -> Js.is_word x = false) ->
  Js.is_word c = true ->
  (forall x : ascii, hasChar x rest = true -> Js.is_space x = false) ->
  toTitleCase_go false (pre +:+ String c rest)
  = pre +:+ String (Js.upper_char c) (Js.toLowerCase rest).
Proof.
  intros Hpre Hc Hrest. induction pre as [|p r IH].
  - change (EmptyString +:+ ?x) with x. cbn [toTitleCase_go].
    by rewrite Hc, toTitleCase_go_in_word.
  - change (String p r +:+ ?x) with (String p (r +:+ x)).
    cbn [toTitleCase_go]. rewrite (Hpre p (hasChar_here p r)).
    f_equal. apply IH. intros x Hx. by apply Hpre, hasChar_later.
Qed.

(** X6. On ASCII text [toTitleCase] changes the case of letters and
    nothing else: the text keeps its length, and a text in title case
    stays as it is.  The result is made blank by blank: a blank stays and
    the texts before and after it are converted each on its own.  In a
    text up to whose first word character there is none, and after which
    there is no blank, that character is put in upper case and all the
    later ones, also those after a hyphen or a dot, in lower case; a text
    without word character stays as it is. *)
Theorem toTitleCase_by_words (str : string) :
  asciiText str = true ->
  toTitleCase (toTitleCase str) = toTitleCase str
  /\ String.length (toTitleCase str) = String.length str
  /\ (forall (a b : string) (blank : ascii),
        str = a +:+ String blank b -> Js.is_space blank = true ->
        toTitleCase str = toTitleCase a +:+ String blank (toTitleCase b))
  /\ (forall (pre rest : string) (c : ascii),
        str = pre +:+ String c rest ->
        (forall x : ascii, hasChar x pre = true -> Js.is_word x = false) ->
        Js.is_word c = true ->
        (forall x : ascii, hasChar x rest = true -> Js.is_space x = false) ->
        toTitleCase str
        = pre +:+ String (Js.upper_char c) (Js.toLowerCase rest))
  /\ ((forall x : ascii, hasChar x str = true -> Js.is_word x = false) ->
      toTitleCase str = str).
Proof.
  intros _.
  split; [apply toTitleCase_go_idem|]. split; [apply toTitleCase_go_length|].
  split; [|split].
  - intros a b blank -> Hb. by apply toTitleCase_go_blank.
  - intros pre rest c -> Hpre Hc Hrest. by apply toTitleCase_go_word.
  - apply toTitleCase_go_no_word.
Qed.

Lemma toTitleCase_by_words_witness :
  asciiText "/my-THINGS and more" = true
  /\ toTitleCase "/my-THINGS and more"
     = toTitleCase "/my-THINGS" +:+ " " +:+ toTitleCase "and more"
  /\ asciiText "/my-THINGS" = true
  /\ toTitleCase "/my-THINGS" = "/My-things".
Proof.
  split; [reflexivity|]. split; [|split; [reflexivity|]].
  - destruct (toTitleCase_by_words "/my-THINGS and more" eq_refl)
      as (_ & _ & H & _).
    apply (H "/my-THINGS" "and more" " "%char); reflexivity.
  - destruct (toTitleCase_by_words "/my-THINGS" eq_refl)
      as (_ & _ & _ & H & _).
    rewrite (H "/" "y-THINGS" "m"%char); [reflexivity..| |reflexivity|].
    + intros x Hx. cbn [hasChar] in Hx.
      repeat (apply orb_true_iff in Hx as [Hx|Hx];
              [apply Ascii.eqb_eq in Hx; by subst x|]).
      discriminate Hx.
    + intros x Hx. cbn [hasChar] in Hx.
      repeat (apply orb_true_iff in Hx as [Hx|Hx];
              [apply Ascii.eqb_eq in Hx; by subst x|]).
      discriminate Hx.
Defined.

Lemma hasChar_append (c : ascii) (a b : string) :
  hasChar c (a +:+ b) = hasChar c a || hasChar c b.
Proof.
  induction a as [|x a IH]; [reflexivity|].
  change (hasChar c (String x (a +:+ b))
          = hasChar c (String x a) || hasChar c b).
  cbn [hasChar]. by rewrite IH, orb_assoc.
Qed.

Lemma split_go_append (sep : ascii) (a b cur : string) :
  Js.split_go sep cur (a +:+ String sep b)
  = Js.split_go sep cur a ++ Js.split_go sep EmptyString b.
Proof.
  revert cur. induction a as [|c a IH]; intros cur.
  - change (Js.split_go sep cur (String sep b)
            = [cur] ++ Js.split_go sep EmptyString b).
    cbn [Js.split_go]. by rewrite Ascii.eqb_refl.
  - change (Js.split_go sep cur (String c (a +:+ String sep b))
            = Js.split_go sep cur (String c a)
              ++ Js.split_go sep EmptyString b).
    cbn [Js.split_go]. destruct (Ascii.eqb c sep); by rewrite IH.
Qed.

Lemma split_go_whole (sep : ascii) (s cur : string) :
  hasChar sep s = false -> Js.split_go sep cur s = [cur +:+ s].
Proof.
  revert cur. induction s as [|c s IH]; intros cur Hs.
  - cbn. by rewrite append_nil_r.
  - cbn [hasChar] in Hs. apply orb_false_iff in Hs as [Hc Hs].
    cbn [Js.split_go]. rewrite Hc, IH by done.
    by rewrite append_assoc.
Qed.

Lemma split_go_pieces (sep : ascii) (s cur piece : string) :
  hasChar sep cur = false ->
  piece ∈ Js.split_go sep cur s -> hasChar sep piece = false.
Proof.
  revert cur. induction s as [|c s IH]; intros cur Hcur; cbn [Js.split_go].
  - by intros ->%list_elem_of_singleton.
  - destruct (Ascii.eqb c sep) eqn:Hc.
    + intros [->|Hin]%elem_of_cons; [done|]. by apply (IH EmptyString).
    + apply IH. rewrite hasChar_append, Hcur. cbn [hasChar]. by rewrite Hc.
Qed.

Lemma textOf_no_char {A} (c : ascii) (f : A -> string) (l : list A) :
  (forall x, x ∈ l -> hasChar c (f x) = false) ->
  hasChar c (textOf f l) = false.
Proof.
  induction l as [|x l IH]; intros H; [reflexivity|].
  rewrite textOf_cons, hasChar_append, H, IH; [done| |by left].
  intros y Hy. apply H. by right.
Qed.

Lemma getApiName_textOf (api : IApi) :
  getApiName api
  = textOf toTitleCase
      (filter (fun s => negb (droppedSegment api s))
              (Js.split "/" (api_resourcePath api))).
Proof.
  unfold getApiName, textOf. do 2 f_equal.
  apply list_filter_iff. intros s. unfold droppedSegment.
  destruct (Js.truthy s), (String.eqb s (api_apiVersion api)),
    (String.eqb (Js.charAt0 s) "{"); cbn; tauto.
Qed.

(** X7. The name that [getApiName] gives to a resource is read off the
    segments of its [resourcePath], one after the other: the name of
    [a/b] is the name of [a] followed by the name of [b]; a segment is
    left out when it is empty, is the version of the resource or starts
    with a brace, and is put in title case otherwise.  The name never
    holds a slash, so the class file of a resource is a file of the
    destination directory itself; a path of left-out segments only gives
    the empty name. *)
Theorem getApiName_by_segments (api : IApi) (a b segment : string) :
  hasChar "/" (getApiName api) = false
  /\ getApiName (withResourcePath api (a +:+ "/" +:+ b))
     = getApiName (withResourcePath api a)
       +:+ getApiName (withResourcePath api b)
  /\ (hasChar "/" segment = false ->
      getApiName (withResourcePath api segment)
      = if droppedSegment api segment then EmptyString
        else toTitleCase segment).
Proof.
  split; [|split].
  - rewrite getApiName_textOf. apply textOf_no_char.
    intros s [_ Hs]%list_elem_of_filter. unfold toTitleCase.
    rewrite toTitleCase_go_slash. by apply (split_go_pieces _ _ EmptyString s) in Hs.
  - rewrite !getApiName_textOf. cbn [api_resourcePath withResourcePath].
    unfold Js.split.
    change (a +:+ "/" +:+ b) with (a +:+ String "/" b).
    rewrite split_go_append, filter_app, textOf_app.
    reflexivity.
  - intros Hseg. rewrite getApiName_textOf.
    cbn [api_resourcePath withResourcePath]. unfold Js.split.
    rewrite split_go_whole by done. rewrite append_nil_l.
    change (droppedSegment (withResourcePath api segment) segment)
      with (droppedSegment api segment).
    rewrite filter_cons, filter_nil.
    destruct (droppedSegment api segment) eqn:Hd.
    + destruct (decide _) as [H|H]; [|reflexivity].
      change (droppedSegment (withResourcePath api segment) segment)
        with (droppedSegment api segment) in H.
      by rewrite Hd in H.
    + destruct (decide _) as [H|H].
      * by rewrite textOf_cons, textOf_nil, append_nil_r.
      * exfalso. apply H.
        change (droppedSegment (withResourcePath api segment) segment)
          with (droppedSegment api segment).
        by rewrite Hd.
Qed.

Lemma getApiName_by_segments_witness :
  getApiName (withResourcePath Examples.resourceA "{id}") = EmptyString
  /\ getApiName (withResourcePath Examples.resourceA "pets") = "Pets".
Proof.
  split.
  - destruct (getApiName_by_segments Examples.resourceA "x" "y" "{id}")
      as (_ & _ & H).
    rewrite H; reflexivity.
  - destruct (getApiName_by_segments Examples.resourceA "x" "y" "pets")
      as (_ & _ & H).
    rewrite H; reflexivity.
Defined.

(** *** [getJson]: collisions, failures, and what it leaves alone *)

Section GetJsonMore.
Variable JSON_parse : string -> option Json.
Variable JSON_stringify : Json -> string.

(** X8. The cache key forgets the characters [:/.-?={}], so two URLs that
    differ in these characters only share one cache file: after a load of
    the first URL that stored a truthy document, a load of the second one
    asks the network for nothing and returns the document of the first.
    Both listings do so. *)
Theorem getJson_key_collision (url1 url2 body : string) (d : Json)
    (w : World) :
  stripKey url1 = stripKey url2 ->
  files w !! cacheFile url1 = None ->
  remote w url1 = Some body ->
  JSON_parse body = Some d ->
  Cast.truthy d = true ->
  JSON_parse (JSON_stringify d) = Some d ->
  let w1 := (Generate.getJson JSON_parse JSON_stringify url1 w).2 in
  let w1' := (GenerateAlt.getJson JSON_parse JSON_stringify url1 w).2 in
  Generate.getJson JSON_parse JSON_stringify url2 w1
  = (Resolved d,
     after [ReadFile (cacheFile url1); Access (cacheFile url1);
            Mkdir cachePath] w1)
  /\ GenerateAlt.getJson JSON_parse JSON_stringify url2 w1'
     = (Resolved (GenerateAlt.Parsed d),
        after [ReadFile (cacheFile url1); Access (cacheFile url1);
               Mkdir cachePath] w1').
Proof.
  intros Hkey Hmiss Hnet Hbody Htruthy Hround. cbv zeta.
  assert (cacheFile url2 = cacheFile url1) as Hfile.
  { unfold cacheFile. by rewrite Hkey. }
  rewrite (getJson_miss JSON_parse JSON_stringify url1 body d w) by done.
  rewrite (getJson_miss_alt JSON_parse JSON_stringify url1 body d w) by done.
  cbn [snd]. split.
  - rewrite (getJson_hit JSON_parse JSON_stringify url2 (JSON_stringify d) d);
      [by rewrite Hfile|..|done|done].
    rewrite Hfile. cbn [files]. apply lookup_insert_eq.
  - rewrite (getJson_hit_alt JSON_parse JSON_stringify url2
               (JSON_stringify d) d);
      [by rewrite Hfile|..|done|done].
    rewrite Hfile. cbn [files]. apply lookup_insert_eq.
Qed.

(** X9. A cache file that is not JSON: the first listing rejects the load
    with the [SyntaxError] of [JSON.parse]; the second listing catches the
    error, logs it and returns the [Buffer] it had read.  Neither asks the
    network, and no file changes. *)
Theorem getJson_corrupt_cache (url text : string) (w : World) :
  files w !! cacheFile url = Some text ->
  JSON_parse text = None ->
  Generate.getJson JSON_parse JSON_stringify url w
  = (Rejected (SyntaxError text),
     after [ReadFile (cacheFile url); Access (cacheFile url);
            Mkdir cachePath] w)
  /\ GenerateAlt.getJson JSON_parse JSON_stringify url w
     = (Resolved (GenerateAlt.Buffer text),
        after [LogError (SyntaxError text); ReadFile (cacheFile url);
               Access (cacheFile url); Mkdir cachePath] w).
Proof.
  intros Hfile Htext. split.
  - unfold Generate.getJson, Generate.fetchAndStore, Generate.parseJson.
    run_io. rewrite Hfile. run_io. rewrite Hfile. run_io. rewrite Htext.
    reflexivity.
  - unfold GenerateAlt.getJson, GenerateAlt.request, GenerateAlt.loadCached,
      GenerateAlt.parseJson.
    run_io. rewrite Hfile. run_io. rewrite Hfile. run_io. rewrite Htext.
    reflexivity.
Qed.

(** X10. A miss that the network does not serve: when the request is not
    answered the load is rejected with the error of [fetch], and when the
    body is not JSON with the [SyntaxError] of its decoding; in both cases
    no file is written, so the next run asks again.  Both listings do
    so (the second one logs the miss and the request before). *)
Theorem getJson_miss_fails (url : string) (w : World) :
  files w !! cacheFile url = None ->
  (remote w url = None ->
   Generate.getJson JSON_parse JSON_stringify url w
   = (Rejected (FetchError url),
      after [Fetch url; Access (cacheFile url); Mkdir cachePath] w)
   /\ GenerateAlt.getJson JSON_parse JSON_stringify url w
      = (Rejected (FetchError url),
         after [Fetch url; Log ("Request " +:+ url);
                LogError (ENOENT (cacheFile url));
                Access (cacheFile url); Mkdir cachePath] w))
  /\ (forall body : string,
        remote w url = Some body -> JSON_parse body = None ->
        Generate.getJson JSON_parse JSON_stringify url w
        = (Rejected (SyntaxError body),
           after [Fetch url; Access (cacheFile url); Mkdir cachePath] w)
        /\ GenerateAlt.getJson JSON_parse JSON_stringify url w
           = (Rejected (SyntaxError body),
              after [Fetch url; Log ("Request " +:+ url);
                     LogError (ENOENT (cacheFile url));
                     Access (cacheFile url); Mkdir cachePath] w)).
Proof.
  intros Hfile.
  unfold Generate.getJson, Generate.fetchAndStore, Generate.parseJson,
    GenerateAlt.getJson, GenerateAlt.request, GenerateAlt.loadCached,
    GenerateAlt.parseJson.
  split.
  - intros Hnet. split; run_io; rewrite Hfile; run_io; rewrite Hnet;
      reflexivity.
  - intros body Hnet Hbody.
    split; run_io; rewrite Hfile; run_io; rewrite Hnet; run_io;
      rewrite Hbody; reflexivity.
Qed.

Ltac touches_only :=
  unfold TouchesOnly; cbn [files remote trace];
  split; [reflexivity|];
  split;
    [intros p Hp;
     lazymatch goal with
     | |- <[_ := _]> _ !! _ = _ => by apply lookup_insert_ne
     | |- _ => reflexivity
     end|];
  split;
    [intros p Hp;
     lazymatch goal with
     | |- is_Some (<[?f := _]> _ !! _) =>
         destruct (decide (f = p)) as [<-|Hne];
         [rewrite lookup_insert_eq; eauto
         |by rewrite lookup_insert_ne by done]
     | |- _ => exact Hp
     end|];
  eexists; trace_prefix.

Lemma getJson_frame (url : string) (w : World) :
  TouchesOnly (cacheFile url) w
    (Generate.getJson JSON_parse JSON_stringify url w).2.
Proof.
  unfold Generate.getJson, Generate.fetchAndStore, Generate.parseJson.
  io_cases; touches_only.
Qed.

Lemma getJson_frame_alt (url : string) (w : World) :
  TouchesOnly (cacheFile url) w
    (GenerateAlt.getJson JSON_parse JSON_stringify url w).2.
Proof.
  unfold GenerateAlt.getJson, GenerateAlt.request, GenerateAlt.loadCached,
    GenerateAlt.parseJson.
  io_cases; touches_only.
Qed.

(** X11. Whatever the files and the network hold, and however the load
    ends, [getJson] leaves every file but the cache file of its URL as
    it was, removes no file, and only adds to the trace.  Both listings
    do so. *)
Theorem getJson_touches_only_its_cache_file (url : string) (w : World) :
  TouchesOnly (cacheFile url) w
    (Generate.getJson JSON_parse JSON_stringify url w).2
  /\ TouchesOnly (cacheFile url) w
       (GenerateAlt.getJson JSON_parse JSON_stringify url w).2.
Proof. split; [apply getJson_frame|apply getJson_frame_alt]. Qed.

End GetJsonMore.

Lemma getJson_key_collision_witness :
  let w := Examples.world Examples.indexUrl Examples.smallBody in
  let w1 :=
    (Generate.getJson JsonText.parse JsonText.stringify Examples.indexUrl w).2
  in
  (Generate.getJson JsonText.parse JsonText.stringify
                    "httpxapiindexjson" w1).1
  = Resolved (JObject [("a", JNumber 1)]).
Proof.
  cbv zeta.
  destruct (getJson_key_collision
              JsonText.parse JsonText.stringify
              Examples.indexUrl "httpxapiindexjson" Examples.smallBody
              (JObject [("a", JNumber 1)])
              (Examples.world Examples.indexUrl Examples.smallBody))
    as [H _]; [vm_compute; reflexivity..|].
  by rewrite H.
Defined.

Lemma getJson_corrupt_cache_witness :
  let w :=
    {| files := {[ cacheFile Examples.indexUrl := "<html>" ]};
       remote := fun _ => None; trace := [] |} in
  (Generate.getJson JsonText.parse JsonText.stringify Examples.indexUrl w).1
  = Rejected (SyntaxError "<html>")
  /\ (GenerateAlt.getJson JsonText.parse JsonText.stringify
                          Examples.indexUrl w).1
     = Resolved (GenerateAlt.Buffer "<html>").
Proof.
  cbv zeta.
  destruct (getJson_corrupt_cache
              JsonText.parse JsonText.stringify Examples.indexUrl "<html>"
              {| files := {[ cacheFile Examples.indexUrl := "<html>" ]};
                 remote := fun _ => None; trace := [] |})
    as [H1 H2]; [vm_compute; reflexivity..|].
  by rewrite H1, H2.
Defined.

Lemma getJson_miss_fails_witness :
  let w := Examples.world Examples.indexUrl "<html>" in
  (Generate.getJson JsonText.parse JsonText.stringify
                    "http://x/other.json" w).1
  = Rejected (FetchError "http://x/other.json")
  /\ (Generate.getJson JsonText.parse JsonText.stringify
                       Examples.indexUrl w).1
     = Rejected (SyntaxError "<html>").
Proof.
  cbv zeta. split.
  - destruct (getJson_miss_fails
                JsonText.parse JsonText.stringify "http://x/other.json"
                (Examples.world Examples.indexUrl "<html>"))
      as [H _]; [vm_compute; reflexivity|].
    destruct H as [-> _]; [vm_compute; reflexivity|reflexivity].
  - destruct (getJson_miss_fails
                JsonText.parse JsonText.stringify Examples.indexUrl
                (Examples.world Examples.indexUrl "<html>"))
      as [_ H]; [vm_compute; reflexivity|].
    destruct (H "<html>") as [-> _]; [vm_compute; reflexivity..|].
    reflexivity.
Defined.

(** *** The merge of any number of resources *)

Lemma fold_mergeApi_models (X : ModelID) (rest : list IApi) (first : IApi) :
  Forall ModelsDistinct rest ->
  Js.get (api_models (fold_left mergeApi rest first)) X
  = fold_left (fun found api =>
                 match Js.get (api_models api) X with
                 | Some definition => Some definition
                 | None => found
                 end) rest (Js.get (api_models first) X).
Proof.
  revert first. induction rest as [|api rest IH]; intros first Hrest;
    [reflexivity|].
  apply Forall_cons in Hrest as [Hapi Hrest].
  cbn [fold_left]. rewrite IH by done. f_equal.
  cbn [mergeApi api_models]. by rewrite get_spread.
Qed.

Lemma fold_mergeApi_first (rest : list IApi) (first : IApi) :
  api_basePath (fold_left mergeApi rest first) = api_basePath first
  /\ api_description (fold_left mergeApi rest first) = api_description first
  /\ api_resourcePath (fold_left mergeApi rest first)
     = api_resourcePath first
  /\ api_apiVersion (fold_left mergeApi rest first) = api_apiVersion first.
Proof.
  revert first. induction rest as [|api rest IH]; intros first; [done|].
  cbn [fold_left]. destruct (IH (mergeApi first api)) as (-> & -> & -> & ->).
  done.
Qed.

(** X12. The merge of the fetched resources, for a list of any length:
    one resource alone is the merged resource; otherwise the base path,
    the description and the resource path are those of the first resource
    (the base paths of the others are dropped, and the class sends every
    operation to the first one), and under every identifier the merged
    models hold the definition of the last resource that defines it. *)
Theorem mergeApis_first_and_last (first : IApi) (rest : list IApi)
    (X : ModelID) (w : World) :
  Forall ModelsDistinct rest ->
  exists merged : IApi,
    mergeApis (first :: rest) w = (Resolved merged, w)
    /\ api_basePath merged = api_basePath first
    /\ api_description merged = api_description first
    /\ api_resourcePath merged = api_resourcePath first
    /\ Js.get (api_models merged) X = lastDefinition X (first :: rest)
    /\ (rest = [] -> merged = first).
Proof.
  intros Hrest. exists (fold_left mergeApi rest first).
  destruct (fold_mergeApi_first rest first) as (Hb & Hd & Hr & _).
  split; [reflexivity|]. split; [done|]. split; [done|]. split; [done|].
  split; [|by intros ->].
  rewrite fold_mergeApi_models by done.
  unfold lastDefinition. cbn [fold_left]. f_equal.
  by destruct (Js.get (api_models first) X).
Qed.

Lemma mergeApis_first_and_last_witness :
  exists merged : IApi,
    mergeApis [Examples.resourceB; Examples.resourceA; Examples.resourceB]
              (Examples.world Examples.indexUrl Examples.smallBody)
    = (Resolved merged, Examples.world Examples.indexUrl Examples.smallBody)
    /\ Js.get (api_models merged) "Pet" = Some Examples.pet.
Proof.
  destruct (mergeApis_first_and_last
              Examples.resourceB [Examples.resourceA; Examples.resourceB]
              "Pet" (Examples.world Examples.indexUrl Examples.smallBody))
    as (merged & Hrun & _ & _ & _ & Hget & _).
  - repeat constructor; cbn; by intros ?%elem_of_nil.
  - exists merged. split; [exact Hrun|]. rewrite Hget. reflexivity.
Defined.

(** *** The cache key *)

Lemma hasChar_stripKey_noise (c : ascii) (url : string) :
  isKeyNoise c = true -> hasChar c (stripKey url) = false.
Proof.
  intros Hc. induction url as [|x r IH]; [reflexivity|].
  cbn [stripKey]. destruct (isKeyNoise x) eqn:Hx; [done|].
  cbn [hasChar]. rewrite IH, orb_false_r.
  destruct (Ascii.eqb_spec x c) as [->|]; [congruence|done].
Qed.

Lemma hasChar_stripKey_other (c : ascii) (url : string) :
  isKeyNoise c = false -> hasChar c (stripKey url) = hasChar c url.
Proof.
  intros Hc. induction url as [|x r IH]; [reflexivity|].
  cbn [stripKey hasChar]. destruct (isKeyNoise x) eqn:Hx.
  - rewrite IH. destruct (Ascii.eqb_spec x c) as [->|]; [congruence|done].
  - cbn [hasChar]. by rewrite IH.
Qed.

Lemma stripKey_empty (url : string) :
  stripKey url = EmptyString
  <-> (forall x : ascii, hasChar x url = true -> isKeyNoise x = true).
Proof.
  induction url as [|c r IH]; [by split|].
  cbn [stripKey]. destruct (isKeyNoise c) eqn:Hc.
  - rewrite IH. split.
    + intros H x. cbn [hasChar]. intros [Hx|Hx]%orb_true_iff; [|by apply H].
      apply Ascii.eqb_eq in Hx. by subst x.
    + intros H x Hx. apply H. cbn [hasChar]. by rewrite Hx, orb_true_r.
  - split; [discriminate|]. intros H. exfalso.
    specialize (H c). cbn [hasChar] in H. rewrite Ascii.eqb_refl in H.
    specialize (H eq_refl). congruence.
Qed.

(** X13. The cache key of a URL holds none of the characters
    [:/.-?={}], keeps every other character of the URL, and is its own
    key.  The path of the cache file is [./cache/] followed by the key,
    which has no slash and no dot; the key is empty exactly when the URL
    has none but the dropped characters (the path is then [./cache/]
    alone). *)
Theorem cache_key_is_plain (url : string) (c : ascii) :
  stripKey (stripKey url) = stripKey url
  /\ (isKeyNoise c = true -> hasChar c (stripKey url) = false)
  /\ (isKeyNoise c = false -> hasChar c (stripKey url) = hasChar c url)
  /\ hasChar "/" (stripKey url) = false
  /\ hasChar "." (stripKey url) = false
  /\ cacheFile url = "./cache/" +:+ stripKey url
  /\ (stripKey url = EmptyString
      <-> (forall x : ascii, hasChar x url = true -> isKeyNoise x = true))
  /\ (stripKey url = EmptyString -> cacheFile url = "./cache/").
Proof.
  split; [|split; [apply hasChar_stripKey_noise|
           split; [apply hasChar_stripKey_other|
           split; [by apply hasChar_stripKey_noise|
           split; [by apply hasChar_stripKey_noise|
           split; [reflexivity|
           split; [apply stripKey_empty|]]]]]]].
  - induction url as [|x r IH]; [reflexivity|].
    cbn [stripKey]. destruct (isKeyNoise x) eqn:Hx; [done|].
    cbn [stripKey]. by rewrite Hx, IH.
  - unfold cacheFile. by intros ->.
Qed.

Lemma cache_key_is_plain_witness :
  hasChar "?" (stripKey "http://x/api?a=b") = false
  /\ hasChar "x" (stripKey "http://x/api?a=b") = true
  /\ cacheFile "://" = "./cache/".
Proof.
  split; [|split].
  - destruct (cache_key_is_plain "http://x/api?a=b" "?") as (_ & H & _).
    apply H. reflexivity.
  - destruct (cache_key_is_plain "http://x/api?a=b" "x") as (_ & _ & H & _).
    rewrite H; reflexivity.
  - destruct (cache_key_is_plain "://" "x") as (_ & _ & _ & _ & _ & _ & _ & H).
    apply H. reflexivity.
Defined.

(** *** Parameters at other locations *)

Lemma filter_grouped (t : string) (l : list IParameter) :
  t = "body" \/ t = "query" \/ t = "path" ->
  filter (fun o => bool_decide (param_paramType o = Some t))
         (filter grouped l)
  = filter (fun o => bool_decide (param_paramType o = Some t)) l.
Proof.
  intros Ht. induction l as [|x l IH]; [reflexivity|].
  rewrite !filter_cons. destruct (decide (grouped x)) as [Hx|Hx].
  - rewrite filter_cons. by rewrite IH.
  - rewrite IH. destruct (decide _) as [Hb|Hb]; [|done].
    exfalso. apply Hx. unfold grouped.
    apply bool_decide_unpack in Hb. rewrite Hb.
    destruct Ht as [-> | [-> | ->]]; cbn;
      rewrite ?bool_decide_eq_true_2 by done;
      rewrite ?orb_true_r; done.
Qed.

(** X14. Only the parameters at the locations [body], [query] and [path]
    reach the options declaration: in both listings the declaration of an
    operation is the declaration of the operation without its other
    parameters (a header or form parameter, or one without location).  The
    [required] of the method in the first listing looks at all
    parameters, so such a parameter, when required, makes the [options]
    argument required without having a field in its type. *)
Theorem options_declaration_ignores_other_locations
    (operation : IOperation) (options : IGenerateApisOptions) :
  Generate.getTsOperationOptionsInterface operation options
  = Generate.getTsOperationOptionsInterface
      (withParameters operation (filter grouped (op_parameters operation)))
      options
  /\ GenerateAlt.getTsOperationOptionsInterface operation options
     = GenerateAlt.getTsOperationOptionsInterface
         (withParameters operation
            (filter grouped (op_parameters operation)))
         options
  /\ (forall o : IParameter,
        op_parameters operation = [o] -> grouped o = false ->
        param_required o = true ->
        markerOf (SomeRequired (op_parameters operation)) = EmptyString
        /\ Generate.getTsOperationOptionsInterface operation options
           = Generate.getTsOperationOptionsInterface
               (withParameters operation []) options).
Proof.
  assert (forall t, t = "body" \/ t = "query" \/ t = "path" ->
            filter (Generate.isParamType t)
                   (filter grouped (op_parameters operation))
            = filter (Generate.isParamType t) (op_parameters operation))
    as Hgen by (intros t Ht; by apply filter_grouped).
  assert (Generate.getTsOperationOptionsInterface operation options
          = Generate.getTsOperationOptionsInterface
              (withParameters operation
                 (filter grouped (op_parameters operation))) options)
    as Hfirst.
  { unfold Generate.getTsOperationOptionsInterface.
    rewrite !groupStep_fold. cbn [op_parameters withParameters].
    rewrite !Hgen by tauto. reflexivity. }
  split; [exact Hfirst|]. split.
  - unfold GenerateAlt.getTsOperationOptionsInterface.
    rewrite !groupStep_alt_fold. cbn [op_parameters withParameters].
    unfold GenerateAlt.isParamType.
    rewrite !(filter_grouped "body"), !(filter_grouped "query"),
      !(filter_grouped "path") by tauto.
    reflexivity.
  - intros o Hparams Ho Hreq. split.
    + apply markerOf_required_iff. rewrite Hparams.
      by apply Exists_cons_hd.
    + rewrite Hfirst. rewrite Hparams. rewrite filter_cons, filter_nil.
      destruct (decide (grouped o)) as [H|H]; [|reflexivity].
      by rewrite Ho in H.
Qed.

Lemma options_declaration_ignores_other_locations_witness :
  let operation :=
    Examples.operation "Upload"
      [Examples.parameter "token" "header" "string" true] EmptyString in
  markerOf (SomeRequired (op_parameters operation)) = EmptyString
  /\ Generate.getTsOperationOptionsInterface
       operation (Examples.options false EmptyString)
     = "export interface IUploadOptions extends IOperationOptions {"
       +:+ Js.nl +:+ "}".
Proof.
  cbv zeta.
  destruct (options_declaration_ignores_other_locations
              (Examples.operation "Upload"
                 [Examples.parameter "token" "header" "string" true]
                 EmptyString)
              (Examples.options false EmptyString)) as (_ & _ & H).
  destruct (H (Examples.parameter "token" "header" "string" true))
    as [Hmarker Hdecl]; [reflexivity..|].
  split; [exact Hmarker|]. rewrite Hdecl. reflexivity.
Defined.

(** *** The imports of a model declaration, by membership *)

Lemma elem_of_filterBoolean (l : list (option string)) (x : string) :
  x ∈ filterBoolean l <-> Some x ∈ l /\ Js.truthy x = true.
Proof.
  unfold filterBoolean. induction l as [|o l IH]; cbn [flat_map].
  - split; [by intros ?%elem_of_nil|by intros [?%elem_of_nil _]].
  - rewrite elem_of_app, IH, elem_of_cons. destruct o as [s|].
    + destruct (Js.truthy s) eqn:Hs.
      * rewrite list_elem_of_singleton. split.
        -- intros [->|[H1 H2]]; [by split; [left|]|by split; [right|]].
        -- intros [[[= ->]|H1] H2]; [by left|by right].
      * split.
        -- intros [H%elem_of_nil|[H1 H2]]; [done|by split; [right|]].
        -- intros [[[= ->]|H1] H2]; [congruence|by right].
    + split.
      * intros [H%elem_of_nil|[H1 H2]]; [done|by split; [right|]].
      * intros [[H|H1] H2]; [done|by right].
Qed.

(** X15. With split interfaces, the names that the model declaration
    imports are those of the models that a property refers to itself or
    through its [items], with a non-empty [$ref]: the import list looks one
    level into arrays and no further, while the type text follows arrays
    to any depth.  So a reference inside an array of arrays is named in
    the field type and not imported. *)
Theorem model_imports_one_level (model : IModel) (name : string) :
  (name ∈ modelInterfaces model
   <-> exists (entry : string * IModelProperty) (id : ModelID),
         entry ∈ model_properties model
         /\ Js.truthy id = true
         /\ name = "I" +:+ id
         /\ (prop_ref entry.2 = Some id
             \/ exists items : IModelProperty,
                  prop_items entry.2 = Some items
                  /\ prop_ref items = Some id))
  /\ (forall (field : string) (id : ModelID),
        Js.truthy id = true ->
        model_properties model
        = [(field, nestArray 2 (Build_IModelProperty None None None None
                                                     (Some id)))] ->
        modelInterfaces model = []
        /\ textOf (fun entry => getTsPropertyType entry.2)
                  (model_properties model)
           = "I" +:+ id +:+ "[][]").
Proof.
  split.
  - unfold modelInterfaces, Js.values.
    rewrite list_elem_of_fmap. split.
    + intros (id & -> & Hid). apply elem_of_filterBoolean in Hid as [Hin Hid].
      rewrite Hid. apply list_elem_of_fmap in Hin as (o & Ho & Hin).
      apply elem_of_app in Hin as [Hin|Hin].
      * apply list_elem_of_fmap in Hin as (p & -> & Hp).
        apply list_elem_of_fmap in Hp as (entry & -> & Hentry).
        exists entry, id. cbn [refOf] in Ho.
        split; [done|]. split; [done|]. split; [|by left].
        unfold getTsInterfaceName. by rewrite Hid.
      * apply list_elem_of_fmap in Hin as (p & -> & Hp).
        apply list_elem_of_fmap in Hp as (entry & -> & Hentry).
        exists entry, id. split; [done|]. split; [done|].
        split; [unfold getTsInterfaceName; by rewrite Hid|].
        right. unfold refOf in Ho.
        destruct (prop_items entry.2) as [items|]; [|done]. eauto.
    + intros (entry & id & Hentry & Hid & -> & Href).
      exists id. split; [unfold getTsInterfaceName; by rewrite Hid|].
      apply elem_of_filterBoolean. split; [|done].
      apply list_elem_of_fmap.
      destruct Href as [Href|(items & Hitems & Href)].
      * exists (Some entry.2). split; [done|]. apply elem_of_app. left.
        apply list_elem_of_fmap_2. by apply (list_elem_of_fmap_2 snd).
      * exists (Some items). split; [done|]. apply elem_of_app. right.
        rewrite <- Hitems. apply (list_elem_of_fmap_2 prop_items).
        by apply (list_elem_of_fmap_2 snd).
  - intros field id Hid Hprops. unfold modelInterfaces. rewrite Hprops.
    split; [reflexivity|].
    rewrite textOf_cons, textOf_nil, append_nil_r. cbn [snd].
    rewrite getTsPropertyType_nest. cbn [getTsPropertyType brackets].
    cbn [Js.truthy_opt default]. unfold getTsInterfaceName.
    unfold Datatypes.id. rewrite Hid.
    change ((EmptyString +:+ "[]") +:+ "[]") with "[][]".
    by rewrite append_assoc.
Qed.

Lemma model_imports_one_level_witness :
  modelInterfaces
    {| model_id := "Grid"; model_required := [];
       model_properties :=
         [("cells", nestArray 2 (Build_IModelProperty None None None None
                                                      (Some "Cell")))] |}
  = [].
Proof.
  destruct (model_imports_one_level
              {| model_id := "Grid"; model_required := [];
                 model_properties :=
                   [("cells",
                     nestArray 2 (Build_IModelProperty None None None None
                                                       (Some "Cell")))] |}
              "ICell") as [_ H].
  by destruct (H "cells" "Cell") as [-> _].
Defined.

(** *** The documentation block of the first listing *)

Lemma getJsDocParam_truthy (parameter : IParameter) :
  Js.truthy (Generate.getJsDocParam parameter) = true.
Proof. reflexivity. Qed.

Lemma docLine_truthy (label : string) (param : IParameter) :
  Js.truthy (docLine label param) = true.
Proof. reflexivity. Qed.

Lemma docGroupStep_fold (l : list IParameter) (body query params : string) :
  fold_left Generate.docGroupStep l (body, query, params)
  = (body +:+ textOf (docLine "body")
                (filter (Generate.isParamType "body") l),
     query +:+ textOf (docLine "query")
                 (filter (Generate.isParamType "query") l),
     params +:+ textOf (docLine "params")
                  (filter (Generate.isParamType "path") l)).
Proof.
  revert body query params.
  induction l as [|x l IH]; intros body query params.
  - cbn [fold_left]. rewrite !filter_nil, !textOf_nil, !append_nil_r.
    reflexivity.
  - cbn [fold_left]. unfold Generate.docGroupStep at 2. rewrite IH.
    rewrite !filter_cons.
    destruct (Generate.isParamType "body" x) eqn:Eb;
      destruct (Generate.isParamType "query" x) eqn:Eq;
      destruct (Generate.isParamType "path" x) eqn:Ep;
      repeat (match goal with
              | |- context [decide (Is_true true)] =>
                  destruct (decide (Is_true true)) as [_|[]]; [|exact I]
              | |- context [decide (Is_true false)] =>
                  destruct (decide (Is_true false)) as [[]|_]
              end);
      rewrite ?textOf_cons, ?append_assoc; reflexivity.
Qed.

Lemma some_required_of_type (tag : string) (params : list IParameter) :
  Js.some param_required (filter (Generate.isType tag) params)
  = bool_decide (SomeRequiredOfType tag params).
Proof.
  unfold Js.some. destruct (bool_decide_reflect (SomeRequiredOfType tag params))
    as [H|H].
  - apply existsb_exists. apply Exists_exists in H as (o & Hin & <- & Hreq).
    exists o. split; [|done]. apply list_elem_of_In, list_elem_of_filter.
    split; [|done]. unfold Generate.isType. by rewrite String.eqb_refl.
  - apply not_true_is_false. intros (o & Hin & Hreq)%existsb_exists.
    apply H, Exists_exists. exists o.
    apply list_elem_of_In, list_elem_of_filter in Hin as [Ht Hin].
    split; [done|]. split; [|done].
    unfold Generate.isType in Ht. by apply Is_true_true, String.eqb_eq in Ht.
Qed.

Lemma docGroup_if (label location description lines out : string)
    (operation : IOperation) (required : bool) :
  lines = textOf (docLine label) (paramGroup location operation) ->
  required
  = bool_decide (SomeRequiredOfType location (op_parameters operation)) ->
  (if match paramGroup location operation with
      | [] => false
      | _ :: _ => true
      end
   then out +:+ Generate.getJsDocParam
                  (Generate.docParam ("options." +:+ label) "object"
                                     required description)
            +:+ lines
   else out)
  = out +:+ docGroup label location description operation.
Proof.
  intros -> ->. unfold docGroup.
  destruct (paramGroup location operation); by rewrite ?append_nil_r.
Qed.

(** X16. The documentation block of a method in the first listing is the
    summary, the line of [options], the documentation of the groups body,
    query and path that are not empty, and the return type.  The line of a
    group is written as required when some required parameter has the tag
    of the group as its [type]; the location of the parameters is not
    asked.  So for an operation none of whose parameters has [body],
    [query] or [path] as its type, every group line is in brackets, also
    when a parameter of the group is required and the options declaration
    has the field without marker. *)
Theorem getJsDocOperation_group_lines (operation : IOperation) :
  Generate.getJsDocOperation operation
  = (((((("  /**" +:+ Js.nl +:+ "   * " +:+ op_summary operation)
         +:+ Generate.getJsDocParam
               (Generate.docParam
                  "options" "object"
                  (bool_decide (SomeRequired (op_parameters operation)))
                  (getTsOperationOptionsInterfaceName operation)))
        +:+ docGroup "body" "body" "body params" operation)
       +:+ docGroup "query" "query" "query params" operation)
      +:+ docGroup "params" "path" "path params" operation)
     +:+ Js.nl +:+ "   * @returns Promise <"
     +:+ getTsInterfaceName (op_type operation) +:+ ">")
    +:+ Js.nl +:+ "   */"
  /\ (forall label location description : string,
        Forall (fun o => param_type o <> location)
               (op_parameters operation) ->
        paramGroup location operation <> [] ->
        docGroup label location description operation
        = (Js.nl +:+ "   * @param   object  [options." +:+ label +:+ "] - "
           +:+ description)
          +:+ textOf (docLine label) (paramGroup location operation)).
Proof.
  split.
  - unfold Generate.getJsDocOperation. rewrite docGroupStep_fold.
    cbv zeta. rewrite !append_nil_l.
    change (filter (Generate.isParamType "body") (op_parameters operation))
      with (paramGroup "body" operation).
    change (filter (Generate.isParamType "query") (op_parameters operation))
      with (paramGroup "query" operation).
    change (filter (Generate.isParamType "path") (op_parameters operation))
      with (paramGroup "path" operation).
    rewrite !(truthy_textOf _ _ (docLine_truthy _)).
    rewrite (docGroup_if "body" "body"), (docGroup_if "query" "query"),
      (docGroup_if "params" "path")
      by (reflexivity || apply some_required_of_type).
    replace (Js.some param_required (op_parameters operation))
      with (bool_decide (SomeRequired (op_parameters operation))).
    + reflexivity.
    + destruct (Js.some param_required (op_parameters operation)) eqn:E.
      * apply bool_decide_eq_true_2. by apply some_required_iff.
      * apply bool_decide_eq_false_2. intros H%some_required_iff. congruence.
  - intros label location description Htypes Hgroup. unfold docGroup.
    destruct (paramGroup location operation) as [|o group] eqn:E; [done|].
    rewrite bool_decide_eq_false_2.
    + unfold Generate.getJsDocParam, Generate.docParam.
      cbn [param_required param_name param_description param_enum
           param_paramType param_type Generate.getJsDocParamType
           Generate.isParamType].
      match goal with
      | |- context [Js.padEnd 7 ?t] => change (Js.padEnd 7 t) with "object "
      end.
      match goal with
      | |- context [if ?b then _ else _] => change b with false
      end.
      cbv iota. by rewrite !append_assoc.
    + unfold SomeRequiredOfType. rewrite Exists_exists.
      intros (x & Hin & Ht & _). rewrite Forall_forall in Htypes.
      by apply (Htypes x).
Qed.

Lemma getJsDocOperation_group_lines_witness :
  docGroup "params" "path" "path params" Examples.getPet
  = (Js.nl +:+ "   * @param   object  [options.params] - path params")
    +:+ textOf (docLine "params") (paramGroup "path" Examples.getPet)
  /\ markerOf (SomeRequired (paramGroup "path" Examples.getPet))
     = EmptyString.
Proof.
  split; [|reflexivity].
  destruct (getJsDocOperation_group_lines Examples.getPet) as [_ H].
  rewrite (H "params" "path" "path params"); [reflexivity| |discriminate].
  repeat constructor. discriminate.
Defined.

(** *** The class *)

Lemma fold_left_routes (step : string -> IApiOperations -> IOperation -> string)
    (f : IApiOperations * IOperation -> string)
    (groups : list IApiOperations) (out : string) :
  (forall out group operation,
     step out group operation = out +:+ f (group, operation)) ->
  fold_left (fun out group =>
               fold_left (fun out operation => step out group operation)
                         (ao_operations group) out)
            groups out
  = out +:+ textOf f (flat_map (fun group =>
                                  map (pair group) (ao_operations group))
                               groups).
Proof.
  intros Hstep. revert out.
  induction groups as [|group groups IH]; intros out.
  - cbn [fold_left flat_map]. by rewrite textOf_nil, append_nil_r.
  - cbn [fold_left flat_map]. rewrite IH, textOf_app, <- append_assoc.
    f_equal. generalize (ao_operations group). clear IH.
    intros ops. revert out. induction ops as [|o ops IHo]; intros out.
    + cbn [fold_left map]. by rewrite textOf_nil, append_nil_r.
    + cbn [fold_left map]. by rewrite IHo, Hstep, textOf_cons, append_assoc.
Qed.

(** X17. With the declarations inlined (no split interfaces), the text of
    a class is, in this order: the import of [Api] and
    [IOperationOptions], the declaration of every model, the options
    declaration of every operation, the head of the class with the base
    path of the resource, and one method for every operation, called with
    the path of the group that lists it, the groups and their operations
    in the order of the resource.  Both listings compose the class so. *)
Theorem getTsApi_inline_composition (className : string) (api : IApi)
    (options : IGenerateApisOptions) :
  opt_splitInterfaces options = false ->
  Generate.getTsApi className api options
  = ((((("import { Api, IOperationOptions } from " +:+ Js.quote +:+ "./Api"
          +:+ Js.quote +:+ ";")
        +:+ textOf (fun model =>
                      Js.nl +:+ Js.nl
                      +:+ Generate.getTsInterface model options)
                   (Js.values (api_models api)))
       +:+ textOf (fun route =>
                     Js.nl +:+ Js.nl
                     +:+ Generate.getTsOperationOptionsInterface
                           route.2 options)
                  (routes api))
      +:+ classHead className api)
     +:+ textOf (fun route =>
                   Js.nl +:+ Js.nl
                   +:+ Generate.getTsOperation route.2 (ao_path route.1))
                (routes api))
    +:+ Js.nl +:+ "}" +:+ Js.nl
  /\ GenerateAlt.getTsApi className api options
     = ((((("import { Api, IOperationOptions } from " +:+ Js.quote
             +:+ "./Api" +:+ Js.quote +:+ ";" +:+ Js.nl)
           +:+ textOf (fun model =>
                         Js.nl +:+ GenerateAlt.getTsInterface model options)
                      (Js.values (api_models api)))
          +:+ textOf (fun route =>
                        Js.nl
                        +:+ GenerateAlt.getTsOperationOptionsInterface
                              route.2 options)
                     (routes api))
         +:+ classHeadAlt className api)
        +:+ textOf (fun route =>
                      Js.nl
                      +:+ GenerateAlt.getTsOperation route.2
                            (ao_path route.1))
                   (routes api))
       +:+ "}" +:+ Js.nl.
Proof.
  intros Hsplit. split.
  - unfold Generate.getTsApi. rewrite Hsplit. cbv zeta.
    rewrite (fold_left_ext_text _
               (fun model => Js.nl +:+ Js.nl
                             +:+ Generate.getTsInterface model options))
      by reflexivity.
    rewrite (fold_left_routes
               (fun out _ operation =>
                  out +:+ Js.nl +:+ Js.nl
                  +:+ Generate.getTsOperationOptionsInterface
                        operation options)
               (fun route => Js.nl +:+ Js.nl
                  +:+ Generate.getTsOperationOptionsInterface
                        route.2 options))
      by reflexivity.
    rewrite (fold_left_routes
               (fun out group operation =>
                  (out +:+ Js.nl) +:+ Js.nl
                  +:+ Generate.getTsOperation operation (ao_path group))
               (fun route => Js.nl +:+ Js.nl
                  +:+ Generate.getTsOperation route.2 (ao_path route.1)))
      by (intros; by rewrite append_assoc).
    fold (routes api). unfold classHead.
    destruct (Js.truthy (api_description api));
      rewrite ?append_nil_l, !append_assoc; reflexivity.
  - unfold GenerateAlt.getTsApi. rewrite Hsplit. cbv zeta.
    rewrite (fold_left_ext_text _
               (fun model => Js.nl
                             +:+ GenerateAlt.getTsInterface model options))
      by reflexivity.
    rewrite (fold_left_routes
               (fun out _ operation =>
                  out +:+ Js.nl
                  +:+ GenerateAlt.getTsOperationOptionsInterface
                        operation options)
               (fun route => Js.nl
                  +:+ GenerateAlt.getTsOperationOptionsInterface
                        route.2 options))
      by reflexivity.
    rewrite (fold_left_routes
               (fun out group operation =>
                  (out +:+ Js.nl)
                  +:+ GenerateAlt.getTsOperation operation (ao_path group))
               (fun route => Js.nl
                  +:+ GenerateAlt.getTsOperation route.2 (ao_path route.1)))
      by (intros; by rewrite append_assoc).
    fold (routes api). unfold classHeadAlt.
    destruct (Js.truthy (api_description api));
      rewrite ?append_nil_l, !append_assoc; reflexivity.
Qed.

Lemma getTsApi_inline_composition_witness :
  Generate.getTsApi "Pets" Examples.resourceB
                    (Examples.options false EmptyString)
  = (((("import { Api, IOperationOptions } from " +:+ Js.quote +:+ "./Api"
         +:+ Js.quote +:+ ";")
       +:+ (Js.nl +:+ Js.nl
            +:+ Generate.getTsInterface
                  Examples.pet (Examples.options false EmptyString)))
      +:+ (Js.nl +:+ Js.nl
           +:+ Generate.getTsOperationOptionsInterface
                 Examples.getPet (Examples.options false EmptyString)))
     +:+ classHead "Pets" Examples.resourceB)
    +:+ (Js.nl +:+ Js.nl
         +:+ Generate.getTsOperation Examples.getPet "/pets/{id}")
    +:+ Js.nl +:+ "}" +:+ Js.nl.
Proof.
  destruct (getTsApi_inline_composition
              "Pets" Examples.resourceB (Examples.options false EmptyString))
    as [H _]; [reflexivity|].
  rewrite H. vm_compute. reflexivity.
Defined.

Lemma options_name_not_unknown (operation : IOperation) :
  getTsOperationOptionsInterfaceName operation <> "unknown".
Proof. discriminate. Qed.

(** X18. With split interfaces a class imports, one line for each name,
    the options declaration of every operation and the declaration of
    every return type: no name twice, however many operations share a
    return type, and nothing for an operation whose return type is
    empty.  Both listings build the same list. *)
Theorem getTsApi_split_imports (className : string) (api : IApi)
    (options : IGenerateApisOptions) :
  opt_splitInterfaces options = true ->
  Generate.getTsApi className api options
  = (((("import { Api } from " +:+ Js.quote +:+ "./Api" +:+ Js.quote +:+ ";")
       +:+ Js.join Js.nl (map Generate.classImportLine (classImports api)))
      +:+ classHead className api)
     +:+ textOf (fun route =>
                   Js.nl +:+ Js.nl
                   +:+ Generate.getTsOperation route.2 (ao_path route.1))
                (routes api))
    +:+ Js.nl +:+ "}" +:+ Js.nl
  /\ GenerateAlt.getTsApi className api options
     = (((("import { Api } from " +:+ Js.quote +:+ "./Api" +:+ Js.quote
            +:+ ";" +:+ Js.nl)
          +:+ Js.join Js.nl
                (map GenerateAlt.classImportLine (classImports api)))
         +:+ classHeadAlt className api)
        +:+ textOf (fun route =>
                      Js.nl
                      +:+ GenerateAlt.getTsOperation route.2
                            (ao_path route.1))
                   (routes api))
       +:+ "}" +:+ Js.nl
  /\ NoDup (classImports api)
  /\ ("unknown" ∉ classImports api)
  /\ (forall name : string,
        name ∈ classImports api
        <-> exists route : IApiOperations * IOperation,
              route ∈ routes api
              /\ (name = getTsOperationOptionsInterfaceName route.2
                  \/ (Js.truthy (op_type route.2) = true
                      /\ name = "I" +:+ op_type route.2))).
Proof.
  intros Hsplit. split; [|split; [|split; [|split]]].
  - unfold Generate.getTsApi. rewrite Hsplit. cbv zeta.
    rewrite (fold_left_routes
               (fun out group operation =>
                  (out +:+ Js.nl) +:+ Js.nl
                  +:+ Generate.getTsOperation operation (ao_path group))
               (fun route => Js.nl +:+ Js.nl
                  +:+ Generate.getTsOperation route.2 (ao_path route.1)))
      by (intros; by rewrite append_assoc).
    fold (routes api) (classImports api). unfold classHead.
    destruct (Js.truthy (api_description api));
      rewrite ?append_nil_l, !append_assoc; reflexivity.
  - unfold GenerateAlt.getTsApi. rewrite Hsplit. cbv zeta.
    rewrite (fold_left_routes
               (fun out group operation =>
                  (out +:+ Js.nl)
                  +:+ GenerateAlt.getTsOperation operation (ao_path group))
               (fun route => Js.nl
                  +:+ GenerateAlt.getTsOperation route.2 (ao_path route.1)))
      by (intros; by rewrite append_assoc).
    fold (routes api) (classImports api). unfold classHeadAlt.
    destruct (Js.truthy (api_description api));
      rewrite ?append_nil_l, !append_assoc; reflexivity.
  - apply NoDup_filter, uniq_go_spec.
  - unfold classImports. intros [H _]%list_elem_of_filter. by cbn in H.
  - intros name. unfold classImports.
    rewrite list_elem_of_filter.
    destruct (uniq_go_spec
                (flat_map
                   (fun operation =>
                      [getTsOperationOptionsInterfaceName operation;
                       getTsInterfaceName (op_type operation)])
                   (flat_map ao_operations (api_apis api))) [])
      as (_ & Hin & _).
    unfold uniq. rewrite Hin. clear Hin.
    rewrite list_elem_of_In, in_flat_map. split.
    + intros (Hname & (operation & Hop & Hin) & _).
      apply in_flat_map in Hop as (group & Hgroup & Hop).
      exists (group, operation). split.
      * apply list_elem_of_In, in_flat_map. exists group. split; [done|].
        by apply in_map.
      * cbn [snd]. destruct Hin as [<-|[<-|[]]]; [by left|right].
        unfold getTsInterfaceName in Hname |- *.
        destruct (Js.truthy (op_type operation)); [done|].
        by cbn in Hname.
    + intros ([group operation] & Hroute & Hname). cbn [snd] in Hname.
      apply list_elem_of_In, in_flat_map in Hroute
        as (group' & Hgroup & Hroute).
      apply in_map_iff in Hroute as (o & [= -> ->] & Ho).
      assert (In operation (flat_map ao_operations (api_apis api))) as Hop.
      { apply in_flat_map. eauto. }
      split; [|split; [|apply not_elem_of_nil]].
      * destruct Hname as [->|[Ht ->]]; [done|].
        apply Is_true_true. apply negb_true_iff, String.eqb_neq.
        discriminate.
      * exists operation. split; [done|].
        destruct Hname as [->|[Ht ->]]; [by left|right; left].
        unfold getTsInterfaceName. by rewrite Ht.
Qed.

Lemma getTsApi_split_imports_witness :
  classImports Examples.resourceA = ["IPingOptions"]
  /\ NoDup (classImports Examples.resourceA).
Proof.
  destruct (getTsApi_split_imports
              "Pets" Examples.resourceA (Examples.options true EmptyString))
    as (_ & _ & H & _); [reflexivity|].
  split; [reflexivity|exact H].
Defined.

(** *** Runs of [generateApis] *)

Section GenerateApisRuns.
Variable JSON_parse : string -> option Json.
Variable JSON_stringify : Json -> string.
Variable dirname : string.

(** X19. Without the template file the run is rejected at once with the
    error of [copyFile]: the directories are made, but the network is not
    asked and no file is written.  Both listings do so. *)
Theorem generateApis_without_template (options : IGenerateApisOptions)
    (w : World) :
  files w !! (dirname +:+ "/../template/Api.ts") = None ->
  Generate.generateApis JSON_parse JSON_stringify dirname options w
  = (Rejected (ENOENT (dirname +:+ "/../template/Api.ts")),
     after (setupEvents dirname options) w)
  /\ GenerateAlt.generateApis JSON_parse JSON_stringify dirname options w
     = (Rejected (ENOENT (dirname +:+ "/../template/Api.ts")),
        after (setupEvents dirname options) w).
Proof.
  intros Htemplate. unfold Generate.generateApis, GenerateAlt.generateApis,
    after, setupEvents.
  split; run_io; destruct (opt_splitInterfaces options); run_io;
    rewrite Htemplate; reflexivity.
Qed.

(** X20. A load of the schema index that is rejected rejects the run with
    the same error, in the world of that moment: nothing is caught or
    tried again, and the template stays copied.  Both listings do so. *)
Theorem generateApis_index_failure (options : IGenerateApisOptions)
    (template : string) (err : Error) (w : World) :
  files w !! (dirname +:+ "/../template/Api.ts") = Some template ->
  let start := prepared dirname options template w in
  ((Generate.getJson JSON_parse JSON_stringify (opt_url options) start).1
   = Rejected err ->
   Generate.generateApis JSON_parse JSON_stringify dirname options w
   = (Rejected err,
      (Generate.getJson JSON_parse JSON_stringify (opt_url options) start).2))
  /\ ((GenerateAlt.getJson JSON_parse JSON_stringify (opt_url options)
                           start).1
      = Rejected err ->
      GenerateAlt.generateApis JSON_parse JSON_stringify dirname options w
      = (Rejected err,
         (GenerateAlt.getJson JSON_parse JSON_stringify (opt_url options)
                              start).2)).
Proof.
  intros Htemplate. cbv zeta. unfold prepared.
  split; intros Hload.
  - unfold Generate.generateApis. run_io.
    destruct (opt_splitInterfaces options); run_io; rewrite Htemplate;
      cbn [app] in Hload |- *;
      (destruct (Generate.getJson _ _ _ _) as [r loaded];
       cbn [fst snd] in Hload |- *; by subst r).
  - unfold GenerateAlt.generateApis. run_io.
    destruct (opt_splitInterfaces options); run_io; rewrite Htemplate;
      cbn [app] in Hload |- *;
      (destruct (GenerateAlt.getJson _ _ _ _) as [r loaded];
       cbn [fst snd] in Hload |- *; by subst r).
Qed.

(** X21. Without a grouping class name, a schema index without resource
    entries is no error: the run resolves in the world in which the index
    was loaded, with the template copied and no class written.  Both
    listings do so. *)
Theorem generateApis_empty_index_resolves (options : IGenerateApisOptions)
    (template : string) (doc : Json) (schema : ISchemaApi) (w : World) :
  Js.truthy (opt_groupClass options) = false ->
  files w !! (dirname +:+ "/../template/Api.ts") = Some template ->
  Cast.asISchemaApi doc = Some schema ->
  schema_apis schema = [] ->
  let start := prepared dirname options template w in
  ((Generate.getJson JSON_parse JSON_stringify (opt_url options) start).1
   = Resolved doc ->
   Generate.generateApis JSON_parse JSON_stringify dirname options w
   = (Resolved tt,
      (Generate.getJson JSON_parse JSON_stringify (opt_url options) start).2))
  /\ ((GenerateAlt.getJson JSON_parse JSON_stringify (opt_url options)
                           start).1
      = Resolved (GenerateAlt.Parsed doc) ->
      GenerateAlt.generateApis JSON_parse JSON_stringify dirname options w
      = (Resolved tt,
         (GenerateAlt.getJson JSON_parse JSON_stringify (opt_url options)
                              start).2)).
Proof.
  intros Hgroup Htemplate Hcast Hempty. cbv zeta. unfold prepared.
  split; intros Hload.
  - unfold Generate.generateApis. run_io.
    destruct (opt_splitInterfaces options); run_io; rewrite Htemplate;
      cbn [app] in Hload |- *;
      (destruct (Generate.getJson _ _ _ _) as [r loaded];
       cbn [fst snd] in Hload |- *; subst r; rewrite Hcast; run_io;
       rewrite Hempty; cbn [IO.forOf]; run_io;
       unfold Generate.writeGroupClass; rewrite Hgroup; reflexivity).
  - unfold GenerateAlt.generateApis. run_io.
    destruct (opt_splitInterfaces options); run_io; rewrite Htemplate;
      cbn [app] in Hload |- *;
      (destruct (GenerateAlt.getJson _ _ _ _) as [r loaded];
       cbn [fst snd] in Hload |- *; subst r; unfold GenerateAlt.cast;
       run_io; rewrite Hcast; run_io;
       rewrite Hempty; cbn [IO.forOf]; run_io;
       unfold GenerateAlt.writeGroupClass; rewrite Hgroup; reflexivity).
Qed.

(** X22. One resource, no grouping class, declarations inlined: when the
    index lists one entry and both loads resolve, the run logs the entry,
    loads the resource from the base path of the index followed by the
    path of the entry, and then writes one file, the class of the
    resource, named after [getApiName] in the destination directory. *)
Theorem generateApis_one_resource (options : IGenerateApisOptions)
    (template : string) (doc resourceDoc : Json) (schema : ISchemaApi)
    (info : ISchemaApiInfo) (api : IApi) (w w1 w2 : World) :
  Js.truthy (opt_groupClass options) = false ->
  opt_splitInterfaces options = false ->
  files w !! (dirname +:+ "/../template/Api.ts") = Some template ->
  Generate.getJson JSON_parse JSON_stringify (opt_url options)
                   (prepared dirname options template w)
  = (Resolved doc, w1) ->
  Cast.asISchemaApi doc = Some schema ->
  schema_apis schema = [info] ->
  Generate.getJson JSON_parse JSON_stringify
                   (schema_basePath schema +:+ info_path info)
                   (after [schemaLog info] w1)
  = (Resolved resourceDoc, w2) ->
  Cast.asIApi resourceDoc = Some api ->
  Generate.generateApis JSON_parse JSON_stringify dirname options w
  = IO.writeFile (opt_dest options +:+ "/" +:+ getApiName api +:+ ".ts")
                 (Generate.getTsApi (getApiName api) api options) w2.
Proof.
  intros Hgroup Hsplit Htemplate Hindex Hcast Hone Hload Hcast'.
  unfold Generate.generateApis. run_io. rewrite Hsplit. run_io.
  rewrite Htemplate. unfold prepared in Hindex. rewrite Hsplit in Hindex.
  cbn [app] in Hindex. rewrite Hindex. rewrite Hcast. run_io. rewrite Hone.
  cbn [IO.forOf]. run_io. unfold after, schemaLog in Hload.
  cbn [app] in Hload. rewrite Hload. rewrite Hcast'. run_io.
  rewrite Hgroup. cbn [negb]. run_io.
  unfold Generate.writeGroupClass. rewrite Hgroup. reflexivity.
Qed.

End GenerateApisRuns.

Lemma generateApis_without_template_witness :
  (Generate.generateApis JsonText.parse JsonText.stringify "/app/lib"
     (Examples.options false EmptyString) Examples.bareWorld).1
  = Rejected (ENOENT "/app/lib/../template/Api.ts").
Proof.
  destruct (generateApis_without_template
              JsonText.parse JsonText.stringify "/app/lib"
              (Examples.options false EmptyString) Examples.bareWorld)
    as [H _]; [reflexivity|].
  by rewrite H.
Defined.

Lemma generateApis_index_failure_witness :
  (Generate.generateApis JsonText.parse JsonText.stringify "/app/lib"
     (Examples.options false EmptyString)
     (Examples.world Examples.indexUrl "<html>")).1
  = Rejected (SyntaxError "<html>").
Proof.
  destruct (generateApis_index_failure
              JsonText.parse JsonText.stringify "/app/lib"
              (Examples.options false EmptyString) "export class Api {}"
              (SyntaxError "<html>")
              (Examples.world Examples.indexUrl "<html>"))
    as [H _]; [vm_compute; reflexivity|].
  rewrite H; [reflexivity|vm_compute; reflexivity].
Defined.

Lemma generateApis_empty_index_resolves_witness :
  (Generate.generateApis JsonText.parse JsonText.stringify "/app/lib"
     (Examples.options false EmptyString)
     (Examples.world Examples.indexUrl Examples.emptyIndexBody)).1
  = Resolved tt.
Proof.
  destruct (generateApis_empty_index_resolves
              JsonText.parse JsonText.stringify "/app/lib"
              (Examples.options false EmptyString) "export class Api {}"
              (JObject [("apiVersion", JString "1"); ("apis", JArray []);
                        ("basePath", JString "http://x/api");
                        ("swaggerVersion", JString "1.2")])
              Examples.emptyIndex
              (Examples.world Examples.indexUrl Examples.emptyIndexBody))
    as [H _]; [reflexivity|vm_compute; reflexivity|reflexivity..|].
  rewrite H; [reflexivity|vm_compute; reflexivity].
Defined.

Lemma generateApis_one_resource_witness :
  let options := Examples.options false EmptyString in
  let run :=
    Generate.generateApis JsonText.parse JsonText.stringify "/app/lib"
                          options Examples.oneResourceWorld in
  run.1 = Resolved tt
  /\ files run.2 !! "./generated/Pets.ts"
     = Some (Generate.getTsApi "Pets" Examples.resourceB options).
Proof.
  cbv zeta.
  pose (start := prepared "/app/lib" (Examples.options false EmptyString)
                          "export class Api {}" Examples.oneResourceWorld).
  pose (first := Generate.getJson JsonText.parse JsonText.stringify
                                  Examples.indexUrl start).
  pose (second := Generate.getJson
                    JsonText.parse JsonText.stringify "http://x/api/b.json"
                    (after [schemaLog {| info_description := "B";
                                         info_path := "/b.json" |}]
                           first.2)).
  rewrite (generateApis_one_resource
             JsonText.parse JsonText.stringify "/app/lib"
             (Examples.options false EmptyString)
             "export class Api {}" Examples.oneResourceDoc
             Examples.resourceBDoc Examples.oneResourceIndex
             {| info_description := "B"; info_path := "/b.json" |}
             Examples.resourceB Examples.oneResourceWorld first.2 second.2).
  - split; [reflexivity|]. cbn [IO.writeFile snd files].
    change (getApiName Examples.resourceB) with "Pets".
    apply lookup_insert_eq.
  - reflexivity.
  - reflexivity.
  - vm_compute; reflexivity.
  - rewrite (surjective_pairing first). f_equal.
  - vm_compute; reflexivity.
  - reflexivity.
  - rewrite (surjective_pairing second). f_equal.
  - vm_compute; reflexivity.
Defined.

(** *** The files of the split interfaces *)

Lemma written_nil (w : World) : written [] w = w.
Proof. by destruct w. Qed.

Lemma written_cons (file : string * string) (l : list (string * string))
    (w : World) :
  written (file :: l) w = written l (IO.writeFile file.1 file.2 w).2.
Proof.
  unfold written, IO.writeFile. cbn [snd files remote trace writes fold_left
                                     map rev].
  f_equal. by rewrite <- app_assoc.
Qed.

Lemma written_app (l1 l2 : list (string * string)) (w : World) :
  written (l1 ++ l2) w = written l2 (written l1 w).
Proof.
  revert w. induction l1 as [|file l1 IH]; intros w.
  - by rewrite written_nil.
  - cbn [app]. by rewrite !written_cons, IH.
Qed.

Lemma forEach_writeFile {A} (file : A -> string * string) (l : list A)
    (w : World) :
  IO.forEach l (fun x => IO.writeFile (file x).1 (file x).2) w
  = (Resolved tt, written (map file l) w).
Proof.
  unfold IO.forEach. revert w. induction l as [|x l IH]; intros w.
  - cbn [IO.forOf map]. by rewrite written_nil.
  - cbn [IO.forOf map]. rewrite written_cons. unfold IO.bind at 1.
    cbn [IO.writeFile]. apply IH.
Qed.

Lemma forEach_routes (file : IOperation -> string * string)
    (groups : list IApiOperations) (w : World) :
  IO.forEach groups (fun group =>
    IO.forEach (ao_operations group) (fun operation =>
      IO.writeFile (file operation).1 (file operation).2)) w
  = (Resolved tt,
     written (map (fun route : IApiOperations * IOperation => file route.2)
                  (flat_map (fun group =>
                               map (pair group) (ao_operations group))
                            groups)) w).
Proof.
  revert w. induction groups as [|group groups IH]; intros w.
  - cbn [flat_map map]. by rewrite written_nil.
  - unfold IO.forEach at 1. cbn [IO.forOf]. unfold IO.bind at 1.
    rewrite forEach_writeFile. cbn [flat_map].
    rewrite map_app, written_app, map_map. cbn [snd].
    apply IH.
Qed.

Lemma writes_absent (l : list (string * string)) (fs : gmap string string)
    (path : string) :
  path ∉ map fst l -> writes l fs !! path = fs !! path.
Proof.
  revert fs. induction l as [|[p d] l IH]; intros fs Hp; [reflexivity|].
  cbn [map fst] in Hp. apply not_elem_of_cons in Hp as [Hne Hp].
  cbn [writes fold_left fst snd]. fold (writes l (<[p := d]> fs)).
  rewrite IH by done. by apply lookup_insert_ne.
Qed.

Lemma writes_present (l : list (string * string)) (fs : gmap string string)
    (path data : string) :
  NoDup (map fst l) -> (path, data) ∈ l -> writes l fs !! path = Some data.
Proof.
  revert fs. induction l as [|[p d] l IH]; intros fs Hnd Hin.
  - by apply elem_of_nil in Hin.
  - cbn [map fst] in Hnd. apply NoDup_cons in Hnd as [Hp Hnd].
    cbn [writes fold_left fst snd]. fold (writes l (<[p := d]> fs)).
    apply elem_of_cons in Hin as [[= -> ->]|Hin].
    + rewrite writes_absent by done. apply lookup_insert_eq.
    + by apply IH.
Qed.

Lemma interface_name_no_slash (modelId : ModelID) :
  hasChar "/" modelId = false ->
  hasChar "/" (getTsInterfaceName modelId) = false.
Proof.
  intros H. unfold getTsInterfaceName.
  destruct (Js.truthy modelId); [|reflexivity].
  by rewrite hasChar_append, H.
Qed.

Lemma options_name_no_slash (operation : IOperation) :
  hasChar "/" (op_nickname operation) = false ->
  hasChar "/" (getTsOperationOptionsInterfaceName operation) = false.
Proof.
  intros H. unfold getTsOperationOptionsInterfaceName.
  by rewrite !hasChar_append, H.
Qed.

(** X23. With split interfaces, once the directory [interfaces] of the
    destination is made and when no model id and no nickname of the
    resource holds a slash, the step for a resource resolves and has
    written one file for every model and then one for every operation's
    options, each named after its declaration and put into that directory
    itself (the name has no slash).  When no two of these names are the
    same, every declaration is in its file afterwards, and every other
    file is as before.  Both listings do so, each with its own
    renderers. *)
Theorem writeInterfaces_files (api : IApi) (options : IGenerateApisOptions)
    (w : World) (path data : string) :
  Mkdir (opt_dest options +:+ "/interfaces") ∈ trace w ->
  Forall (fun model => hasChar "/" (model_id model) = false)
         (Js.values (api_models api)) ->
  Forall (fun route => hasChar "/" (op_nickname route.2) = false)
         (routes api) ->
  let files1 :=
    interfaceFiles (fun m => Generate.getTsInterface m options)
                   (fun o => Generate.getTsOperationOptionsInterface o options)
                   api options in
  let files2 :=
    interfaceFiles (fun m => GenerateAlt.getTsInterface m options)
                   (fun o =>
                      GenerateAlt.getTsOperationOptionsInterface o options)
                   api options in
  Generate.writeInterfaces api options w = (Resolved tt, written files1 w)
  /\ GenerateAlt.writeInterfaces api options w
     = (Resolved tt, written files2 w)
  /\ map fst files2 = map fst files1
  /\ ((path, data) ∈ files1 ->
      exists name : string,
        path = opt_dest options +:+ "/interfaces/" +:+ name +:+ ".ts"
        /\ hasChar "/" name = false)
  /\ (NoDup (map fst files1) -> (path, data) ∈ files1 ->
      files (written files1 w) !! path = Some data)
  /\ (path ∉ map fst files1 ->
      files (written files1 w) !! path = files w !! path).
Proof.
  intros _ Hmodels Hroutes. cbv zeta. split; [|split; [|split; [|split; [|split]]]].
  - unfold Generate.writeInterfaces, interfaceFiles. unfold IO.bind.
    rewrite (forEach_writeFile
               (fun model =>
                  (opt_dest options +:+ "/interfaces/"
                     +:+ getTsInterfaceName (model_id model) +:+ ".ts",
                   Generate.getTsInterface model options))).
    rewrite (forEach_routes
               (fun operation =>
                  (opt_dest options +:+ "/interfaces/"
                     +:+ getTsOperationOptionsInterfaceName operation
                     +:+ ".ts",
                   Generate.getTsOperationOptionsInterface
                     operation options))).
    by rewrite written_app.
  - unfold GenerateAlt.writeInterfaces, interfaceFiles. unfold IO.bind.
    rewrite (forEach_writeFile
               (fun model =>
                  (opt_dest options +:+ "/interfaces/"
                     +:+ getTsInterfaceName (model_id model) +:+ ".ts",
                   GenerateAlt.getTsInterface model options))).
    rewrite (forEach_routes
               (fun operation =>
                  (opt_dest options +:+ "/interfaces/"
                     +:+ getTsOperationOptionsInterfaceName operation
                     +:+ ".ts",
                   GenerateAlt.getTsOperationOptionsInterface
                     operation options))).
    by rewrite written_app.
  - unfold interfaceFiles. by rewrite !map_app, !map_map.
  - unfold interfaceFiles.
    intros [Hin|Hin]%elem_of_app; apply list_elem_of_fmap in Hin.
    + destruct Hin as (model & [= -> _] & Hin).
      exists (getTsInterfaceName (model_id model)). split; [reflexivity|].
      apply interface_name_no_slash.
      by apply (proj1 (Forall_forall _ _) Hmodels).
    + destruct Hin as (route & [= -> _] & Hin).
      exists (getTsOperationOptionsInterfaceName route.2).
      split; [reflexivity|]. apply options_name_no_slash.
      by apply (proj1 (Forall_forall _ _) Hroutes).
  - intros Hnd Hin. by apply writes_present.
  - intros Hout. by apply writes_absent.
Qed.

Lemma writeInterfaces_files_witness :
  let options := Examples.options true EmptyString in
  let w := after [Mkdir "./generated/interfaces"] Examples.bareWorld in
  Mkdir (opt_dest options +:+ "/interfaces") ∈ trace w
  /\ files (Generate.writeInterfaces Examples.resourceB options w).2
     !! "./generated/interfaces/IPet.ts"
     = Some (Generate.getTsInterface Examples.pet options)
  /\ files (Generate.writeInterfaces Examples.resourceB options w).2
     !! "./generated/Api.ts" = None.
Proof.
  cbv zeta.
  assert (Mkdir (opt_dest (Examples.options true EmptyString)
                   +:+ "/interfaces")
          ∈ trace (after [Mkdir "./generated/interfaces"]
                         Examples.bareWorld)) as Hdir.
  { cbn. apply elem_of_cons. by left. }
  assert (Forall (fun model => hasChar "/" (model_id model) = false)
                 (Js.values (api_models Examples.resourceB))) as Hmodels.
  { cbn. repeat (constructor; [reflexivity|]). constructor. }
  assert (Forall (fun route : IApiOperations * IOperation =>
                    hasChar "/" (op_nickname route.2) = false)
                 (routes Examples.resourceB)) as Hroutes.
  { cbn. repeat (constructor; [reflexivity|]). constructor. }
  split; [exact Hdir|].
  destruct (writeInterfaces_files
              Examples.resourceB (Examples.options true EmptyString)
              (after [Mkdir "./generated/interfaces"] Examples.bareWorld)
              "./generated/interfaces/IPet.ts"
              (Generate.getTsInterface
                 Examples.pet (Examples.options true EmptyString))
              Hdir Hmodels Hroutes)
    as (Hrun & _ & _ & _ & Hin & _).
  destruct (writeInterfaces_files
              Examples.resourceB (Examples.options true EmptyString)
              (after [Mkdir "./generated/interfaces"] Examples.bareWorld)
              "./generated/Api.ts" EmptyString Hdir Hmodels Hroutes)
    as (_ & _ & _ & _ & _ & Hout).
  rewrite Hrun. cbn [snd]. split.
  - apply Hin.
    + cbn. repeat (apply NoDup_cons; split;
                   [rewrite ?elem_of_cons, ?elem_of_nil; intros H;
                    repeat destruct H as [H|H]; done|]).
      apply NoDup_nil_2.
    + cbn. apply elem_of_cons. by left.
  - rewrite Hout; [reflexivity|].
    cbn. rewrite !elem_of_cons, elem_of_nil. intros H.
    repeat destruct H as [H|H]; done.
Defined.

(** *** The imports of an options declaration *)

(** X24. With split interfaces the options declaration starts with the
    import of [IOperationOptions] and one import for each interface of a
    body parameter, each interface once however many body parameters have
    it; the import lines come from an array added to a text, so where
    there are several they are separated by commas.  Without split
    interfaces the declaration has no import.  Both listings do so. *)
Theorem options_declaration_imports (operation : IOperation)
    (options : IGenerateApisOptions) :
  (opt_splitInterfaces options = true ->
   Generate.getTsOperationOptionsInterface operation options
   = ((("import { IOperationOptions } from " +:+ Js.quote +:+ "../Api"
         +:+ Js.quote +:+ ";")
       +:+ Js.join "," (map (fun name => Js.nl +:+ importLine name)
                            (bodyInterfaces operation)))
      +:+ Js.nl +:+ Js.nl)
     +:+ optionsBody operation
   /\ GenerateAlt.getTsOperationOptionsInterface operation options
      = ((("import { IOperationOptions } from " +:+ Js.quote +:+ "../Api"
            +:+ Js.quote +:+ ";" +:+ Js.nl)
          +:+ Js.join "," (map (fun name => importLine name +:+ Js.nl)
                               (bodyInterfaces operation)))
         +:+ Js.nl)
        +:+ optionsBodyAlt operation)
  /\ (opt_splitInterfaces options = false ->
      Generate.getTsOperationOptionsInterface operation options
      = optionsBody operation
      /\ GenerateAlt.getTsOperationOptionsInterface operation options
         = optionsBodyAlt operation)
  /\ NoDup (bodyInterfaces operation)
  /\ (forall name : string,
        name ∈ bodyInterfaces operation
        <-> exists param : IParameter,
              param ∈ paramGroup "body" operation
              /\ name = getTsInterfaceName (param_type param)).
Proof.
  split; [|split; [|split]].
  - intros Hsplit. split.
    + unfold Generate.getTsOperationOptionsInterface.
      rewrite groupStep_fold. cbv zeta. rewrite !append_nil_l, Hsplit.
      change (filter (Generate.isParamType "body") (op_parameters operation))
        with (paramGroup "body" operation).
      change (filter (Generate.isParamType "query") (op_parameters operation))
        with (paramGroup "query" operation).
      change (filter (Generate.isParamType "path") (op_parameters operation))
        with (paramGroup "path" operation).
      rewrite !(truthy_textOf _ _ getTsParam_truthy), !marker_of_some.
      rewrite (groupField_if "  body" "body"),
        (groupField_if "  query" "query"),
        (groupField_if "  params" "params") by reflexivity.
      fold (bodyInterfaces operation).
      rewrite truthy_append_l by reflexivity. unfold optionsBody.
      by rewrite !append_assoc.
    + unfold GenerateAlt.getTsOperationOptionsInterface.
      rewrite groupStep_alt_fold. cbv zeta.
      cbn [GenerateAlt.g_body GenerateAlt.g_query GenerateAlt.g_path
           GenerateAlt.g_bodyRequired GenerateAlt.g_queryRequired
           GenerateAlt.noGroups orb].
      rewrite !append_nil_l, Hsplit.
      change (filter (GenerateAlt.isParamType "body")
                     (op_parameters operation))
        with (paramGroup "body" operation).
      change (filter (GenerateAlt.isParamType "query")
                     (op_parameters operation))
        with (paramGroup "query" operation).
      change (filter (GenerateAlt.isParamType "path")
                     (op_parameters operation))
        with (paramGroup "path" operation).
      rewrite (truthy_textOf _ _ bodyLine_truthy),
        (truthy_textOf _ _ queryLine_truthy),
        (truthy_textOf _ _ pathLine_truthy), !marker_of_some.
      rewrite (groupField_if_alt "  body" "body"),
        (groupField_if_alt "  query" "query"), paramsField_if_alt
        by reflexivity.
      fold (bodyInterfaces operation).
      rewrite truthy_append_l by reflexivity. unfold optionsBodyAlt.
      by rewrite !append_assoc.
  - intros Hsplit.
    destruct (options_interface_text operation options)
      as (imports & Himports & ->).
    destruct (options_interface_text_alt operation options)
      as (imports' & Himports' & ->).
    rewrite Himports, Himports' by done. by rewrite !append_nil_l.
  - apply uniq_go_spec.
  - intros name. unfold bodyInterfaces, uniq.
    destruct (uniq_go_spec
                (map (fun param => getTsInterfaceName (param_type param))
                     (paramGroup "body" operation)) []) as (_ & -> & _).
    split.
    + intros [(param & -> & Hin)%list_elem_of_fmap _]. eauto.
    + intros (param & Hin & ->). split; [|apply not_elem_of_nil].
      by apply (list_elem_of_fmap_2
                  (fun param => getTsInterfaceName (param_type param))).
Qed.

Lemma options_declaration_imports_witness :
  let upload :=
    Examples.operation "Upload"
      [Examples.parameter "pet" "body" "Pet" true;
       Examples.parameter "mate" "body" "Pet" false;
       Examples.parameter "tag" "body" "Tag" false] EmptyString in
  bodyInterfaces upload = ["IPet"; "ITag"]
  /\ Generate.getTsOperationOptionsInterface
       upload (Examples.options true EmptyString)
     = ((("import { IOperationOptions } from " +:+ Js.quote +:+ "../Api"
           +:+ Js.quote +:+ ";")
         +:+ (Js.nl +:+ importLine "IPet" +:+ ","
              +:+ Js.nl +:+ importLine "ITag"))
        +:+ Js.nl +:+ Js.nl)
       +:+ optionsBody upload.
Proof.
  cbv zeta. split; [reflexivity|].
  destruct (options_declaration_imports
              (Examples.operation "Upload"
                 [Examples.parameter "pet" "body" "Pet" true;
                  Examples.parameter "mate" "body" "Pet" false;
                  Examples.parameter "tag" "body" "Tag" false] EmptyString)
              (Examples.options true EmptyString)) as [H _].
  destruct H as [-> _]; [reflexivity|]. reflexivity.
Defined.

(** *** A failure after the first resource *)

Lemma getJson_keeps_other_files (JSON_parse : string -> option Json)
    (JSON_stringify : Json -> string) (url path : string) (w : World) :
  path <> cacheFile url ->
  files (Generate.getJson JSON_parse JSON_stringify url w).2 !! path
  = files w !! path.
Proof.
  intros Hpath.
  destruct (getJson_frame JSON_parse JSON_stringify url w) as (_ & H & _).
  by apply H.
Qed.

(** X25. No partial result is taken back: without grouping class and
    split interfaces, when the index lists two resources and the load of
    the second one is rejected, the run is rejected with that error after
    the class file of the first resource was written, and the file is
    still there with the class of the first resource. *)
Theorem generateApis_keeps_earlier_files (JSON_parse : string -> option Json)
    (JSON_stringify : Json -> string) (dirname : string)
    (options : IGenerateApisOptions) (template : string)
    (doc resourceDoc : Json) (schema : ISchemaApi)
    (first second : ISchemaApiInfo) (api : IApi) (err : Error)
    (w w1 w2 w3 : World) :
  Js.truthy (opt_groupClass options) = false ->
  opt_splitInterfaces options = false ->
  files w !! (dirname +:+ "/../template/Api.ts") = Some template ->
  Generate.getJson JSON_parse JSON_stringify (opt_url options)
                   (prepared dirname options template w)
  = (Resolved doc, w1) ->
  Cast.asISchemaApi doc = Some schema ->
  schema_apis schema = [first; second] ->
  Generate.getJson JSON_parse JSON_stringify
                   (schema_basePath schema +:+ info_path first)
                   (after [schemaLog first] w1)
  = (Resolved resourceDoc, w2) ->
  Cast.asIApi resourceDoc = Some api ->
  let classFile := opt_dest options +:+ "/" +:+ getApiName api +:+ ".ts" in
  let class := Generate.getTsApi (getApiName api) api options in
  Generate.getJson JSON_parse JSON_stringify
                   (schema_basePath schema +:+ info_path second)
                   (after [schemaLog second]
                          (IO.writeFile classFile class w2).2)
  = (Rejected err, w3) ->
  Generate.generateApis JSON_parse JSON_stringify dirname options w
  = (Rejected err, w3)
  /\ files w3 !! classFile = Some class.
Proof.
  intros Hgroup Hsplit Htemplate Hindex Hcast Htwo Hload Hcast'.
  cbv zeta. intros Hfail. split.
  - unfold Generate.generateApis. run_io. rewrite Hsplit. run_io.
    rewrite Htemplate. unfold prepared in Hindex. rewrite Hsplit in Hindex.
    cbn [app] in Hindex. rewrite Hindex. rewrite Hcast. run_io. rewrite Htwo.
    cbn [IO.forOf]. run_io. unfold after, schemaLog in Hload, Hfail.
    cbn [app] in Hload, Hfail. rewrite Hload. rewrite Hcast'. run_io.
    rewrite Hgroup. cbn [negb]. run_io.
    unfold IO.writeFile in Hfail. cbn [snd files remote trace] in Hfail.
    by rewrite Hfail.
  - replace w3 with
      (Generate.getJson JSON_parse JSON_stringify
         (schema_basePath schema +:+ info_path second)
         (after [schemaLog second]
            (IO.writeFile
               (opt_dest options +:+ "/" +:+ getApiName api +:+ ".ts")
               (Generate.getTsApi (getApiName api) api options) w2).2)).2
      by (by rewrite Hfail).
    rewrite getJson_keeps_other_files.
    + cbn [after IO.writeFile snd files]. apply lookup_insert_eq.
    + intros Heq. symmetry in Heq.
      assert (opt_dest options +:+ "/" +:+ getApiName api +:+ ".ts"
              = (opt_dest options +:+ "/" +:+ getApiName api) +:+ ".ts")
        as Hts by (by rewrite !append_assoc).
      rewrite Hts in Heq. by apply cacheFile_not_ts in Heq.
Qed.

Lemma generateApis_keeps_earlier_files_witness :
  let options := Examples.options false EmptyString in
  let run :=
    Generate.generateApis JsonText.parse JsonText.stringify "/app/lib"
                          options Examples.halfServedWorld in
  run.1 = Rejected (FetchError "http://x/api/b.json")
  /\ files run.2 !! "./generated/Pets.ts"
     = Some (Generate.getTsApi "Pets" Examples.resourceA options).
Proof.
  cbv zeta.
  pose (start := prepared "/app/lib" (Examples.options false EmptyString)
                          "export class Api {}" Examples.halfServedWorld).
  pose (r1 := Generate.getJson JsonText.parse JsonText.stringify
                               Examples.indexUrl start).
  pose (r2 := Generate.getJson
                JsonText.parse JsonText.stringify "http://x/api/a.json"
                (after [schemaLog {| info_description := "A";
                                     info_path := "/a.json" |}] r1.2)).
  pose (r3 := Generate.getJson
                JsonText.parse JsonText.stringify "http://x/api/b.json"
                (after [schemaLog {| info_description := "B";
                                     info_path := "/b.json" |}]
                   (IO.writeFile
                      "./generated/Pets.ts"
                      (Generate.getTsApi
                         "Pets" Examples.resourceA
                         (Examples.options false EmptyString)) r2.2).2)).
  destruct (generateApis_keeps_earlier_files
              JsonText.parse JsonText.stringify "/app/lib"
              (Examples.options false EmptyString)
              "export class Api {}" Examples.twoResourcesDoc
              Examples.resourceADoc
              {| schema_apiVersion := "1";
                 schema_apis := [{| info_description := "A";
                                    info_path := "/a.json" |};
                                 {| info_description := "B";
                                    info_path := "/b.json" |}];
                 schema_basePath := "http://x/api";
                 schema_swaggerVersion := "1.2" |}
              {| info_description := "A"; info_path := "/a.json" |}
              {| info_description := "B"; info_path := "/b.json" |}
              Examples.resourceA (FetchError "http://x/api/b.json")
              Examples.halfServedWorld r1.2 r2.2 r3.2) as [Hrun Hfile].
  - reflexivity.
  - reflexivity.
  - vm_compute; reflexivity.
  - rewrite (surjective_pairing r1). by f_equal.
  - vm_compute; reflexivity.
  - reflexivity.
  - rewrite (surjective_pairing r2). by f_equal.
  - vm_compute; reflexivity.
  - rewrite (surjective_pairing r3). by f_equal.
  - rewrite Hrun. split; [reflexivity|exact Hfile].
Defined.
